(** * Brent oil dashboard backend: the analytical data layer of
      [dashboard/backend/app.py] ([OilDataAPI]) and what its specification
      says about it.

    Modelling conventions.
    - A pandas/NumPy [float64] cell is an exact rational extended with the
      IEEE special values [NaN], [+inf] and [-inf]; rounding is not modelled
      and zero carries no sign. Sums, means and quotients are therefore the
      exact ones: statements about them give the formula the code evaluates,
      not the last bits of the float it returns.
    - [np.log] and [np.sqrt] on finite positive arguments, the string
      parser behind [pd.Timestamp] and the printing of timestamps are library
      code outside the repository: they are parameters of the development
      ([ln], [sqrt], [parse_ts], [strftime], [csv_date]).
    - A [Timestamp] is a number of nanoseconds since the epoch; the date
      column of the price table is tz-naive and holds no missing value.
    - [DataFrame.sort_values] sorts with quicksort, which leaves the order
      of rows of equal date to the algorithm; [sort_values_date] takes the
      order of a stable sort. With pairwise distinct dates every sort gives
      that order ([sorted_by_date_unique]), and statements about the position
      of a row ask for distinct dates.
    - A Python call either returns a value or raises: [outcome]. *)

From Stdlib Require Import ZArith QArith Qabs String Ascii List Sorted Permutation
  Bool Lia Lqa.
Import ListNotations.

Set Warnings "-register-all".

Local Open Scope Z_scope.

(** ** Python outcomes *)

Inductive exn : Type :=
| ValueError | TypeError | ZeroDivisionError | IndexError | FileNotFoundError.

Inductive outcome (A : Type) : Type :=
| Returns (a : A)
| Raises (e : exn).

Arguments Returns {A} a.
Arguments Raises {A} e.

Definition obind {A B} (m : outcome A) (k : A -> outcome B) : outcome B :=
  match m with
  | Returns a => k a
  | Raises e => Raises e
  end.

(** ** float64 cells *)

Module F64.

Inductive float64 : Type :=
| NaN
| NegInf
| PosInf
| Fin (q : Q).

Definition of_Z (z : Z) : float64 := Fin (inject_Z z).
Definition of_nat (n : nat) : float64 := of_Z (Z.of_nat n).

Definition isna (a : float64) : bool :=
  match a with NaN => true | _ => false end.

Definition notna (a : float64) : bool := negb (isna a).

(** Sign of a value that is not NaN. *)
Definition sgn (a : float64) : comparison :=
  match a with
  | NaN => Eq
  | NegInf => Lt
  | PosInf => Gt
  | Fin q => Qcompare q 0
  end.

Definition fneg (a : float64) : float64 :=
  match a with
  | NaN => NaN
  | NegInf => PosInf
  | PosInf => NegInf
  | Fin q => Fin (- q)
  end.

Definition fadd (a b : float64) : float64 :=
  match a, b with
  | NaN, _ | _, NaN => NaN
  | PosInf, NegInf | NegInf, PosInf => NaN
  | PosInf, _ | _, PosInf => PosInf
  | NegInf, _ | _, NegInf => NegInf
  | Fin x, Fin y => Fin (x + y)
  end.

Definition fsub (a b : float64) : float64 := fadd a (fneg b).

Definition fmul (a b : float64) : float64 :=
  match a, b with
  | NaN, _ | _, NaN => NaN
  | Fin x, Fin y => Fin (x * y)
  | _, _ =>
      match sgn a, sgn b with
      | Eq, _ | _, Eq => NaN
      | Gt, Gt | Lt, Lt => PosInf
      | _, _ => NegInf
      end
  end.

(** NumPy division: a zero divisor gives an infinity or NaN, it never
    raises. *)
Definition fdiv (a b : float64) : float64 :=
  match a, b with
  | NaN, _ | _, NaN => NaN
  | Fin x, Fin y =>
      if Qeq_bool y 0 then
        match Qcompare x 0 with
        | Gt => PosInf
        | Lt => NegInf
        | Eq => NaN
        end
      else Fin (x / y)
  | Fin _, _ => Fin 0
  | _, Fin y =>
      match sgn a, Qcompare y 0 with
      | Gt, Lt | Lt, Gt | Lt, Eq => NegInf
      | _, _ => PosInf
      end
  | _, _ => NaN
  end.

(** [a <= b] on cells; false as soon as one side is NaN. *)
Definition fleb (a b : float64) : bool :=
  match a, b with
  | NaN, _ | _, NaN => false
  | NegInf, _ | _, PosInf => true
  | _, NegInf | PosInf, _ => false
  | Fin x, Fin y => Qle_bool x y
  end.

(** Python's [bool(x)] on a float: only zero is falsy (NaN is truthy). *)
Definition truthy (a : float64) : bool :=
  match a with
  | Fin q => negb (Qeq_bool q 0)
  | _ => true
  end.

(** Agreement up to the representation of the rational. *)
Definition feq (a b : float64) : Prop :=
  match a, b with
  | NaN, NaN | NegInf, NegInf | PosInf, PosInf => True
  | Fin x, Fin y => (x == y)%Q
  | _, _ => False
  end.

Definition is_fin (a : float64) : bool :=
  match a with Fin _ => true | _ => false end.

(** A strictly positive (finite) price. *)
Definition positive (a : float64) : Prop :=
  match a with Fin q => (0 < q)%Q | _ => False end.

End F64.
Import F64.

(** ** pandas Series operations used by the backend *)

Section Pandas.

(** [np.log] and [np.sqrt] on finite arguments inside their domain. *)
Variable ln : Q -> Q.
Variable sqrt : Q -> Q.

Definition np_log (a : float64) : float64 :=
  match a with
  | NaN | NegInf => NaN
  | PosInf => PosInf
  | Fin q =>
      match Qcompare q 0 with
      | Lt => NaN
      | Eq => NegInf
      | Gt => Fin (ln q)
      end
  end.

Definition np_sqrt (a : float64) : float64 :=
  match a with
  | NaN | NegInf => NaN
  | PosInf => PosInf
  | Fin q =>
      match Qcompare q 0 with
      | Lt => NaN
      | _ => Fin (sqrt q)
      end
  end.

Definition dropna_values (l : list float64) : list float64 := filter notna l.

Definition fsum (l : list float64) : float64 := fold_right fadd (Fin 0) l.

(** [Series.mean()], [skipna=True]. *)
Definition series_mean (l : list float64) : float64 :=
  match dropna_values l with
  | [] => NaN
  | v => fdiv (fsum v) (of_nat (length v))
  end.

Definition fmin (a b : float64) : float64 := if fleb a b then a else b.
Definition fmax (a b : float64) : float64 := if fleb a b then b else a.

(** [Series.min()] and [Series.max()], [skipna=True]. *)
Definition series_min (l : list float64) : float64 :=
  match dropna_values l with
  | [] => NaN
  | x :: v => fold_left fmin v x
  end.

Definition series_max (l : list float64) : float64 :=
  match dropna_values l with
  | [] => NaN
  | x :: v => fold_left fmax v x
  end.

Fixpoint insert_sorted (x : float64) (l : list float64) : list float64 :=
  match l with
  | [] => [x]
  | y :: t => if fleb x y then x :: l else y :: insert_sorted x t
  end.

Definition sort_values_f (l : list float64) : list float64 :=
  fold_right insert_sorted [] l.

(** [Series.median()], [skipna=True]: the middle order statistic, or the mean
    of the two middle ones. *)
Definition series_median (l : list float64) : float64 :=
  let v := sort_values_f (dropna_values l) in
  let n := length v in
  match n with
  | O => NaN
  | _ =>
      if Nat.even n
      then fdiv (fadd (nth (n / 2 - 1) v NaN) (nth (n / 2) v NaN)) (of_Z 2)
      else nth (n / 2) v NaN
  end.

(** [Series.std()], [ddof=1], [skipna=True]. *)
Definition series_std (l : list float64) : float64 :=
  let v := dropna_values l in
  let n := length v in
  if (n <=? 1)%nat then NaN
  else
    let m := fdiv (fsum v) (of_nat n) in
    let ss := fsum (map (fun x => fmul (fsub x m) (fsub x m)) v) in
    np_sqrt (fdiv ss (of_nat (n - 1))).

(** [Series.diff()]: [x[t] - x[t-1]], the first one against a missing
    predecessor. *)
Fixpoint diff_from (prev : float64) (l : list float64) : list float64 :=
  match l with
  | [] => []
  | x :: t => fsub x prev :: diff_from x t
  end.

Definition diff (l : list float64) : list float64 := diff_from NaN l.

(** [Series.ffill()]. *)
Fixpoint ffill_from (last : float64) (l : list float64) : list float64 :=
  match l with
  | [] => []
  | x :: t =>
      if isna x then last :: ffill_from last t else x :: ffill_from x t
  end.

Fixpoint pct_from (prev : float64) (l : list float64) : list float64 :=
  match l with
  | [] => []
  | x :: t => fsub (fdiv x prev) (of_Z 1) :: pct_from x t
  end.

(** [Series.pct_change()] of pandas 2.0 (the pinned version): missing
    values are forward-filled, then [data / data.shift(1) - 1]. *)
Definition pct_change (l : list float64) : list float64 :=
  pct_from NaN (ffill_from NaN l).

(** The trailing window of at most [w] cells that ends at position [i]. *)
Definition window_at (w : nat) (l : list float64) (i : nat) : list float64 :=
  skipn (S i - w) (firstn (S i) l).

(** Rolling windows take infinities for missing values. *)
Definition inf_to_nan (a : float64) : float64 :=
  match a with
  | NegInf | PosInf => NaN
  | _ => a
  end.

(** [Series.rolling(window=w).agg()]: the infinities of the column are
    turned into NaN first; [min_periods] defaults to [w], so a window with
    fewer than [w] present values gives NaN. *)
Definition rolling (w : nat) (agg : list float64 -> float64)
    (l : list float64) : list float64 :=
  let values := map inf_to_nan l in
  map (fun i =>
         let obs := dropna_values (window_at w values i) in
         if (length obs <? w)%nat then NaN else agg obs)
      (seq 0 (length values)).

End Pandas.

(** ** Data model *)

(** Nanoseconds since the epoch. *)
Definition Timestamp : Type := Z.

Definition NS_PER_DAY : Z := 86400 * 1000000000.

(** [timedelta(days=d)]. *)
Definition timedelta (d : Z) : Z := d * NS_PER_DAY.

(** [Timedelta.days]: whole days, rounded towards minus infinity. *)
Definition td_days (delta : Z) : Z := delta / NS_PER_DAY.

(** What [pd.Timestamp(s)] makes of a string: a tz-naive timestamp, NaT, a
    tz-aware timestamp (the string names a zone or an offset, as in
    ['2020-01-03T00:00:00Z']), or a [ValueError]. *)
Inductive parsed : Type :=
| Parsed (t : Timestamp)
| ParsedNaT
| ParsedAware (t : Timestamp)
| Unparseable.

(** A [pd.Timestamp] scalar. *)
Inductive scalar : Type :=
| Naive (t : Timestamp)
| NaT
| Aware (t : Timestamp).

(** A row of the price file, after [read_csv] and [pd.to_datetime]. *)
Definition RawPrice : Type := (Timestamp * float64)%type.

(** A row of [self.price_data] once [calculate_metrics] has run. *)
Record PriceRow : Type := mkPriceRow {
  date : Timestamp;
  price : float64;
  daily_return : float64;
  log_return : float64;
  rolling_mean_30d : float64;
  rolling_volatility_30d : float64
}.

(** A cell of the events table's [date] column: a timestamp (or NaT) when
    the column went through [pd.to_datetime], the raw string when the table
    comes straight from [read_csv]. *)
Inductive DateCell : Type :=
| DTimestamp (t : Timestamp)
| DNaT
| DStr (s : string).

Record EventRecord (D : Type) : Type := mkEvent {
  ev_id : Z;
  ev_date : D;
  ev_name : string;
  ev_type : string;
  ev_region : string;
  ev_severity : string
}.

Arguments mkEvent {D}.
Arguments ev_id {D}.
Arguments ev_date {D}.
Arguments ev_name {D}.
Arguments ev_type {D}.
Arguments ev_region {D}.
Arguments ev_severity {D}.

Definition EventRow : Type := EventRecord DateCell.

(** The change-point payload is whatever [json.load] returns. *)
Inductive json : Type :=
| JNull
| JBool (b : bool)
| JInt (z : Z)
| JFloat (x : float64)
| JStr (s : string)
| JArr (items : list json)
| JObj (fields : list (string * json)).

(** The attributes [load_data] sets on the object. *)
Record OilDataAPI : Type := mkApi {
  price_data : list PriceRow;
  events_data : list EventRow;
  change_points : json
}.

(** The files under [base_path] that [load_data] looks at. *)
Record Files : Type := mkFiles {
  cleaned_csv : option (list RawPrice);
  raw_csv : option (list RawPrice);
  events_csv : option (list (EventRecord string));
  change_point_json : option json
}.

(** Result of [get_event_impact]. *)
Record Impact : Type := mkImpact {
  event : EventRow;
  price_before : option float64;
  price_after : option float64;
  price_change_pct : option float64;
  data_points : list (PriceRow * option Z)
}.

Record PriceStats : Type := mkPriceStats {
  st_min : float64;
  st_max : float64;
  st_mean : float64;
  st_median : float64;
  st_std : float64;
  st_current : float64
}.

Record SummaryStats : Type := mkSummary {
  date_range_start : string;
  date_range_end : string;
  price_stats : PriceStats;
  mean_daily_return : float64;
  volatility : float64
}.

(** ** Methods that read [self]: a state and exception monad *)

Definition M (A : Type) : Type := OilDataAPI -> outcome A * OilDataAPI.

Definition ret {A} (a : A) : M A := fun self => (Returns a, self).

Definition bind {A B} (m : M A) (k : A -> M B) : M B :=
  fun self =>
    match m self with
    | (Returns a, self') => k a self'
    | (Raises e, self') => (Raises e, self')
    end.

Definition gets {A} (field : OilDataAPI -> A) : M A :=
  fun self => (Returns (field self), self).

Definition lift {A} (o : outcome A) : M A := fun self => (o, self).

Declare Scope py_scope.
Delimit Scope py_scope with py.
Notation "x <- m ;; k" := (bind m (fun x => k))
  (at level 61, m at next level, right associativity) : py_scope.

(** ** Python and pandas helpers on tables *)

(** Truthiness of an optional string argument: [None] and [''] are falsy. *)
Definition given (s : option string) : option string :=
  match s with
  | Some EmptyString => None
  | _ => s
  end.

(** [a // b] on Python integers. *)
Definition floordiv (a b : Z) : outcome Z :=
  if b =? 0 then Raises ZeroDivisionError else Returns (a / b).

(** Keep the head, then every [k]-th element after it; [skip] counts the
    elements still to pass over. *)
Fixpoint stride_from {A} (k skip : nat) (l : list A) : list A :=
  match l with
  | [] => []
  | x :: t =>
      match skip with
      | O => x :: stride_from k (k - 1) t
      | S s => stride_from k s t
      end
  end.

(** [df.iloc[::step]]: forwards from the first row for a positive step,
    backwards from the last row for a negative one. *)
Definition iloc_step {A} (step : Z) (l : list A) : outcome (list A) :=
  if step =? 0 then Raises ValueError
  else if 0 <? step then Returns (stride_from (Z.to_nat step) 0 l)
  else Returns (stride_from (Z.to_nat (- step)) 0 (rev l)).

(** [len(range(start, stop, step))] for a positive step. *)
Definition range_len (start stop step : Z) : Z :=
  if start <? stop then (stop - start - 1) / step + 1 else 0.

(** Comparison of a timestamp cell with a scalar that may be NaT. *)
Definition ts_ge (d : Timestamp) (t : option Timestamp) : bool :=
  match t with Some t => t <=? d | None => false end.

Definition ts_le (d : Timestamp) (t : option Timestamp) : bool :=
  match t with Some t => d <=? t | None => false end.

(** [column >= scalar] on the tz-naive [datetime64] column of the price
    table: a tz-naive scalar or NaT is compared row by row, a tz-aware one
    is refused, whatever the rows. *)
Definition naive_bound (b : scalar) : outcome (option Timestamp) :=
  match b with
  | Naive t => Returns (Some t)
  | NaT => Returns None
  | Aware _ => Raises TypeError
  end.

(** The comparison on one cell of the events table. Against NaT every cell
    gives [False], strings included; a missing cell gives [False] against
    every scalar; a string cannot be compared with a timestamp, nor a
    tz-naive timestamp with a tz-aware one. *)
Definition cell_ge (c : DateCell) (b : scalar) : outcome bool :=
  match b, c with
  | NaT, _ => Returns false
  | _, DNaT => Returns false
  | Naive t, DTimestamp d => Returns (t <=? d)
  | Naive _, DStr _ => Raises TypeError
  | Aware _, _ => Raises TypeError
  end.

Definition cell_le (c : DateCell) (b : scalar) : outcome bool :=
  match b, c with
  | NaT, _ => Returns false
  | _, DNaT => Returns false
  | Naive t, DTimestamp d => Returns (d <=? t)
  | Naive _, DStr _ => Raises TypeError
  | Aware _, _ => Raises TypeError
  end.

(** [df[mask]] where computing the mask can raise. *)
Fixpoint filter_o {A} (p : A -> outcome bool) (l : list A) : outcome (list A) :=
  match l with
  | [] => Returns []
  | x :: t =>
      obind (p x) (fun b =>
      obind (filter_o p t) (fun t' =>
      Returns (if b then x :: t' else t')))
  end.

(** The dtype of the [date] column of an events table: [datetime64] when
    [pd.to_datetime] made it (it then holds timestamps), [object] when it
    is as [read_csv] left it. Selecting rows keeps the dtype. *)
Definition is_datetime64 (events : list (EventRecord DateCell)) : bool :=
  existsb (fun e => match ev_date e with DTimestamp _ => true | _ => false end)
          events.

(** [df[df['date'] >= scalar]] and [df[df['date'] <= scalar]] on the events
    table: a [datetime64] column refuses a tz-aware scalar before any row
    is looked at; otherwise the cells are compared one by one. *)
Definition compare_dates (cmp : DateCell -> scalar -> outcome bool)
    (datetime64 : bool) (b : scalar) (df : list (EventRecord DateCell))
    : outcome (list (EventRecord DateCell)) :=
  match b with
  | Aware _ =>
      if datetime64 then Raises TypeError
      else filter_o (fun e => cmp (ev_date e) b) df
  | _ => filter_o (fun e => cmp (ev_date e) b) df
  end.

(** [cell - timedelta] and [cell + timedelta]. *)
Definition cell_shift (c : DateCell) (delta : Z) : outcome (option Timestamp) :=
  match c with
  | DTimestamp d => Returns (Some (d + delta))
  | DNaT => Returns None
  | DStr _ => Raises TypeError
  end.

(** [(date - cell).dt.days] for one date of the price table. *)
Definition days_from (c : DateCell) (d : Timestamp) : outcome (option Z) :=
  match c with
  | DTimestamp e => Returns (Some (td_days (d - e)))
  | DNaT => Returns None
  | DStr _ => Raises TypeError
  end.

Fixpoint map_o {A B} (f : A -> outcome B) (l : list A) : outcome (list B) :=
  match l with
  | [] => Returns []
  | x :: t =>
      obind (f x) (fun y =>
      obind (map_o f t) (fun t' => Returns (y :: t')))
  end.

Definition lt0 (d : option Z) : bool :=
  match d with Some z => z <? 0 | None => false end.

Definition gt0 (d : option Z) : bool :=
  match d with Some z => 0 <? z | None => false end.

(** [min()] and [max()] of a timestamp column; NaT (here [None]) when it is
    empty. *)
Definition dates_min (l : list Timestamp) : option Timestamp :=
  match l with
  | [] => None
  | d :: t => Some (fold_left Z.min t d)
  end.

Definition dates_max (l : list Timestamp) : option Timestamp :=
  match l with
  | [] => None
  | d :: t => Some (fold_left Z.max t d)
  end.

(** [Series.iloc[-1]]. *)
Definition iloc_last {A} (l : list A) : outcome A :=
  match rev l with
  | [] => Raises IndexError
  | x :: _ => Returns x
  end.

(** Insertion by date. Rows of equal date keep their order, which the
    quicksort of [sort_values('date')] does not promise; with distinct
    dates the result is the one of the code. *)
Fixpoint insert_by_date (r : RawPrice) (l : list RawPrice) : list RawPrice :=
  match l with
  | [] => [r]
  | x :: t => if fst r <=? fst x then r :: l else x :: insert_by_date r t
  end.

Definition sort_values_date (l : list RawPrice) : list RawPrice :=
  fold_right insert_by_date [] l.

Definition opt_truthy (o : option float64) : bool :=
  match o with Some x => truthy x | None => false end.

(** [a / b] on Python floats raises on a zero divisor. *)
Definition py_truediv (a b : float64) : outcome float64 :=
  match b with
  | Fin q => if Qeq_bool q 0 then Raises ZeroDivisionError else Returns (fdiv a b)
  | _ => Returns (fdiv a b)
  end.

(** The event list written in [load_or_create_events] (and in
    [setup_dashboard.py]). *)
Definition seed_events : list (EventRecord string) :=
  [ mkEvent 1 "1990-08-02" "Iraq invades Kuwait" "Geopolitical" "Middle East" "High";
    mkEvent 2 "1997-11-30" "Asian Financial Crisis" "Financial" "Asia" "Medium";
    mkEvent 3 "2001-09-11" "9/11 Attacks" "Geopolitical" "Global" "High";
    mkEvent 4 "2003-03-20" "Iraq War begins" "Geopolitical" "Middle East" "High";
    mkEvent 5 "2005-08-29" "Hurricane Katrina" "Natural Disaster" "North America" "High";
    mkEvent 6 "2008-09-15" "Lehman Brothers Collapse" "Financial" "Global" "High";
    mkEvent 7 "2011-02-15" "Arab Spring" "Geopolitical" "Middle East" "Medium";
    mkEvent 8 "2014-06-01" "Oil Price Crash" "Market" "Global" "High";
    mkEvent 9 "2015-12-04" "OPEC maintains production" "Policy" "Global" "Medium";
    mkEvent 10 "2016-11-30" "OPEC production cuts" "Policy" "Global" "High";
    mkEvent 11 "2020-03-01" "COVID-19 Pandemic" "Health" "Global" "High";
    mkEvent 12 "2022-02-24" "Russia-Ukraine War" "Geopolitical" "Europe" "High" ]%string.

Definition mock_change_points : json :=
  JObj [ ("change_point",
          JObj [ ("index", JInt 5000);
                 ("date", JStr "2014-06-15");
                 ("description", JStr "Oil price crash structural break") ]);
         ("impact",
          JObj [ ("price_before", JFloat (Fin (10532 # 100)));
                 ("price_after", JFloat (Fin (4876 # 100)));
                 ("price_change_pct", JFloat (Fin (- 537 # 10))) ]) ]%string.

Definition with_date {D E} (f : D -> E) (e : EventRecord D) : EventRecord E :=
  mkEvent (ev_id e) (f (ev_date e)) (ev_name e) (ev_type e) (ev_region e)
          (ev_severity e).

(** ** The backend *)

Section Backend.

Variable ln : Q -> Q.
Variable sqrt : Q -> Q.
(** [pd.Timestamp(s)] / [pd.to_datetime] on one string. *)
Variable parse_ts : string -> parsed.
(** [Timestamp.strftime('%Y-%m-%d')]. *)
Variable strftime : Timestamp -> string.
(** How [to_csv] prints a timestamp. *)
Variable csv_date : Timestamp -> string.

Definition Timestamp_of (s : string) : outcome scalar :=
  match parse_ts s with
  | Parsed t => Returns (Naive t)
  | ParsedNaT => Returns NaT
  | ParsedAware t => Returns (Aware t)
  | Unparseable => Raises ValueError
  end.

(** [pd.to_datetime] on a cell of the seed events, whose dates are plain
    [YYYY-MM-DD] strings: a cell with a zone among them is refused. *)
Definition to_datetime (s : string) : outcome DateCell :=
  match parse_ts s with
  | Parsed t => Returns (DTimestamp t)
  | ParsedNaT => Returns DNaT
  | ParsedAware _ => Raises ValueError
  | Unparseable => Raises ValueError
  end.

Definition to_csv_date (c : DateCell) : string :=
  match c with
  | DTimestamp t => csv_date t
  | DNaT => EmptyString
  | DStr s => s
  end.

Definition assemble (dates : list Timestamp)
    (prices returns logs means vols : list float64) : list PriceRow :=
  map (fun i =>
         mkPriceRow (nth i dates 0) (nth i prices NaN) (nth i returns NaN)
                    (nth i logs NaN) (nth i means NaN) (nth i vols NaN))
      (seq 0 (length dates)).

(** [calculate_metrics]: sort, add the four derived columns, drop the rows
    whose [log_return] is missing. *)
Definition calculate_metrics (raw : list RawPrice) : list PriceRow :=
  let sorted := sort_values_date raw in
  let prices := map snd sorted in
  let returns := pct_change prices in
  let logs := diff (map (np_log ln) prices) in
  let means := rolling 30 series_mean prices in
  let vols :=
    map (fun v => fmul v (np_sqrt sqrt (of_Z 252)))
        (rolling 30 (series_std sqrt) logs) in
  filter (fun r => notna (log_return r))
         (assemble (map fst sorted) prices returns logs means vols).

(** [load_or_create_events]: an existing [events.csv] is taken as
    [read_csv] returns it; otherwise the seed list is converted with
    [pd.to_datetime] and written out. *)
Definition load_or_create_events (files : Files)
    : outcome (list EventRow * Files) :=
  match events_csv files with
  | Some rows => Returns (map (with_date DStr) rows, files)
  | None =>
      obind (map_o (fun e => obind (to_datetime (ev_date e)) (fun c =>
                             Returns (with_date (fun _ => c) e)))
                   seed_events)
            (fun events =>
               Returns (events,
                        mkFiles (cleaned_csv files) (raw_csv files)
                                (Some (map (with_date to_csv_date) events))
                                (change_point_json files)))
  end.

Definition load_change_points (files : Files) : json :=
  match change_point_json files with
  | Some j => j
  | None => mock_change_points
  end.

(** [load_data], run once by [__init__]. *)
Definition load_data (files : Files) : outcome (OilDataAPI * Files) :=
  obind (match cleaned_csv files with
         | Some rows => Returns rows
         | None =>
             match raw_csv files with
             | Some rows => Returns rows
             | None => Raises FileNotFoundError
             end
         end)
        (fun prices =>
  obind (load_or_create_events files) (fun ef =>
  Returns (mkApi (calculate_metrics prices) (fst ef) (load_change_points files),
           snd ef))).

Local Open Scope py_scope.

Definition get_price_data (start_date end_date : option string) (limit : Z)
    : M (list PriceRow) :=
  df <- gets price_data ;;
  df <- match given start_date with
        | Some s =>
            b <- lift (Timestamp_of s) ;;
            t <- lift (naive_bound b) ;;
            ret (filter (fun r => ts_ge (date r) t) df)
        | None => ret df
        end ;;
  df <- match given end_date with
        | Some s =>
            b <- lift (Timestamp_of s) ;;
            t <- lift (naive_bound b) ;;
            ret (filter (fun r => ts_le (date r) t) df)
        | None => ret df
        end ;;
  df <- (if limit <? Z.of_nat (length df)
         then
           step <- lift (floordiv (Z.of_nat (length df)) limit) ;;
           lift (iloc_step step df)
         else ret df) ;;
  ret df.

Definition get_events (event_type start_date end_date : option string)
    : M (list EventRow) :=
  df <- gets events_data ;;
  let datetime64 := is_datetime64 df in
  df <- match given event_type with
        | Some ty =>
            if String.eqb ty "all" then ret df
            else ret (filter (fun e => String.eqb (ev_type e) ty) df)
        | None => ret df
        end ;;
  df <- match given start_date with
        | Some s =>
            b <- lift (Timestamp_of s) ;;
            lift (compare_dates cell_ge datetime64 b df)
        | None => ret df
        end ;;
  df <- match given end_date with
        | Some s =>
            b <- lift (Timestamp_of s) ;;
            lift (compare_dates cell_le datetime64 b df)
        | None => ret df
        end ;;
  ret df.

Definition get_change_points : M json := gets change_points.

(** [NaT.strftime] raises. *)
Definition strftime_o (t : option Timestamp) : outcome string :=
  match t with
  | Some t => Returns (strftime t)
  | None => Raises ValueError
  end.

Definition get_summary_stats : M SummaryStats :=
  df <- gets price_data ;;
  start <- lift (strftime_o (dates_min (map date df))) ;;
  stop <- lift (strftime_o (dates_max (map date df))) ;;
  current <- lift (iloc_last (map price df)) ;;
  vol <- lift (iloc_last (map rolling_volatility_30d df)) ;;
  ret (mkSummary start stop
         (mkPriceStats (series_min (map price df))
                       (series_max (map price df))
                       (series_mean (map price df))
                       (series_median (map price df))
                       (series_std sqrt (map price df))
                       current)
         (series_mean (map daily_return df))
         vol).

(** The rows of [df] whose date lies in [[lo, hi]]. *)
Definition in_window (lo hi : option Timestamp) (r : PriceRow) : bool :=
  ts_ge (date r) lo && ts_le (date r) hi.

Definition mean_or_none (rows : list (PriceRow * option Z)) : option float64 :=
  match rows with
  | [] => None
  | _ => Some (series_mean (map (fun rd => price (fst rd)) rows))
  end.

(** [event_id] is the integer [int(event_id)] evaluates to. *)
Definition get_event_impact (event_id : Z) : M (option Impact) :=
  events <- gets events_data ;;
  match filter (fun e => ev_id e =? event_id) events with
  | [] => ret None
  | event :: _ =>
      let event_date := ev_date event in
      let window := 30 in
      start_date <- lift (cell_shift event_date (- timedelta window)) ;;
      end_date <- lift (cell_shift event_date (timedelta window)) ;;
      df <- gets price_data ;;
      match filter (in_window start_date end_date) df with
      | [] => ret None
      | selected =>
          days <- lift (map_o (fun r => days_from event_date (date r)) selected) ;;
          let event_data := combine selected days in
          let before_event := filter (fun rd => lt0 (snd rd)) event_data in
          let after_event := filter (fun rd => gt0 (snd rd)) event_data in
          let price_before := mean_or_none before_event in
          let price_after := mean_or_none after_event in
          pct <- (if opt_truthy price_before && opt_truthy price_after
                  then
                    match price_before, price_after with
                    | Some pb, Some pa =>
                        q <- lift (py_truediv (fsub pa pb) pb) ;;
                        ret (Some (fmul q (of_Z 100)))
                    | _, _ => lift (Raises TypeError)
                    end
                  else ret None) ;;
          ret (Some (mkImpact event price_before price_after pct
                              (firstn 100 event_data)))
      end
  end.

(** The read operations as requests, and a run of a list of them. *)
Inductive request : Type :=
| GetPriceData (start_date end_date : option string) (limit : Z)
| GetEvents (event_type start_date end_date : option string)
| GetChangePoints
| GetSummaryStats
| GetEventImpact (event_id : Z).

Inductive response : Type :=
| Prices (rows : list PriceRow)
| Events (rows : list EventRow)
| ChangePoints (payload : json)
| Summary (stats : SummaryStats)
| EventImpact (impact : option Impact).

Definition serve (q : request) : M response :=
  match q with
  | GetPriceData s e l => r <- get_price_data s e l ;; ret (Prices r)
  | GetEvents ty s e => r <- get_events ty s e ;; ret (Events r)
  | GetChangePoints => r <- get_change_points ;; ret (ChangePoints r)
  | GetSummaryStats => r <- get_summary_stats ;; ret (Summary r)
  | GetEventImpact i => r <- get_event_impact i ;; ret (EventImpact r)
  end.

(** Every request is served, whether or not an earlier one raised (each
    call is a separate request to the process). *)
Fixpoint serve_all (qs : list request) (self : OilDataAPI)
    : list (outcome response) * OilDataAPI :=
  match qs with
  | [] => ([], self)
  | q :: rest =>
      let (o, self') := serve q self in
      let (os, self'') := serve_all rest self' in
      (o :: os, self'')
  end.

End Backend.

(** ** The Flask routes of [app.py] and the data part of
       [setup_dashboard.py] *)

(** [Series.unique()]: the distinct values, in order of first appearance. *)
Fixpoint unique (l : list string) : list string :=
  match l with
  | [] => []
  | x :: t => x :: filter (fun y => negb (String.eqb y x)) (unique t)
  end.

(** [request.args.get(key)]: the first value given for the key. *)
Fixpoint args_get (args : list (string * string)) (key : string) : option string :=
  match args with
  | [] => None
  | (k, v) :: rest => if String.eqb k key then Some v else args_get rest key
  end.

(** The ['error'] field of a failure: the literal ['Event not found'] or
    [str(e)] of the exception caught. *)
Inductive error_text : Type :=
| EventNotFound
| ExceptionText (e : exn).

(** The ['data'] field of a success. *)
Inductive payload : Type :=
| PPrices (rows : list PriceRow)
| PEvents (rows : list EventRow)
| PChangePoints (j : json)
| PStats (stats : SummaryStats)
| PImpact (impact : Impact)
| PTypes (types : list string).

(** What a route hands to Flask: [jsonify({'success': True, ...})] with
    status 200, where ['count'] is there for the two list routes, or
    [jsonify({'success': False, 'error': ...}), status]. *)
Inductive reply : Type :=
| Success (count : option nat) (data : payload)
| Failure (status : Z) (error : error_text).

Definition status_of (r : reply) : Z :=
  match r with
  | Success _ _ => 200
  | Failure status _ => status
  end.

(** [try: body except Exception as e: handler(e)]. *)
Definition try_except {A} (body : M A) (handler : exn -> M A) : M A :=
  fun self =>
    match body self with
    | (Returns a, self') => (Returns a, self')
    | (Raises e, self') => handler e self'
    end.

(** What [setup_dashboard()] does to the files the backend loads: it writes
    the seed events and the placeholder change point when the file is not
    there, and leaves an existing file alone (run from the directory the
    backend takes as [base_path]). *)
Definition setup_dashboard (files : Files) : Files :=
  mkFiles (cleaned_csv files) (raw_csv files)
          (match events_csv files with
           | Some rows => Some rows
           | None => Some seed_events
           end)
          (match change_point_json files with
           | Some j => Some j
           | None => Some mock_change_points
           end).

Section Routes.

Variable sqrt : Q -> Q.
Variable parse_ts : string -> parsed.
Variable strftime : Timestamp -> string.
(** [int(s)] on a string; [None] when it raises [ValueError]. *)
Variable py_int : string -> option Z.

Local Open Scope py_scope.

Definition int_of (s : string) : outcome Z :=
  match py_int s with
  | Some z => Returns z
  | None => Raises ValueError
  end.

(** [@app.route('/api/prices')]. *)
Definition route_prices (args : list (string * string)) : M reply :=
  let start_date := args_get args "start_date" in
  let end_date := args_get args "end_date" in
  limit <- lift (match args_get args "limit" with
                 | Some s => int_of s
                 | None => Returns 5000
                 end) ;;
  data <- get_price_data parse_ts start_date end_date limit ;;
  ret (Success (Some (length data)) (PPrices data)).

(** [@app.route('/api/events')]. *)
Definition route_events (args : list (string * string)) : M reply :=
  let event_type :=
    match args_get args "type" with
    | Some ty => Some ty
    | None => Some "all"%string
    end in
  let start_date := args_get args "start_date" in
  let end_date := args_get args "end_date" in
  data <- get_events parse_ts event_type start_date end_date ;;
  ret (Success (Some (length data)) (PEvents data)).

(** [@app.route('/api/change-points')]. *)
Definition route_change_points : M reply :=
  data <- get_change_points ;;
  ret (Success None (PChangePoints data)).

(** [@app.route('/api/stats')]. *)
Definition route_stats : M reply :=
  data <- get_summary_stats sqrt strftime ;;
  ret (Success None (PStats data)).

(** [@app.route('/api/event-impact/<event_id>')]: the id arrives as the
    string of the URL and [int(event_id)] is taken inside the [try]. *)
Definition route_event_impact (event_id : string) : M reply :=
  try_except
    (id <- lift (int_of event_id) ;;
     data <- get_event_impact id ;;
     match data with
     | Some impact => ret (Success None (PImpact impact))
     | None => ret (Failure 404 EventNotFound)
     end)
    (fun e => ret (Failure 400 (ExceptionText e))).

(** [@app.route('/api/event-types')]. *)
Definition route_event_types : M reply :=
  events <- gets events_data ;;
  ret (Success None (PTypes (unique (map ev_type events)))).

End Routes.

(** ** Concrete library stand-ins, used to run the model on examples *)

Module Concrete.

Definition digit (c : ascii) : option Z :=
  let n := Z.of_nat (nat_of_ascii c) in
  if (48 <=? n) && (n <=? 57) then Some (n - 48) else None.

Fixpoint digits (acc : Z) (l : list ascii) : option Z :=
  match l with
  | [] => Some acc
  | c :: t =>
      match digit c with
      | Some d => digits (10 * acc + d) t
      | None => None
      end
  end.

Definition is_leap (y : Z) : bool :=
  ((y mod 4 =? 0) && negb (y mod 100 =? 0)) || (y mod 400 =? 0).

Definition days_in_month (y m : Z) : Z :=
  if m =? 2 then (if is_leap y then 29 else 28)
  else if (m =? 4) || (m =? 6) || (m =? 9) || (m =? 11) then 30
  else 31.

(** Days since 1970-01-01 of a proleptic Gregorian date. *)
Definition days_from_civil (y m d : Z) : Z :=
  let y' := if m <=? 2 then y - 1 else y in
  let era := y' / 400 in
  let yoe := y' - era * 400 in
  let mp := if 2 <? m then m - 3 else m + 9 in
  let doy := (153 * mp + 2) / 5 + d - 1 in
  let doe := yoe * 365 + yoe / 4 - yoe / 100 + doy in
  era * 146097 + doe - 719468.

Definition civil_from_days (z : Z) : Z * Z * Z :=
  let z' := z + 719468 in
  let era := z' / 146097 in
  let doe := z' - era * 146097 in
  let yoe := (doe - doe / 1460 + doe / 36524 - doe / 146096) / 365 in
  let doy := doe - (365 * yoe + yoe / 4 - yoe / 100) in
  let mp := (5 * doy + 2) / 153 in
  let d := doy - (153 * mp + 2) / 5 + 1 in
  let m := if mp <? 10 then mp + 3 else mp - 9 in
  let y := yoe + era * 400 + (if m <=? 2 then 1 else 0) in
  (y, m, d).

(** Midnight of a calendar day. *)
Definition day (y m d : Z) : Timestamp := days_from_civil y m d * NS_PER_DAY.

Definition parse_date (l : list ascii) : option Timestamp :=
  match l with
  | [y1; y2; y3; y4; s1; m1; m2; s2; d1; d2] =>
      match digits 0 [y1; y2; y3; y4], digits 0 [m1; m2], digits 0 [d1; d2] with
      | Some y, Some m, Some d =>
          if Ascii.eqb s1 "-" && Ascii.eqb s2 "-"
             && (1 <=? m) && (m <=? 12) && (1 <=? d) && (d <=? days_in_month y m)
          then Some (day y m d)
          else None
      | _, _, _ => None
      end
  | _ => None
  end.

(** A parser for [YYYY-MM-DD], for midnight UTC written
    [YYYY-MM-DDT00:00:00Z] and for [NaT], and nothing else. *)
Definition parse_iso (s : string) : parsed :=
  let l := list_ascii_of_string s in
  match parse_date l with
  | Some t => Parsed t
  | None =>
      if String.eqb s "NaT" then ParsedNaT
      else if (length l =? 20)%nat
              && String.eqb (string_of_list_ascii (skipn 10 l)) "T00:00:00Z"
      then match parse_date (firstn 10 l) with
           | Some t => ParsedAware t
           | None => Unparseable
           end
      else Unparseable
  end.

Definition digit_char (d : Z) : ascii := ascii_of_nat (Z.to_nat (48 + d mod 10)).

Definition two_digits (n : Z) : string :=
  String (digit_char (n / 10)) (String (digit_char n) EmptyString).

Definition four_digits (n : Z) : string :=
  String (digit_char (n / 1000)) (String (digit_char (n / 100))
    (String (digit_char (n / 10)) (String (digit_char n) EmptyString))).

Definition format_iso (t : Timestamp) : string :=
  let '(y, m, d) := civil_from_days (t / NS_PER_DAY) in
  (four_digits y ++ "-" ++ two_digits m ++ "-" ++ two_digits d)%string.

(** Decimal integers with an optional sign. *)
Definition int_decimal (s : string) : option Z :=
  match list_ascii_of_string s with
  | [] => None
  | c :: rest =>
      if Ascii.eqb c "-" then
        match rest with
        | [] => None
        | _ => option_map Z.opp (digits 0 rest)
        end
      else if Ascii.eqb c "+" then
        match rest with
        | [] => None
        | _ => digits 0 rest
        end
      else digits 0 (c :: rest)
  end.

(** Integer square root on twelve decimals. *)
Definition sqrt_floor (q : Q) : Q :=
  Qred (Z.sqrt (Qnum q * 10 ^ 12 / Z.pos (Qden q)) # 10 ^ 6).

(** Truncated series [2 (y + y^3/3 + y^5/5)] with [y = (x-1)/(x+1)]. *)
Definition ln_series (q : Q) : Q :=
  let y := ((q - 1) / (q + 1))%Q in
  Qred (2 * (y + y * y * y / 3 + y * y * y * y * y / 5))%Q.

End Concrete.

(** ** Vocabulary of the specification *)

(** The date-filtered slice of a price table: [start_date] and [end_date],
    when given, are inclusive bounds. *)
Definition date_filtered (parse_ts : string -> parsed)
    (start_date end_date : option string) (df : list PriceRow)
    : outcome (list PriceRow) :=
  obind (match given start_date with
         | Some s => obind (Timestamp_of parse_ts s) (fun b =>
                     obind (naive_bound b) (fun t =>
                     Returns (filter (fun r => ts_ge (date r) t) df)))
         | None => Returns df
         end) (fun df' =>
  match given end_date with
  | Some s => obind (Timestamp_of parse_ts s) (fun b =>
              obind (naive_bound b) (fun t =>
              Returns (filter (fun r => ts_le (date r) t) df')))
  | None => Returns df'
  end).

(** The first event of the table that carries the id. *)
Definition find_event (events : list EventRow) (event_id : Z) : option EventRow :=
  find (fun e => ev_id e =? event_id) events.

(** The price rows dated within [days] days of a timestamp, bounds
    included. *)
Definition window_rows (days : Z) (d : Timestamp) (df : list PriceRow)
    : list PriceRow :=
  filter (fun r => (d - timedelta days <=? date r) && (date r <=? d + timedelta days)) df.

(** Signed whole days from the event to a row. *)
Definition days_from_event (d : Timestamp) (r : PriceRow) : Z :=
  td_days (date r - d).

Definition before_partition (d : Timestamp) (rows : list PriceRow) : list PriceRow :=
  filter (fun r => days_from_event d r <? 0) rows.

Definition after_partition (d : Timestamp) (rows : list PriceRow) : list PriceRow :=
  filter (fun r => 0 <? days_from_event d r) rows.

(** Arithmetic mean of the prices of a partition, absent when it is empty. *)
Definition mean_price (rows : list PriceRow) : option float64 :=
  match rows with
  | [] => None
  | _ => Some (series_mean (map price rows))
  end.

(** Arithmetic mean of a column: sum over count. *)
Definition arithmetic_mean (l : list float64) : float64 :=
  fdiv (fsum l) (of_nat (length l)).

(** The specification's rule for the relative change:
    [(price_after - price_before) / price_before * 100] when both means are
    there, absent otherwise. *)
Definition change_pct (pb pa : option float64) : option float64 :=
  match pb, pa with
  | Some b, Some a => Some (fmul (fdiv (fsub a b) b) (of_Z 100))
  | _, _ => None
  end.

(** The impact [get_event_impact] builds for an event dated [d] and a
    non-empty selection [sel] of price rows. *)
Definition impact_of (ev : EventRow) (d : Timestamp) (sel : list PriceRow) : Impact :=
  let pb := mean_price (before_partition d sel) in
  let pa := mean_price (after_partition d sel) in
  mkImpact ev pb pa
           (if opt_truthy pb && opt_truthy pa then change_pct pb pa else None)
           (firstn 100 (map (fun r => (r, Some (days_from_event d r))) sel)).

(** Ascending by date. *)
Definition ascending (raw : list RawPrice) : Prop :=
  Sorted (fun a b => fst a <= fst b) raw.

(** Ascending by date, no date twice. *)
Definition strictly_ascending (raw : list RawPrice) : Prop :=
  Sorted (fun a b => fst a < fst b) raw.

Definition positive_prices (raw : list RawPrice) : Prop :=
  Forall (fun r => positive (snd r)) raw.

(** A column without NaN or infinity. *)
Definition all_fin (l : list float64) : Prop :=
  Forall (fun a => is_fin a = true) l.

(** The price table with its four derived columns, before the rows without
    [log_return] are dropped. *)
Definition augmented (ln sqrt : Q -> Q) (raw : list RawPrice) : list PriceRow :=
  let sorted := sort_values_date raw in
  let prices := map snd sorted in
  let logs := diff (map (np_log ln) prices) in
  assemble (map fst sorted) prices (pct_change prices) logs
           (rolling 30 series_mean prices)
           (map (fun v => fmul v (np_sqrt sqrt (of_Z 252)))
                (rolling 30 (series_std sqrt) logs)).

(** The reading of the specification: both rolling columns are missing on
    each of the first 29 rows of the derived table. *)
Definition rolling_missing_on_first_29 (ln sqrt : Q -> Q) (raw : list RawPrice)
    : Prop :=
  forall j r,
    (j < 29)%nat ->
    nth_error (calculate_metrics ln sqrt raw) j = Some r ->
    isna (rolling_mean_30d r) = true /\ isna (rolling_volatility_30d r) = true.

(** The rows of the price table that cover an event: those within 30 days
    of its date, none when the date is missing. *)
Definition coverage (ev : EventRow) (df : list PriceRow) : list PriceRow :=
  match ev_date ev with
  | DTimestamp d => window_rows 30 d df
  | _ => []
  end.

(** An events table whose [date] column went through [pd.to_datetime]. *)
Definition dates_converted (events : list EventRow) : Prop :=
  Forall (fun e => forall s, ev_date e <> DStr s) events.

(** [get_summary_stats] returns, and reports this price distribution. *)
Definition summary_is (sqrt : Q -> Q) (strftime : Timestamp -> string)
    (self : OilDataAPI) (min max mean median : Q) : Prop :=
  exists stats,
    get_summary_stats sqrt strftime self = (Returns stats, self) /\
    feq (st_min (price_stats stats)) (Fin min) /\
    feq (st_max (price_stats stats)) (Fin max) /\
    feq (st_mean (price_stats stats)) (Fin mean) /\
    feq (st_median (price_stats stats)) (Fin median).

(** A date argument that is given and that [pd.Timestamp] cannot parse. *)
Definition malformed (parse_ts : string -> parsed) (arg : option string) : Prop :=
  exists s, given arg = Some s /\ parse_ts s = Unparseable.

(** A date argument that is given and parses to a tz-aware timestamp. *)
Definition zoned (parse_ts : string -> parsed) (arg : option string) : Prop :=
  exists s t, given arg = Some s /\ parse_ts s = ParsedAware t.

(** A date argument that is given and parses to NaT. *)
Definition not_a_time (parse_ts : string -> parsed) (arg : option string) : Prop :=
  exists s, given arg = Some s /\ parse_ts s = ParsedNaT.

(** The call hands a value back to its caller. *)
Definition returns_normally {A} (r : outcome A * OilDataAPI) : Prop :=
  exists v, fst r = Returns v.

(** The exception leaves the method, with [self] as it was. *)
Definition propagates {A} (r : outcome A * OilDataAPI) (self : OilDataAPI) : Prop :=
  exists e, r = (Raises e, self).

(** A method that leaves [self] as it found it. *)
Definition readonly {A} (m : M A) : Prop := forall self, snd (m self) = self.

(** A date passes a bound of a query: no bound given, or a bound that
    parses to a timestamp on the right side of the date. A bound that parses
    to NaT lets nothing pass. *)
Definition lower_ok (parse_ts : string -> parsed) (arg : option string)
    (d : Timestamp) : bool :=
  match given arg with
  | None => true
  | Some s => match parse_ts s with Parsed t => t <=? d | _ => false end
  end.

Definition upper_ok (parse_ts : string -> parsed) (arg : option string)
    (d : Timestamp) : bool :=
  match given arg with
  | None => true
  | Some s => match parse_ts s with Parsed t => d <=? t | _ => false end
  end.

Definition in_bounds (parse_ts : string -> parsed)
    (start_date end_date : option string) (r : PriceRow) : bool :=
  lower_ok parse_ts start_date (date r) && upper_ok parse_ts end_date (date r).

(** An event passes the type filter: no type given, the type ['all'], or
    its own type. *)
Definition type_ok (event_type : option string) (e : EventRow) : bool :=
  match given event_type with
  | None => true
  | Some ty => String.eqb ty "all" || String.eqb (ev_type e) ty
  end.

Definition no_bound (arg : option string) : bool :=
  match given arg with None => true | Some _ => false end.

(** The bound [get_events] applies first, when one is given. *)
Definition first_bound (start_date end_date : option string) : option string :=
  if no_bound start_date then end_date else start_date.

(** A converted date cell passes a bound; a missing date passes only when
    no bound is given. *)
Definition cell_lower_ok (parse_ts : string -> parsed) (arg : option string)
    (c : DateCell) : bool :=
  match c with
  | DTimestamp d => lower_ok parse_ts arg d
  | DNaT => no_bound arg
  | DStr _ => false
  end.

Definition cell_upper_ok (parse_ts : string -> parsed) (arg : option string)
    (c : DateCell) : bool :=
  match c with
  | DTimestamp d => upper_ok parse_ts arg d
  | DNaT => no_bound arg
  | DStr _ => false
  end.

Definition event_in_bounds (parse_ts : string -> parsed)
    (start_date end_date : option string) (e : EventRow) : bool :=
  cell_lower_ok parse_ts start_date (ev_date e)
  && cell_upper_ok parse_ts end_date (ev_date e).

(** An events table that came straight from [read_csv]. *)
Definition dates_as_read (events : list EventRow) : Prop :=
  Forall (fun e => exists s, ev_date e = DStr s) events.

(** The events left by the type filter of [get_events]. *)
Definition type_selected (event_type : option string) (events : list EventRow)
    : list EventRow :=
  filter (type_ok event_type) events.

(** A price whose logarithm exists: zero, positive, or [+inf]. *)
Definition nonneg_price (a : float64) : Prop :=
  match a with
  | Fin q => (0 <= q)%Q
  | PosInf => True
  | _ => False
  end.

(** What it means for a call of [get_price_data] to keep the earliest
    record of the date-filtered table in front. *)
Definition first_record_kept (parse_ts : string -> parsed) (self : OilDataAPI)
    (start_date end_date : option string) (limit : Z) : Prop :=
  forall F,
    date_filtered parse_ts start_date end_date (price_data self) = Returns F ->
    F <> [] ->
    exists out,
      get_price_data parse_ts start_date end_date limit self = (Returns out, self) /\
      hd_error out = hd_error F.

(** ** Small tables to run the model on *)

Module Demo.
Import Concrete.

(** Four consecutive days; the derived table keeps the last three. *)
Definition raw4 : list RawPrice :=
  [ (day 2020 1 1, of_Z 10); (day 2020 1 2, of_Z 20);
    (day 2020 1 3, of_Z 30); (day 2020 1 4, of_Z 40) ].

Definition api4 : OilDataAPI :=
  mkApi (calculate_metrics ln_series sqrt_floor raw4) [] mock_change_points.

(** Thirty consecutive days, prices 50, 51, ... *)
Definition raw30 : list RawPrice :=
  map (fun i => (day 2020 1 1 + Z.of_nat i * NS_PER_DAY, of_Z (50 + Z.of_nat i)))
      (seq 0 30).

(** Prices around the seed event 8 (2014-06-01). *)
Definition prices2014 : list RawPrice :=
  [ (day 2014 5 29, of_Z 108); (day 2014 5 30, of_Z 109);
    (day 2014 6 1, of_Z 110); (day 2014 6 2, of_Z 107);
    (day 2014 6 3, of_Z 105) ].

(** No [events.csv] yet: the events are synthesized. *)
Definition files_first_run : Files := mkFiles (Some prices2014) None None None.

(** [events.csv] as [setup_dashboard.py] writes it. *)
Definition files_after_setup : Files :=
  mkFiles (Some prices2014) None (Some seed_events) None.

(** A price that drops to zero the day after the event. *)
Definition prices_zero : list RawPrice :=
  [ (day 2014 5 30, of_Z 100); (day 2014 5 31, of_Z 100);
    (day 2014 6 2, of_Z 0) ].

Definition files_zero : Files := mkFiles (Some prices_zero) None None None.

(** A price file with a single row. *)
Definition prices1 : list RawPrice := [ (day 2020 1 1, of_Z 10) ].

Definition files1 : Files := mkFiles (Some prices1) None None None.

(** The object [OilDataAPI()] builds over a set of files (an empty object
    when loading raises). *)
Definition loaded (files : Files) : OilDataAPI :=
  match load_data ln_series sqrt_floor parse_iso format_iso files with
  | Returns (self, _) => self
  | Raises _ => mkApi [] [] JNull
  end.

(** The files a run leaves behind. *)
Definition files_left (files : Files) : Files :=
  match load_data ln_series sqrt_floor parse_iso format_iso files with
  | Returns (_, files') => files'
  | Raises _ => files
  end.

(** The series 10, 20, 30 on three consecutive days. *)
Definition prices3 : list RawPrice :=
  [ (day 2020 1 1, of_Z 10); (day 2020 1 2, of_Z 20); (day 2020 1 3, of_Z 30) ].

Definition files3 : Files := mkFiles (Some prices3) None None None.

End Demo.

Example parse_iso_crash_day :
  Concrete.parse_iso "2014-06-01" = Parsed (16222 * NS_PER_DAY).
Proof. reflexivity. Qed.

Example format_iso_crash_day :
  Concrete.format_iso (16222 * NS_PER_DAY + 5) = "2014-06-01"%string.
Proof. reflexivity. Qed.

Example parse_iso_rejects :
  Concrete.parse_iso "2014-02-30" = Unparseable /\
  Concrete.parse_iso "yesterday" = Unparseable.
Proof. split; reflexivity. Qed.

(** ** Stride sampling *)

Section Stride.

Context {A : Type}.

Lemma stride_from_nth_error (k : nat) :
  (1 <= k)%nat ->
  forall (l : list A) (s j : nat),
    nth_error (stride_from k s l) j = nth_error l (s + j * k).
Proof.
  intros Hk. induction l as [|x t IH]; intros s j.
  - simpl. destruct j, (s + _)%nat; reflexivity.
  - destruct s as [|s]; simpl.
    + destruct j as [|j]; simpl; [reflexivity|].
      rewrite IH. replace (k + j * k)%nat with (S (k - 1 + j * k)) by lia.
      reflexivity.
    + apply IH.
Qed.

Lemma stride_from_length (k : nat) :
  (1 <= k)%nat ->
  forall (l : list A) (s : nat),
    (s <= k - 1)%nat ->
    length (stride_from k s l) = ((length l + (k - 1 - s)) / k)%nat.
Proof.
  intros Hk. induction l as [|x t IH]; intros s Hs.
  - simpl. symmetry. apply Nat.div_small. lia.
  - destruct s as [|s]; simpl.
    + rewrite IH by lia.
      replace (k - 1 - (k - 1))%nat with 0%nat by lia.
      replace (S (length t + (k - 1 - 0)))%nat with (length t + 0 + 1 * k)%nat by lia.
      rewrite Nat.div_add by lia. lia.
    + rewrite IH by lia. f_equal. lia.
Qed.

Lemma stride_from_head (k : nat) (x : A) (t : list A) :
  stride_from k 0 (x :: t) = x :: stride_from k (k - 1) t.
Proof. reflexivity. Qed.

End Stride.

Lemma range_len_ceil (n k : nat) :
  (1 <= k)%nat ->
  range_len 0 (Z.of_nat n) (Z.of_nat k) = Z.of_nat ((n + (k - 1 - 0)) / k).
Proof.
  intros Hk. unfold range_len.
  destruct (Z.ltb_spec 0 (Z.of_nat n)) as [Hn|Hn].
  - rewrite Nat2Z.inj_div.
    replace (Z.of_nat (n + (k - 1 - 0))) with (Z.of_nat n - 0 - 1 + 1 * Z.of_nat k) by lia.
    rewrite Z.div_add by lia. reflexivity.
  - assert (n = 0)%nat by lia. subst n. simpl.
    rewrite Nat.div_small by lia. reflexivity.
Qed.

(** ** [get_price_data] *)

Lemma get_price_data_eq parse_ts s e limit self :
  get_price_data parse_ts s e limit self =
  (obind (date_filtered parse_ts s e (price_data self)) (fun F =>
     if limit <? Z.of_nat (length F)
     then obind (floordiv (Z.of_nat (length F)) limit) (fun step => iloc_step step F)
     else Returns F), self).
Proof.
  unfold get_price_data, date_filtered, bind, gets, lift, ret, Timestamp_of.
  destruct (given s) as [s'|]; [destruct (parse_ts s')|]; simpl; try reflexivity;
    (destruct (given e) as [e'|]; [destruct (parse_ts e')|]; simpl; try reflexivity);
    match goal with
    | |- context [if ?c then _ else _] => destruct c; [|reflexivity]
    end;
    match goal with
    | |- context [floordiv ?a ?b] => destruct (floordiv a b); simpl; [|reflexivity]
    end;
    match goal with
    | |- context [iloc_step ?a ?b] => destruct (iloc_step a b); reflexivity
    end.
Qed.

Lemma downsample_step (n : nat) (limit : Z) :
  1 <= limit -> limit < Z.of_nat n -> 1 <= Z.of_nat n / limit.
Proof.
  intros H1 H2. apply Z.div_le_lower_bound; lia.
Qed.

Lemma get_price_data_downsampled parse_ts self s e limit F :
  date_filtered parse_ts s e (price_data self) = Returns F ->
  1 <= limit -> limit < Z.of_nat (length F) ->
  get_price_data parse_ts s e limit self =
  (Returns (stride_from (Z.to_nat (Z.of_nat (length F) / limit)) 0 F), self).
Proof.
  intros HF H1 H2. rewrite get_price_data_eq, HF. simpl.
  pose proof (downsample_step _ _ H1 H2) as Hstep.
  destruct (Z.ltb_spec limit (Z.of_nat (length F))); [|lia].
  unfold floordiv. destruct (Z.eqb_spec limit 0); [lia|]. simpl.
  unfold iloc_step.
  destruct (Z.eqb_spec (Z.of_nat (length F) / limit) 0); [lia|].
  destruct (Z.ltb_spec 0 (Z.of_nat (length F) / limit)); [reflexivity|lia].
Qed.

Lemma get_price_data_whole parse_ts self s e limit F :
  date_filtered parse_ts s e (price_data self) = Returns F ->
  Z.of_nat (length F) <= limit ->
  get_price_data parse_ts s e limit self = (Returns F, self).
Proof.
  intros HF H. rewrite get_price_data_eq, HF. simpl.
  destruct (Z.ltb_spec limit (Z.of_nat (length F))); [lia|reflexivity].
Qed.

(** C6. With [N] rows in the date-filtered table and [1 <= limit < N],
    [get_price_data] returns the rows at positions [0, k, 2k, ...] for
    [k = N // limit], that is [len(range(0, N, k))] of them; and with
    [limit >= 1] a non-empty filtered table never gives an empty answer. *)
Theorem get_price_data_stride parse_ts self s e limit F :
  date_filtered parse_ts s e (price_data self) = Returns F ->
  1 <= limit ->
  (limit < Z.of_nat (length F) ->
   exists out,
     get_price_data parse_ts s e limit self = (Returns out, self) /\
     (forall j, nth_error out j
                = nth_error F (j * Z.to_nat (Z.of_nat (length F) / limit))) /\
     Z.of_nat (length out)
     = range_len 0 (Z.of_nat (length F)) (Z.of_nat (length F) / limit)) /\
  (F <> [] ->
   exists out,
     get_price_data parse_ts s e limit self = (Returns out, self) /\ out <> []).
Proof.
  intros HF H1. split.
  - intros H2. pose proof (downsample_step _ _ H1 H2) as Hstep.
    eexists. split; [apply (get_price_data_downsampled _ _ _ _ _ F); assumption|].
    set (k := Z.to_nat (Z.of_nat (length F) / limit)).
    assert (Hk : (1 <= k)%nat) by (unfold k; lia).
    split.
    + intros j. rewrite stride_from_nth_error by assumption. reflexivity.
    + rewrite stride_from_length by lia.
      rewrite <- range_len_ceil by assumption.
      unfold k. rewrite Z2Nat.id by lia. reflexivity.
  - intros Hne. destruct (Z.lt_ge_cases limit (Z.of_nat (length F))) as [H2|H2].
    + eexists. split; [apply (get_price_data_downsampled _ _ _ _ _ F); assumption|].
      destruct F as [|x t]; [contradiction|]. rewrite stride_from_head. discriminate.
    + exists F. split; [apply get_price_data_whole; assumption|assumption].
Qed.

Lemma get_price_data_stride_witness :
  date_filtered Concrete.parse_iso None None (price_data Demo.api4)
  = Returns (price_data Demo.api4) /\
  1 <= 2 /\
  (2 < Z.of_nat (length (price_data Demo.api4)) ->
   exists out,
     get_price_data Concrete.parse_iso None None 2 Demo.api4 = (Returns out, Demo.api4) /\
     (forall j, nth_error out j
                = nth_error (price_data Demo.api4)
                    (j * Z.to_nat (Z.of_nat (length (price_data Demo.api4)) / 2))) /\
     Z.of_nat (length out)
     = range_len 0 (Z.of_nat (length (price_data Demo.api4)))
                 (Z.of_nat (length (price_data Demo.api4)) / 2)) /\
  (price_data Demo.api4 <> [] ->
   exists out,
     get_price_data Concrete.parse_iso None None 2 Demo.api4 = (Returns out, Demo.api4) /\
     out <> []).
Proof.
  split; [reflexivity|]. split; [lia|].
  apply (get_price_data_stride Concrete.parse_iso Demo.api4 None None 2
           (price_data Demo.api4)); [reflexivity | lia].
Defined.

(** C10, as the code has it. For [limit >= 1] the first row returned by
    [get_price_data] is the first row of the date-filtered table, with or
    without downsampling. *)
Theorem get_price_data_first_record parse_ts self s e limit :
  1 <= limit -> first_record_kept parse_ts self s e limit.
Proof.
  intros H1 F HF Hne.
  destruct (Z.lt_ge_cases limit (Z.of_nat (length F))) as [H2|H2].
  - eexists. split; [apply (get_price_data_downsampled _ _ _ _ _ F); assumption|].
    destruct F as [|x t]; [contradiction|]. reflexivity.
  - exists F. split; [apply get_price_data_whole; assumption|reflexivity].
Qed.

Lemma get_price_data_first_record_witness :
  1 <= 2 /\ first_record_kept Concrete.parse_iso Demo.api4 None None 2.
Proof.
  split; [lia|].
  apply (get_price_data_first_record Concrete.parse_iso Demo.api4 None None 2). lia.
Defined.

(** A negative [limit] makes the stride negative: the answer starts from the
    latest row. *)
Lemma first_record_lost_negative_limit :
  ~ first_record_kept Concrete.parse_iso Demo.api4 None None (-1).
Proof.
  intros H. destruct (H (price_data Demo.api4)) as [out [Hout Hhd]];
    [reflexivity | discriminate |].
  vm_compute in Hout. inversion Hout; subst out. vm_compute in Hhd. discriminate.
Qed.

(** ** Arithmetic on finite cells *)

Lemma of_nat_nonzero (n : nat) :
  n <> 0%nat -> Qeq_bool (inject_Z (Z.of_nat n)) 0 = false.
Proof.
  intros Hn. destruct n as [|m]; [contradiction|]. reflexivity.
Qed.

Lemma fdiv_of_nat (q : Q) (n : nat) :
  n <> 0%nat -> fdiv (Fin q) (of_nat n) = Fin (q / inject_Z (Z.of_nat n)).
Proof.
  intros Hn. unfold fdiv, of_nat, of_Z. rewrite of_nat_nonzero by assumption.
  reflexivity.
Qed.

Lemma is_fin_inv (a : float64) : is_fin a = true -> exists q, a = Fin q.
Proof. destruct a; try discriminate. intros _. eexists; reflexivity. Qed.

Lemma is_fin_notna (a : float64) : is_fin a = true -> notna a = true.
Proof. destruct a; try discriminate; reflexivity. Qed.

Lemma fsub_fin (a b : float64) :
  is_fin a = true -> is_fin b = true -> is_fin (fsub a b) = true.
Proof. destruct a, b; try discriminate; reflexivity. Qed.

Lemma fsub_nan (a : float64) : fsub a NaN = NaN.
Proof. destruct a; reflexivity. Qed.

Lemma fsum_fin (l : list float64) : all_fin l -> exists q, fsum l = Fin q.
Proof.
  induction 1 as [|a l Ha _ [q IH]].
  - eexists; reflexivity.
  - destruct (is_fin_inv a Ha) as [x ->].
    change (fsum (Fin x :: l)) with (fadd (Fin x) (fsum l)). rewrite IH.
    eexists; reflexivity.
Qed.

Lemma Qsquare_nonneg (y : Q) : (0 <= y * y)%Q.
Proof.
  destruct (Qlt_le_dec y 0) as [H|H].
  - setoid_replace (y * y)%Q with ((- y) * (- y))%Q by ring.
    apply Qmult_le_0_compat; lra.
  - apply Qmult_le_0_compat; assumption.
Qed.

Lemma fsum_squares (m : Q) (l : list float64) :
  all_fin l ->
  exists q, fsum (map (fun x => fmul (fsub x (Fin m)) (fsub x (Fin m))) l) = Fin q
            /\ (0 <= q)%Q.
Proof.
  induction 1 as [|a l Ha _ [q [IH Hq]]].
  - exists 0%Q. split; [reflexivity | apply Qle_refl].
  - destruct (is_fin_inv a Ha) as [x ->].
    change (fsum (map (fun x => fmul (fsub x (Fin m)) (fsub x (Fin m))) (Fin x :: l)))
      with (fadd (fmul (fsub (Fin x) (Fin m)) (fsub (Fin x) (Fin m)))
                 (fsum (map (fun x => fmul (fsub x (Fin m)) (fsub x (Fin m))) l))).
    rewrite IH. simpl.
    eexists. split; [reflexivity|].
    apply (Qle_trans _ (0 + 0)%Q); [discriminate|].
    apply Qplus_le_compat; [|assumption].
    apply Qsquare_nonneg.
Qed.

Lemma dropna_all_fin (l : list float64) : all_fin l -> dropna_values l = l.
Proof.
  intros H. apply forallb_filter_id. apply forallb_forall.
  intros a Ha. apply is_fin_notna. exact (proj1 (Forall_forall _ l) H a Ha).
Qed.

Lemma series_mean_fin (l : list float64) :
  all_fin l -> l <> [] -> is_fin (series_mean l) = true.
Proof.
  intros H Hne. unfold series_mean. rewrite dropna_all_fin by assumption.
  destruct l as [|a t]; [contradiction|].
  destruct (fsum_fin _ H) as [q ->]. rewrite fdiv_of_nat by discriminate.
  reflexivity.
Qed.

Section Std.

Variable sqrt : Q -> Q.

Lemma np_sqrt_nonneg (q : Q) : (0 <= q)%Q -> np_sqrt sqrt (Fin q) = Fin (sqrt q).
Proof.
  intros H. unfold np_sqrt. destruct (Qcompare_spec q 0) as [_|Hlt|_]; try reflexivity.
  exfalso. exact (Qlt_not_le _ _ Hlt H).
Qed.

Lemma series_std_fin (l : list float64) :
  all_fin l -> (2 <= length l)%nat -> is_fin (series_std sqrt l) = true.
Proof.
  intros H Hlen. unfold series_std. rewrite dropna_all_fin by assumption.
  destruct (Nat.leb_spec (length l) 1) as [Hle|_]; [lia|].
  destruct (fsum_fin _ H) as [q ->]. rewrite fdiv_of_nat by lia.
  destruct (fsum_squares (q / inject_Z (Z.of_nat (length l))) l H) as [ss [-> Hss]].
  rewrite fdiv_of_nat by lia. rewrite np_sqrt_nonneg; [reflexivity|].
  apply Qle_shift_div_l.
  - change 0%Q with (inject_Z 0). rewrite <- Zlt_Qlt. lia.
  - rewrite Qmult_0_l. assumption.
Qed.

End Std.

(** ** Columns of the augmented table *)

Lemma insert_by_date_length r l :
  length (insert_by_date r l) = S (length l).
Proof.
  induction l as [|x t IH]; simpl; [reflexivity|].
  destruct (fst r <=? fst x); simpl; [reflexivity | rewrite IH; reflexivity].
Qed.

Lemma sort_values_date_length raw :
  length (sort_values_date raw) = length raw.
Proof.
  induction raw as [|r t IH]; simpl; [reflexivity|].
  rewrite insert_by_date_length, IH. reflexivity.
Qed.

Lemma insert_by_date_Forall (P : RawPrice -> Prop) r l :
  P r -> Forall P l -> Forall P (insert_by_date r l).
Proof.
  intros Hr. induction 1 as [|x t Hx Ht IH]; simpl.
  - constructor; [assumption | constructor].
  - destruct (fst r <=? fst x); repeat (constructor; try assumption).
Qed.

Lemma sort_values_date_Forall (P : RawPrice -> Prop) raw :
  Forall P raw -> Forall P (sort_values_date raw).
Proof.
  induction 1 as [|r t Hr Ht IH]; simpl; [constructor|].
  apply insert_by_date_Forall; assumption.
Qed.

Lemma sort_values_date_sorted raw :
  ascending raw -> sort_values_date raw = raw.
Proof.
  induction 1 as [|r t Ht IH Hhd]; simpl; [reflexivity|].
  rewrite IH. destruct Hhd as [|x t' Hle]; [reflexivity|].
  change (insert_by_date r (x :: t'))
    with (if fst r <=? fst x then r :: x :: t' else x :: insert_by_date r t').
  apply Z.leb_le in Hle. rewrite Hle. reflexivity.
Qed.

Lemma strictly_ascending_ascending raw : strictly_ascending raw -> ascending raw.
Proof.
  unfold strictly_ascending, ascending.
  induction 1 as [|r t Ht IH Hhd]; constructor; [exact IH|].
  destruct Hhd as [|x t' Hlt]; constructor. apply Z.lt_le_incl. exact Hlt.
Qed.

Lemma np_log_positive ln a : positive a -> is_fin (np_log ln a) = true.
Proof.
  destruct a as [| | |q]; simpl; try contradiction.
  intros Hq. apply Qgt_alt in Hq. rewrite Hq. reflexivity.
Qed.

Lemma logs_all_fin ln raw :
  positive_prices raw -> all_fin (map (np_log ln) (map snd raw)).
Proof.
  induction 1 as [|r t Hr Ht IH]; simpl; constructor.
  - apply np_log_positive. assumption.
  - assumption.
Qed.

Lemma prices_all_fin raw : positive_prices raw -> all_fin (map snd raw).
Proof.
  induction 1 as [|r t Hr Ht IH]; simpl; constructor; [|assumption].
  destruct (snd r); simpl in Hr; try contradiction. reflexivity.
Qed.

Lemma diff_from_length p l : length (diff_from p l) = length l.
Proof.
  revert p. induction l as [|x t IH]; intros p; simpl; [reflexivity|].
  rewrite IH. reflexivity.
Qed.

Lemma diff_from_all_fin p l :
  is_fin p = true -> all_fin l -> all_fin (diff_from p l).
Proof.
  intros Hp H. revert p Hp. induction H as [|x t Hx Ht IH]; intros p Hp; simpl.
  - constructor.
  - constructor; [apply fsub_fin; assumption | apply IH; assumption].
Qed.

(** On a column of finite values [diff] is NaN followed by finite values. *)
Lemma diff_all_fin l :
  all_fin l -> l <> [] ->
  exists fins, diff l = NaN :: fins /\ all_fin fins /\ S (length fins) = length l.
Proof.
  intros H Hne. destruct l as [|x t]; [contradiction|].
  exists (diff_from x t). unfold diff. simpl. rewrite fsub_nan.
  inversion H; subst. split; [reflexivity|]. split.
  - apply diff_from_all_fin; assumption.
  - rewrite diff_from_length. reflexivity.
Qed.

Lemma all_fin_firstn n l : all_fin l -> all_fin (firstn n l).
Proof.
  unfold all_fin. intros H. revert n.
  induction H as [|x t Hx Ht IH]; intros [|n]; simpl; auto.
Qed.

Lemma all_fin_skipn n l : all_fin l -> all_fin (skipn n l).
Proof.
  unfold all_fin. intros H. revert n.
  induction H as [|x t Hx Ht IH]; intros [|n]; simpl; auto.
Qed.

Lemma inf_to_nan_fin l : all_fin l -> map inf_to_nan l = l.
Proof.
  induction 1 as [|x t Hx Ht IH]; [reflexivity|].
  cbn [map]. rewrite IH. destruct x; try discriminate; reflexivity.
Qed.

Lemma rolling_nth w agg l i :
  (i < length l)%nat ->
  nth i (rolling w agg l) NaN
  = let obs := dropna_values (window_at w (map inf_to_nan l) i) in
    if (length obs <? w)%nat then NaN else agg obs.
Proof.
  intros Hi. unfold rolling. cbv zeta. rewrite length_map.
  set (g := fun i => let obs := dropna_values (window_at w (map inf_to_nan l) i) in
                     if (length obs <? w)%nat then NaN else agg obs).
  change (nth i (map g (seq 0 (length l))) NaN = g i).
  rewrite (nth_indep _ NaN (g 0%nat)) by (rewrite length_map, length_seq; assumption).
  rewrite map_nth, seq_nth by assumption. reflexivity.
Qed.

(** A window over a column of finite values. *)
Lemma window_all_fin w l i :
  all_fin l -> (i < length l)%nat ->
  all_fin (dropna_values (window_at w l i)) /\
  length (dropna_values (window_at w l i)) = Nat.min (S i) w.
Proof.
  intros H Hi.
  assert (Hw : all_fin (window_at w l i))
    by (apply all_fin_skipn, all_fin_firstn; assumption).
  rewrite dropna_all_fin by assumption. split; [assumption|].
  unfold window_at. rewrite length_skipn, length_firstn. lia.
Qed.

(** A window over a column that starts with its only NaN. *)
Lemma window_nan_head w fins i :
  (1 <= w)%nat -> all_fin fins -> (i <= length fins)%nat ->
  all_fin (dropna_values (window_at w (NaN :: fins) i)) /\
  length (dropna_values (window_at w (NaN :: fins) i)) = Nat.min i w.
Proof.
  intros Hw H Hi. unfold window_at. rewrite firstn_cons.
  destruct (S i - w)%nat as [|n] eqn:E.
  - change (skipn 0 (NaN :: firstn i fins)) with (NaN :: firstn i fins).
    change (dropna_values (NaN :: firstn i fins)) with (dropna_values (firstn i fins)).
    rewrite dropna_all_fin by (apply all_fin_firstn; assumption).
    split; [apply all_fin_firstn; assumption|].
    rewrite length_firstn. lia.
  - rewrite skipn_cons.
    rewrite dropna_all_fin by (apply all_fin_skipn, all_fin_firstn; assumption).
    split; [apply all_fin_skipn, all_fin_firstn; assumption|].
    rewrite length_skipn, length_firstn. lia.
Qed.

(** [rolling(30).mean()] over finite prices is missing exactly on the first
    29 positions. *)
Lemma rolling_mean_isna l i :
  all_fin l -> (i < length l)%nat ->
  (isna (nth i (rolling 30 series_mean l) NaN) = true <-> (i < 29)%nat).
Proof.
  intros H Hi. rewrite rolling_nth by assumption. cbv zeta.
  rewrite inf_to_nan_fin by assumption.
  destruct (window_all_fin 30 l i H Hi) as [Hfin Hlen]. rewrite Hlen.
  destruct (Nat.ltb_spec (Nat.min (S i) 30) 30) as [Hlt|Hge].
  - split; [lia | reflexivity].
  - split; [|lia]. intros Hna. exfalso.
    assert (Hne : dropna_values (window_at 30 l i) <> [])
      by (intros E; rewrite E in Hlen; simpl in Hlen; lia).
    pose proof (series_mean_fin _ Hfin Hne) as Hm.
    destruct (series_mean _); discriminate.
Qed.

(** [rolling(30).std() * sqrt(252)] over a column whose first cell is the
    only missing one is missing exactly on the first 30 positions. *)
Lemma rolling_vol_isna sqrt fins i :
  all_fin fins -> (i <= length fins)%nat ->
  (isna (nth i (map (fun v => fmul v (np_sqrt sqrt (of_Z 252)))
                    (rolling 30 (series_std sqrt) (NaN :: fins))) NaN) = true
   <-> (i < 30)%nat).
Proof.
  intros H Hi.
  change NaN with ((fun v => fmul v (np_sqrt sqrt (of_Z 252))) NaN) at 2.
  rewrite map_nth. rewrite rolling_nth by (simpl; lia). cbv zeta.
  cbn [map inf_to_nan]. rewrite inf_to_nan_fin by assumption.
  destruct (window_nan_head 30 fins i ltac:(lia) H Hi) as [Hfin Hlen]. rewrite Hlen.
  destruct (Nat.ltb_spec (Nat.min i 30) 30) as [Hlt|Hge].
  - split; [lia | reflexivity].
  - split; [|lia]. intros Hna. exfalso.
    assert (H2 : (2 <= length (dropna_values (window_at 30 (NaN :: fins) i)))%nat) by lia.
    pose proof (series_std_fin sqrt _ Hfin H2) as Hs.
    destruct (series_std _ _); discriminate.
Qed.

(** ** [calculate_metrics] *)

Section Metrics.

Variable ln : Q -> Q.
Variable sqrt : Q -> Q.

Lemma calculate_metrics_eq raw :
  calculate_metrics ln sqrt raw
  = filter (fun r => notna (log_return r)) (augmented ln sqrt raw).
Proof. reflexivity. Qed.

Lemma assemble_length dates p r l m v :
  length (assemble dates p r l m v) = length dates.
Proof. unfold assemble. rewrite length_map, length_seq. reflexivity. Qed.

Lemma assemble_nth_error dates p r l m v i :
  (i < length dates)%nat ->
  nth_error (assemble dates p r l m v) i
  = Some (mkPriceRow (nth i dates 0) (nth i p NaN) (nth i r NaN) (nth i l NaN)
                     (nth i m NaN) (nth i v NaN)).
Proof.
  intros Hi. unfold assemble. rewrite nth_error_map, nth_error_seq.
  destruct (Nat.ltb_spec i (length dates)); [reflexivity | lia].
Qed.

(** When only the first [log_return] is missing, dropping the rows without
    it drops the first row. *)
Lemma assemble_dropna dates p r l m v :
  ((0 < length dates)%nat -> nth 0 l NaN = NaN) ->
  (forall i, (1 <= i < length dates)%nat -> is_fin (nth i l NaN) = true) ->
  filter (fun x => notna (log_return x)) (assemble dates p r l m v)
  = tl (assemble dates p r l m v).
Proof.
  intros H0 Hi. unfold assemble.
  set (f := fun i => mkPriceRow _ _ _ _ _ _).
  destruct (length dates) as [|n]; [reflexivity|].
  change (seq 0 (S n)) with (0%nat :: seq 1 n).
  change (map f (0%nat :: seq 1 n)) with (f 0%nat :: map f (seq 1 n)).
  cbn [filter tl].
  replace (notna (log_return (f 0%nat))) with false
    by (subst f; cbn [log_return]; rewrite H0 by lia; reflexivity).
  apply forallb_filter_id, forallb_forall. intros x Hx.
  apply in_map_iff in Hx as [i [<- Hin]]. apply in_seq in Hin.
  subst f; cbn [log_return]. apply is_fin_notna, Hi. lia.
Qed.

Lemma nth_error_tl {A} (l : list A) j : nth_error (tl l) j = nth_error l (S j).
Proof. destruct l; [destruct j|]; reflexivity. Qed.

Lemma map_tl_comm {A B} (f : A -> B) (l : list A) : map f (tl l) = tl (map f l).
Proof. destruct l; reflexivity. Qed.

Lemma length_tl {A} (l : list A) : length (tl l) = (length l - 1)%nat.
Proof. destruct l; simpl; lia. Qed.

Lemma augmented_length raw : length (augmented ln sqrt raw) = length raw.
Proof.
  unfold augmented. cbv zeta.
  rewrite assemble_length, length_map, sort_values_date_length. reflexivity.
Qed.

(** With strictly positive prices the derived table is the augmented table
    without its first row. *)
Lemma calculate_metrics_tail raw :
  positive_prices raw ->
  calculate_metrics ln sqrt raw = tl (augmented ln sqrt raw).
Proof.
  intros Hpos. rewrite calculate_metrics_eq. unfold augmented. cbv zeta.
  pose proof (sort_values_date_Forall _ _ Hpos) as Hs.
  pose proof (logs_all_fin ln _ Hs) as Hlogs.
  assert (Hne : (0 < length (sort_values_date raw))%nat ->
                map (np_log ln) (map snd (sort_values_date raw)) <> []).
  { destruct (sort_values_date raw); simpl; [lia | discriminate]. }
  apply assemble_dropna; rewrite length_map.
  - intros Hn. destruct (diff_all_fin _ Hlogs (Hne Hn)) as [fins [-> _]].
    reflexivity.
  - intros i Hi.
    pose proof (Nat.le_lt_trans 0 _ _ (Nat.le_0_l i) (proj2 Hi)) as Hn.
    destruct (diff_all_fin _ Hlogs (Hne Hn)) as [fins [-> [Hf Hlen]]].
    rewrite !length_map in Hlen. destruct i as [|i]; [lia|]. simpl.
    apply (proj1 (Forall_nth _ fins) Hf). lia.
Qed.

Lemma assemble_dates_prices (rows : list RawPrice) r l m v :
  map (fun x => (date x, price x))
      (assemble (map fst rows) (map snd rows) r l m v) = rows.
Proof.
  apply nth_error_ext. intros i. rewrite nth_error_map.
  destruct (Nat.lt_ge_cases i (length rows)) as [Hi|Hi].
  - rewrite assemble_nth_error by (rewrite length_map; assumption).
    cbn [option_map date price].
    rewrite (nth_error_nth' rows (0, NaN)) by assumption.
    pose proof (map_nth fst rows (0, NaN) i) as E1. cbn [fst] in E1.
    pose proof (map_nth snd rows (0, NaN) i) as E2. cbn [snd] in E2.
    rewrite E1, E2, <- surjective_pairing. reflexivity.
  - rewrite (proj2 (nth_error_None _ _)) by (rewrite assemble_length, length_map; assumption).
    rewrite (proj2 (nth_error_None _ _)) by assumption. reflexivity.
Qed.

(** On a sorted table with strictly positive prices the rows kept are all
    but the first one, in order. *)
Lemma calculate_metrics_rows raw :
  ascending raw -> positive_prices raw ->
  map (fun r => (date r, price r)) (calculate_metrics ln sqrt raw) = tl raw.
Proof.
  intros Hsorted Hpos. rewrite calculate_metrics_tail by assumption.
  rewrite map_tl_comm. unfold augmented. cbv zeta.
  rewrite assemble_dates_prices. rewrite sort_values_date_sorted by assumption.
  reflexivity.
Qed.

(** C2. On a table sorted by date with strictly positive prices,
    [calculate_metrics] returns one row less than it was given when there
    are at least two rows, and nothing when there are fewer; when no date
    occurs twice, the rows kept are all but the first one, in order. *)
Theorem calculate_metrics_length raw :
  ascending raw -> positive_prices raw ->
  ((2 <= length raw)%nat ->
   length (calculate_metrics ln sqrt raw) = (length raw - 1)%nat) /\
  ((length raw <= 1)%nat -> length (calculate_metrics ln sqrt raw) = 0%nat) /\
  (strictly_ascending raw ->
   map (fun r => (date r, price r)) (calculate_metrics ln sqrt raw) = tl raw).
Proof.
  intros Hsorted Hpos.
  assert (Hlen : length (calculate_metrics ln sqrt raw) = (length raw - 1)%nat).
  { rewrite calculate_metrics_tail by assumption.
    rewrite length_tl, augmented_length. reflexivity. }
  split; [intros _; exact Hlen|]. split; [intros H; rewrite Hlen; lia|].
  intros Hstrict. apply calculate_metrics_rows; [|assumption].
  apply strictly_ascending_ascending. exact Hstrict.
Qed.

(** C3, as the code has it. The rolling columns are computed before the
    first row is dropped, so in the derived table [rolling_mean_30d] is
    missing on the first 28 rows and present from the 29th row on, while
    [rolling_volatility_30d] is missing on the first 29 rows and present
    from the 30th row on (strictly positive prices). *)
Theorem rolling_columns_by_position raw j r :
  positive_prices raw ->
  nth_error (calculate_metrics ln sqrt raw) j = Some r ->
  (isna (rolling_mean_30d r) = true <-> (j < 28)%nat) /\
  (isna (rolling_volatility_30d r) = true <-> (j < 29)%nat).
Proof.
  intros Hpos Hr. rewrite calculate_metrics_tail in Hr by assumption.
  rewrite nth_error_tl in Hr.
  assert (Hj : (S j < length raw)%nat).
  { rewrite <- (augmented_length raw). apply nth_error_Some. congruence. }
  pose proof (sort_values_date_Forall _ _ Hpos) as Hs.
  pose proof (sort_values_date_length raw) as Hsl.
  unfold augmented in Hr. cbv zeta in Hr.
  rewrite assemble_nth_error in Hr
    by (rewrite length_map, sort_values_date_length; exact Hj).
  injection Hr as <-. cbn [rolling_mean_30d rolling_volatility_30d].
  rewrite <- Hsl in Hj. clear Hsl.
  generalize dependent (sort_values_date raw). intros sorted Hj Hs. split.
  - rewrite rolling_mean_isna; [lia | apply prices_all_fin; assumption |].
    rewrite length_map. exact Hj.
  - assert (Hne : map (np_log ln) (map snd sorted) <> []).
    { destruct sorted; [simpl in Hj; lia | discriminate]. }
    destruct (diff_all_fin _ (logs_all_fin ln _ Hs) Hne) as [fins [-> [Hf Hlen]]].
    rewrite !length_map in Hlen.
    assert (Hi : (S j <= length fins)%nat)
      by (apply Nat.lt_succ_r; rewrite Hlen; exact Hj).
    apply (iff_trans (rolling_vol_isna sqrt fins (S j) Hf Hi)). lia.
Qed.

Lemma fsub_notna a b : notna (fsub a b) = true -> notna a = true.
Proof. destruct a; [destruct b; discriminate | | |]; reflexivity. Qed.

Lemma diff_from_notna l : forall p i,
  notna (nth i (diff_from p l) NaN) = true -> notna (nth i l NaN) = true.
Proof.
  induction l as [|x t IH]; intros p i; [destruct i; discriminate|].
  destruct i as [|i]; cbn [diff_from nth].
  - apply fsub_notna.
  - apply IH.
Qed.

Lemma np_log_notna a : notna (np_log ln a) = true -> notna a = true.
Proof. destruct a; try discriminate; reflexivity. Qed.

(** No row of the derived table has a missing price: a missing price makes
    [log_return] missing, and the row is dropped. *)
Lemma calculate_metrics_price_notna raw r :
  In r (calculate_metrics ln sqrt raw) -> notna (price r) = true.
Proof.
  rewrite calculate_metrics_eq. intros H. apply filter_In in H as [Hin Hlog].
  unfold augmented, assemble in Hin. cbv zeta in Hin.
  apply in_map_iff in Hin as [i [<- _]]. cbn [price log_return] in *.
  unfold diff in Hlog. apply diff_from_notna in Hlog.
  change NaN with (np_log ln NaN) in Hlog at 1. rewrite map_nth in Hlog.
  apply np_log_notna in Hlog. exact Hlog.
Qed.

End Metrics.

Ltac solve_ascending :=
  repeat first
    [ apply Sorted_nil | apply Sorted_cons | apply HdRel_nil
    | apply HdRel_cons; vm_compute; discriminate ].

Ltac solve_strictly_ascending :=
  repeat first
    [ apply Sorted_nil | apply Sorted_cons | apply HdRel_nil
    | apply HdRel_cons; vm_compute; reflexivity ].

Ltac solve_positive :=
  repeat first [ apply Forall_nil | apply Forall_cons; [reflexivity|] ].

Lemma raw4_ascending : ascending Demo.raw4.
Proof. unfold ascending, Demo.raw4. solve_ascending. Qed.

Lemma raw4_positive : positive_prices Demo.raw4.
Proof. unfold positive_prices, Demo.raw4. solve_positive. Qed.

Lemma raw30_ascending : ascending Demo.raw30.
Proof. unfold ascending, Demo.raw30. cbn [map seq]. solve_ascending. Qed.

Lemma raw4_strictly_ascending : strictly_ascending Demo.raw4.
Proof. unfold strictly_ascending, Demo.raw4. solve_strictly_ascending. Qed.

Lemma raw30_strictly_ascending : strictly_ascending Demo.raw30.
Proof.
  unfold strictly_ascending, Demo.raw30. cbn [map seq]. solve_strictly_ascending.
Qed.

Lemma raw30_positive : positive_prices Demo.raw30.
Proof. unfold positive_prices, Demo.raw30. cbn [map seq]. solve_positive. Qed.

Lemma calculate_metrics_length_witness :
  ascending Demo.raw4 /\ positive_prices Demo.raw4 /\
  ((2 <= length Demo.raw4)%nat ->
   length (calculate_metrics Concrete.ln_series Concrete.sqrt_floor Demo.raw4) = (length Demo.raw4 - 1)%nat) /\
  ((length Demo.raw4 <= 1)%nat ->
   length (calculate_metrics Concrete.ln_series Concrete.sqrt_floor Demo.raw4) = 0%nat) /\
  (strictly_ascending Demo.raw4 ->
   map (fun r => (date r, price r)) (calculate_metrics Concrete.ln_series Concrete.sqrt_floor Demo.raw4)
   = tl Demo.raw4).
Proof.
  split; [exact raw4_ascending|]. split; [exact raw4_positive|].
  apply (calculate_metrics_length Concrete.ln_series Concrete.sqrt_floor Demo.raw4);
    [exact raw4_ascending | exact raw4_positive].
Defined.

Lemma raw30_row_29 :
  exists r,
    nth_error (calculate_metrics Concrete.ln_series Concrete.sqrt_floor Demo.raw30) 28 = Some r /\
    rolling_mean_30d r = Fin (1935 # 30) /\
    rolling_volatility_30d r = NaN.
Proof. vm_compute. eexists. repeat split. Qed.

Lemma rolling_columns_by_position_witness :
  positive_prices Demo.raw30 /\
  exists r,
    nth_error (calculate_metrics Concrete.ln_series Concrete.sqrt_floor Demo.raw30) 28 = Some r /\
    (isna (rolling_mean_30d r) = true <-> (28 < 28)%nat) /\
    (isna (rolling_volatility_30d r) = true <-> (28 < 29)%nat).
Proof.
  split; [exact raw30_positive|].
  destruct raw30_row_29 as [r [Hr _]]. exists r. split; [exact Hr|].
  exact (rolling_columns_by_position Concrete.ln_series Concrete.sqrt_floor
           Demo.raw30 28 r raw30_positive Hr).
Defined.

(** With thirty sorted, strictly positive records the 29th row of the
    derived table already has its [rolling_mean_30d]. *)
Lemma rolling_mean_present_on_row_29 :
  ascending Demo.raw30 /\ positive_prices Demo.raw30 /\
  (30 <= length Demo.raw30)%nat /\
  ~ rolling_missing_on_first_29 Concrete.ln_series Concrete.sqrt_floor Demo.raw30.
Proof.
  split; [exact raw30_ascending|]. split; [exact raw30_positive|].
  split; [vm_compute; lia|].
  intros H. destruct raw30_row_29 as [r [Hr [Hm _]]].
  destruct (H 28%nat r ltac:(lia) Hr) as [Hna _].
  rewrite Hm in Hna. discriminate.
Qed.

(** ** [get_event_impact] *)

Lemma filter_head_find {A} (p : A -> bool) (l : list A) :
  match filter p l with [] => None | x :: _ => Some x end = find p l.
Proof.
  induction l as [|a t IH]; simpl; [reflexivity|].
  destruct (p a); [reflexivity | assumption].
Qed.

Lemma map_o_days d sel :
  map_o (fun r => days_from (DTimestamp d) (date r)) sel
  = Returns (map (fun r => Some (days_from_event d r)) sel).
Proof.
  induction sel as [|r t IH]; [reflexivity|].
  cbn [map_o map]. rewrite IH. reflexivity.
Qed.

Lemma combine_map {A B} (f : A -> B) (l : list A) :
  combine l (map f l) = map (fun x => (x, f x)) l.
Proof. induction l as [|a t IH]; simpl; [reflexivity | rewrite IH; reflexivity]. Qed.

Lemma filter_map_comm {A B} (p : B -> bool) (g : A -> B) (l : list A) :
  filter p (map g l) = map g (filter (fun x => p (g x)) l).
Proof.
  induction l as [|a t IH]; simpl; [reflexivity|].
  destruct (p (g a)); simpl; rewrite IH; reflexivity.
Qed.

Lemma mean_or_none_days d rows :
  mean_or_none (map (fun r => (r, Some (days_from_event d r))) rows)
  = mean_price rows.
Proof.
  destruct rows as [|r t]; [reflexivity|].
  unfold mean_or_none, mean_price.
  change (map (fun r0 => (r0, Some (days_from_event d r0))) (r :: t))
    with ((r, Some (days_from_event d r))
          :: map (fun r0 => (r0, Some (days_from_event d r0))) t).
  cbn [map fst]. rewrite map_map. reflexivity.
Qed.

Lemma py_truediv_truthy a b :
  truthy b = true -> py_truediv a b = Returns (fdiv a b).
Proof.
  destruct b as [| | |q]; simpl; try reflexivity.
  intros H. apply negb_true_iff in H. rewrite H. reflexivity.
Qed.

Lemma in_window_rows d df :
  filter (in_window (Some (d + - timedelta 30)) (Some (d + timedelta 30))) df
  = window_rows 30 d df.
Proof.
  apply filter_ext. intros r. unfold in_window, ts_ge, ts_le.
  rewrite Z.add_opp_r. reflexivity.
Qed.

(** What [get_event_impact] returns, case by case. *)
Lemma get_event_impact_eq event_id self :
  get_event_impact event_id self =
  (match find_event (events_data self) event_id with
   | None => Returns None
   | Some ev =>
       match ev_date ev with
       | DStr _ => Raises TypeError
       | DNaT => Returns None
       | DTimestamp d =>
           match window_rows 30 d (price_data self) with
           | [] => Returns None
           | sel => Returns (Some (impact_of ev d sel))
           end
       end
   end, self).
Proof.
  unfold get_event_impact, find_event, bind, gets, lift, ret.
  rewrite <- filter_head_find.
  destruct (filter (fun e => ev_id e =? event_id) (events_data self)) as [|ev rest];
    [reflexivity|].
  destruct (ev_date ev) as [d| |str] eqn:Edate; cbn [cell_shift].
  - rewrite in_window_rows.
    destruct (window_rows 30 d (price_data self)) as [|r sel] eqn:Esel; [reflexivity|].
    rewrite map_o_days, combine_map, !filter_map_comm. cbn [snd lt0 gt0].
    rewrite !mean_or_none_days.
    fold (before_partition d (r :: sel)). fold (after_partition d (r :: sel)).
    unfold impact_of. cbv zeta.
    destruct (mean_price (before_partition d (r :: sel))) as [pb|];
      destruct (mean_price (after_partition d (r :: sel))) as [pa|];
      cbn [opt_truthy andb change_pct]; try reflexivity.
    + destruct (truthy pb) eqn:Hb; cbn [andb]; [|reflexivity].
      destruct (truthy pa) eqn:Ha; [|reflexivity].
      rewrite py_truediv_truthy by assumption. reflexivity.
    + destruct (truthy pb); reflexivity.
  - destruct (price_data self) as [|r t]; [reflexivity|].
    assert (E : forall l, filter (in_window None None) l = []).
    { induction l as [|x l IH]; [reflexivity|]. simpl. exact IH. }
    rewrite E. reflexivity.
  - reflexivity.
Qed.

Lemma days_from_event_same_day d r : date r = d -> days_from_event d r = 0.
Proof.
  intros H. unfold days_from_event, td_days. rewrite H, Z.sub_diag. reflexivity.
Qed.

Lemma days_from_event_negative d r : days_from_event d r < 0 <-> date r < d.
Proof.
  unfold days_from_event, td_days.
  assert (HN : 0 < NS_PER_DAY) by reflexivity. split; intros H.
  - destruct (Z.lt_ge_cases (date r) d) as [Hlt|Hge]; [assumption|].
    assert (0 <= (date r - d) / NS_PER_DAY) by (apply Z.div_pos; lia). lia.
  - apply Z.div_lt_upper_bound; lia.
Qed.

Lemma days_from_event_positive d r :
  0 < days_from_event d r <-> d + NS_PER_DAY <= date r.
Proof.
  unfold days_from_event, td_days.
  assert (HN : 0 < NS_PER_DAY) by reflexivity. split; intros H.
  - destruct (Z.lt_ge_cases (date r) (d + NS_PER_DAY)) as [Hlt|Hge]; [|assumption].
    assert ((date r - d) / NS_PER_DAY < 1) by (apply Z.div_lt_upper_bound; lia). lia.
  - assert (1 <= (date r - d) / NS_PER_DAY) by (apply Z.div_le_lower_bound; lia). lia.
Qed.

Lemma series_mean_arithmetic l :
  Forall (fun a => notna a = true) l -> l <> [] ->
  series_mean l = arithmetic_mean l.
Proof.
  intros H Hne. unfold series_mean, arithmetic_mean, dropna_values.
  rewrite forallb_filter_id by (apply forallb_forall, Forall_forall; assumption).
  destruct l; [contradiction | reflexivity].
Qed.

Lemma mean_price_arithmetic rows :
  (forall r, In r rows -> notna (price r) = true) ->
  mean_price rows
  = match rows with [] => None | _ => Some (arithmetic_mean (map price rows)) end.
Proof.
  intros H. destruct rows as [|r t]; [reflexivity|]. unfold mean_price.
  rewrite series_mean_arithmetic; [reflexivity | | discriminate].
  apply Forall_forall. intros a Ha. apply in_map_iff in Ha as [x [<- Hx]].
  apply H. assumption.
Qed.

(** C1. When [get_event_impact] returns an impact, the rows selected in the
    30-day window of the event are split by the signed day offset: offset
    below zero before, above zero after, a row dated on the event itself in
    neither; [price_before] and [price_after] are the means of the prices
    of the two parts, absent for an empty part. *)
Theorem event_impact_partition event_id self imp self' :
  get_event_impact event_id self = (Returns (Some imp), self') ->
  exists ev d,
    find_event (events_data self) event_id = Some ev /\
    ev_date ev = DTimestamp d /\
    let sel := window_rows 30 d (price_data self) in
    let before := before_partition d sel in
    let after := after_partition d sel in
    sel <> [] /\
    (forall r, In r before <-> In r sel /\ days_from_event d r < 0) /\
    (forall r, In r after <-> In r sel /\ 0 < days_from_event d r) /\
    (forall r, In r sel -> date r = d -> ~ In r before /\ ~ In r after) /\
    price_before imp
    = match before with [] => None | _ => Some (series_mean (map price before)) end /\
    price_after imp
    = match after with [] => None | _ => Some (series_mean (map price after)) end /\
    ((forall r, In r sel -> notna (price r) = true) ->
     price_before imp
     = match before with [] => None | _ => Some (arithmetic_mean (map price before)) end /\
     price_after imp
     = match after with [] => None | _ => Some (arithmetic_mean (map price after)) end).
Proof.
  rewrite get_event_impact_eq. intros H. injection H as H _.
  destruct (find_event (events_data self) event_id) as [ev|] eqn:Efind; [|discriminate].
  destruct (ev_date ev) as [d| |str] eqn:Edate; try discriminate.
  exists ev, d. split; [reflexivity|]. split; [exact Edate|]. cbv zeta.
  destruct (window_rows 30 d (price_data self)) as [|r0 sel0] eqn:Esel; [discriminate|].
  injection H as <-. set (sel := r0 :: sel0).
  split; [discriminate|].
  assert (Hb : forall r, In r (before_partition d sel)
                         <-> In r sel /\ days_from_event d r < 0).
  { intros r. unfold before_partition. rewrite filter_In, Z.ltb_lt. reflexivity. }
  assert (Ha : forall r, In r (after_partition d sel)
                         <-> In r sel /\ 0 < days_from_event d r).
  { intros r. unfold after_partition. rewrite filter_In, Z.ltb_lt. reflexivity. }
  split; [exact Hb|]. split; [exact Ha|]. split.
  { intros r Hr Hd. pose proof (days_from_event_same_day d r Hd) as H0.
    rewrite Hb, Ha. lia. }
  split; [reflexivity|]. split; [reflexivity|].
  intros Hna. cbn [impact_of price_before price_after]. split.
  - apply mean_price_arithmetic. intros r Hr. apply Hna, Hb, Hr.
  - apply mean_price_arithmetic. intros r Hr. apply Hna, Ha, Hr.
Qed.

Lemma event_impact_partition_witness :
  exists imp,
    get_event_impact 8 (Demo.loaded Demo.files_first_run)
    = (Returns (Some imp), Demo.loaded Demo.files_first_run) /\
    exists ev d,
      find_event (events_data (Demo.loaded Demo.files_first_run)) 8 = Some ev /\
      ev_date ev = DTimestamp d /\
      let sel := window_rows 30 d (price_data (Demo.loaded Demo.files_first_run)) in
      let before := before_partition d sel in
      let after := after_partition d sel in
      sel <> [] /\
      (forall r, In r before <-> In r sel /\ days_from_event d r < 0) /\
      (forall r, In r after <-> In r sel /\ 0 < days_from_event d r) /\
      (forall r, In r sel -> date r = d -> ~ In r before /\ ~ In r after) /\
      price_before imp
      = match before with [] => None | _ => Some (series_mean (map price before)) end /\
      price_after imp
      = match after with [] => None | _ => Some (series_mean (map price after)) end /\
      ((forall r, In r sel -> notna (price r) = true) ->
       price_before imp
       = match before with [] => None | _ => Some (arithmetic_mean (map price before)) end /\
       price_after imp
       = match after with [] => None | _ => Some (arithmetic_mean (map price after)) end).
Proof.
  assert (H : { imp | get_event_impact 8 (Demo.loaded Demo.files_first_run)
                      = (Returns (Some imp), Demo.loaded Demo.files_first_run) }).
  { vm_compute. eexists. reflexivity. }
  destruct H as [imp H]. exists imp. split; [exact H|].
  exact (event_impact_partition 8 _ imp _ H).
Defined.

(** The means computed on the first-run example. *)
Example event_8_first_run :
  exists imp b a c,
    get_event_impact 8 (Demo.loaded Demo.files_first_run)
    = (Returns (Some imp), Demo.loaded Demo.files_first_run) /\
    price_before imp = Some b /\ feq b (Fin 109) /\
    price_after imp = Some a /\ feq a (Fin 106) /\
    price_change_pct imp = Some c /\ feq c (Fin (- 300 # 109)).
Proof. vm_compute. do 4 eexists. repeat split. Qed.

(** A [limit] of zero divides by zero as soon as the table is not empty. *)
Example zero_limit_raises :
  get_price_data Concrete.parse_iso None None 0 Demo.api4
  = (Raises ZeroDivisionError, Demo.api4).
Proof. vm_compute. reflexivity. Qed.

(** ** [price_change_pct] *)

(** What the code stores in [price_change_pct]. *)
Lemma price_change_pct_eq event_id self imp self' :
  get_event_impact event_id self = (Returns (Some imp), self') ->
  price_change_pct imp
  = if opt_truthy (price_before imp) && opt_truthy (price_after imp)
    then change_pct (price_before imp) (price_after imp)
    else None.
Proof.
  rewrite get_event_impact_eq. intros H. injection H as H _.
  destruct (find_event _ _) as [ev|]; [|discriminate].
  destruct (ev_date ev); try discriminate.
  destruct (window_rows _ _ _); [discriminate|].
  injection H as <-. reflexivity.
Qed.

(** It follows the specification's rule whenever neither mean is zero, and
    in particular when a mean is absent. *)
Lemma price_change_pct_nonzero event_id self imp self' :
  get_event_impact event_id self = (Returns (Some imp), self') ->
  (forall q, price_before imp = Some (Fin q) -> ~ (q == 0)%Q) ->
  (forall q, price_after imp = Some (Fin q) -> ~ (q == 0)%Q) ->
  price_change_pct imp = change_pct (price_before imp) (price_after imp).
Proof.
  intros H Hb Ha. rewrite (price_change_pct_eq _ _ _ _ H).
  destruct (price_before imp) as [b|]; [|reflexivity].
  destruct (price_after imp) as [a|]; [|destruct (opt_truthy (Some b)); reflexivity].
  assert (Tb : truthy b = true).
  { destruct b as [| | |q]; try reflexivity. simpl. apply negb_true_iff.
    destruct (Qeq_bool q 0) eqn:E; [|reflexivity].
    apply Qeq_bool_iff in E. exfalso. exact (Hb q eq_refl E). }
  assert (Ta : truthy a = true).
  { destruct a as [| | |q]; try reflexivity. simpl. apply negb_true_iff.
    destruct (Qeq_bool q 0) eqn:E; [|reflexivity].
    apply Qeq_bool_iff in E. exfalso. exact (Ha q eq_refl E). }
  cbn [opt_truthy]. rewrite Tb, Ta. reflexivity.
Qed.

(** C4, where the code departs from it. A price of zero on the only day
    after the event makes [price_after] the float [0.0]; [if price_before and
    price_after] takes it for a missing mean, and [price_change_pct] stays
    absent although both means are there and the rule gives -100. *)
Theorem zero_mean_taken_for_absent :
  exists imp b a c,
    get_event_impact 8 (Demo.loaded Demo.files_zero)
    = (Returns (Some imp), Demo.loaded Demo.files_zero) /\
    price_before imp = Some b /\ feq b (Fin 100) /\
    price_after imp = Some a /\ feq a (Fin 0) /\
    price_change_pct imp = None /\
    change_pct (price_before imp) (price_after imp) = Some c /\
    feq c (Fin (- 100)).
Proof. vm_compute. do 4 eexists. repeat split. Qed.

(** ** Not found, found, and raising *)

Lemma window_rows_In days d df r :
  In r (window_rows days d df)
  <-> In r df /\ d - timedelta days <= date r <= d + timedelta days.
Proof.
  unfold window_rows. rewrite filter_In, andb_true_iff, !Z.leb_le. tauto.
Qed.

(** With a converted [date] column [get_event_impact] never raises: it
    returns [None] when the id is absent or the event has no price row in
    its window, and an impact otherwise. *)
Lemma get_event_impact_converted event_id self :
  dates_converted (events_data self) ->
  exists res,
    get_event_impact event_id self = (Returns res, self) /\
    (res = None <->
     find_event (events_data self) event_id = None \/
     exists ev, find_event (events_data self) event_id = Some ev /\
                coverage ev (price_data self) = []).
Proof.
  intros Hconv. rewrite get_event_impact_eq. unfold coverage.
  destruct (find_event (events_data self) event_id) as [ev|] eqn:Efind.
  - apply find_some in Efind as [Hin _].
    pose proof (proj1 (Forall_forall _ _) Hconv ev Hin) as Hev.
    destruct (ev_date ev) as [d| |str] eqn:Edate.
    + destruct (window_rows 30 d (price_data self)) as [|r sel] eqn:Esel.
      * exists None. split; [reflexivity|]. split; [|reflexivity].
        intros _. right. exists ev. rewrite Edate. split; [reflexivity | exact Esel].
      * eexists. split; [reflexivity|]. split; [discriminate|].
        intros [H|[ev' [H1 H2]]]; [discriminate|].
        injection H1 as <-. rewrite Edate, Esel in H2. discriminate.
    + exists None. split; [reflexivity|]. split; [|reflexivity].
      intros _. right. exists ev. rewrite Edate. split; reflexivity.
    + exfalso. exact (Hev str Edate).
  - exists None. split; [reflexivity|]. split; [|reflexivity]. intros _. left. reflexivity.
Qed.

(** The synthesized events table is converted. *)
Lemma first_run_dates_converted :
  dates_converted (events_data (Demo.loaded Demo.files_first_run)).
Proof.
  vm_compute. repeat (apply Forall_cons; [intros s; discriminate|]). apply Forall_nil.
Qed.

Lemma load_data_csv_events ln sqrt parse_ts csv_date files self files' rows :
  events_csv files = Some rows ->
  load_data ln sqrt parse_ts csv_date files = Returns (self, files') ->
  events_data self = map (with_date DStr) rows /\ files' = files.
Proof.
  intros Hcsv H. unfold load_data, load_or_create_events in H. rewrite Hcsv in H.
  destruct (cleaned_csv files) as [raw|]; [|destruct (raw_csv files) as [raw|]];
    try discriminate; cbn [obind fst snd] in H; injection H as <- <-;
    split; reflexivity.
Qed.

(** Once the events come from [events.csv], every id that is present makes
    [get_event_impact] raise. *)
Lemma get_event_impact_csv_raises ln sqrt parse_ts csv_date files self files' rows
    event_id :
  events_csv files = Some rows ->
  load_data ln sqrt parse_ts csv_date files = Returns (self, files') ->
  find_event (events_data self) event_id <> None ->
  get_event_impact event_id self = (Raises TypeError, self).
Proof.
  intros Hcsv Hload Hfound.
  destruct (load_data_csv_events _ _ _ _ _ _ _ _ Hcsv Hload) as [Hev _].
  rewrite get_event_impact_eq.
  destruct (find_event (events_data self) event_id) as [ev|] eqn:Efind;
    [|contradiction].
  apply find_some in Efind as [Hin _]. rewrite Hev in Hin.
  apply in_map_iff in Hin as [row [<- _]]. reflexivity.
Qed.

(** C5, where the code departs from it. With an [events.csv] on disk (as
    [setup_dashboard.py] writes it, or as a previous start of the backend
    left it) the [date] column stays a column of strings, and for an event id
    that is present, with price rows in its window, [get_event_impact] raises
    [TypeError] at [event_date - timedelta(days=window)] instead of
    returning an impact. *)
Theorem get_event_impact_raises_on_csv_events :
  let self := Demo.loaded Demo.files_after_setup in
  load_data Concrete.ln_series Concrete.sqrt_floor Concrete.parse_iso
            Concrete.format_iso Demo.files_after_setup
  = Returns (self, Demo.files_after_setup) /\
  (exists ev, find_event (events_data self) 8 = Some ev /\
              ev_date ev = DStr "2014-06-01") /\
  window_rows 30 (Concrete.day 2014 6 1) (price_data self) <> [] /\
  get_event_impact 8 self = (Raises TypeError, self) /\
  Demo.files_left Demo.files_first_run = Demo.files_after_setup /\
  exists imp,
    get_event_impact 8 (Demo.loaded Demo.files_first_run)
    = (Returns (Some imp), Demo.loaded Demo.files_first_run).
Proof.
  cbv zeta. split; [vm_compute; reflexivity|].
  split; [vm_compute; eexists; split; reflexivity|].
  split; [vm_compute; discriminate|].
  split; [vm_compute; reflexivity|].
  split; [vm_compute; reflexivity|].
  vm_compute. eexists. reflexivity.
Qed.

(** The same string column makes a date filter of [get_events] raise, even
    for a well-formed date. *)
Example get_events_raises_on_csv_events :
  get_events Concrete.parse_iso (Some "all"%string) (Some "2000-01-01"%string) None
             (Demo.loaded Demo.files_after_setup)
  = (Raises TypeError, Demo.loaded Demo.files_after_setup).
Proof. vm_compute. reflexivity. Qed.

(** ** [get_summary_stats] *)

Lemma load_data_price_data ln sqrt parse_ts csv_date files self files' raw :
  cleaned_csv files = Some raw ->
  load_data ln sqrt parse_ts csv_date files = Returns (self, files') ->
  price_data self = calculate_metrics ln sqrt raw.
Proof.
  intros Hcsv H. unfold load_data in H. rewrite Hcsv in H. cbn [obind] in H.
  destruct (load_or_create_events parse_ts csv_date files) as [ef|]; [|discriminate].
  cbn [obind] in H. injection H as <- _. reflexivity.
Qed.

(** C7, as the code has it. The statistics are taken on the derived table,
    which has lost the first record: for the loaded series 10, 20, 30 the
    reported distribution has min 20, max 30, mean 25 and median 25. *)
Theorem summary_stats_after_drop ln sqrt parse_ts csv_date strftime
    files self files' d1 d2 d3 :
  d1 <= d2 -> d2 <= d3 ->
  cleaned_csv files = Some [(d1, of_Z 10); (d2, of_Z 20); (d3, of_Z 30)] ->
  load_data ln sqrt parse_ts csv_date files = Returns (self, files') ->
  summary_is sqrt strftime self 20 30 25 25.
Proof.
  intros H12 H23 Hcsv Hload.
  pose proof (load_data_price_data _ _ _ _ _ _ _ _ Hcsv Hload) as Hpd.
  set (raw := [(d1, of_Z 10); (d2, of_Z 20); (d3, of_Z 30)]) in *.
  assert (Hasc : ascending raw).
  { unfold ascending, raw.
    repeat first [ apply Sorted_nil | apply Sorted_cons | apply HdRel_nil
                 | apply HdRel_cons; assumption ]. }
  assert (Hpos : positive_prices raw).
  { unfold positive_prices, raw. solve_positive. }
  pose proof (calculate_metrics_rows ln sqrt raw Hasc Hpos) as Hrows.
  rewrite <- Hpd in Hrows. unfold summary_is, get_summary_stats, bind, gets, lift, ret.
  destruct (price_data self) as [|r1 [|r2 [|r3 rest]]]; try discriminate.
  cbn [map raw tl] in Hrows. injection Hrows as Hd1 Hp1 Hd2 Hp2.
  cbn [map]. rewrite Hd1, Hp1, Hd2, Hp2. cbn.
  eexists. split; [reflexivity|]. cbn. repeat split; reflexivity.
Qed.

Lemma summary_stats_after_drop_witness :
  Concrete.day 2020 1 1 <= Concrete.day 2020 1 2 /\
  Concrete.day 2020 1 2 <= Concrete.day 2020 1 3 /\
  cleaned_csv Demo.files3 = Some Demo.prices3 /\
  load_data Concrete.ln_series Concrete.sqrt_floor Concrete.parse_iso
            Concrete.format_iso Demo.files3
  = Returns (Demo.loaded Demo.files3, Demo.files_left Demo.files3) /\
  summary_is Concrete.sqrt_floor Concrete.format_iso (Demo.loaded Demo.files3)
             20 30 25 25.
Proof.
  assert (H1 : Concrete.day 2020 1 1 <= Concrete.day 2020 1 2)
    by (vm_compute; discriminate).
  assert (H2 : Concrete.day 2020 1 2 <= Concrete.day 2020 1 3)
    by (vm_compute; discriminate).
  assert (H3 : load_data Concrete.ln_series Concrete.sqrt_floor Concrete.parse_iso
                         Concrete.format_iso Demo.files3
               = Returns (Demo.loaded Demo.files3, Demo.files_left Demo.files3))
    by (vm_compute; reflexivity).
  split; [exact H1|]. split; [exact H2|]. split; [reflexivity|]. split; [exact H3|].
  exact (summary_stats_after_drop _ _ _ _ Concrete.format_iso Demo.files3 _ _
           (Concrete.day 2020 1 1) (Concrete.day 2020 1 2) (Concrete.day 2020 1 3)
           H1 H2 eq_refl H3).
Defined.

(** On the loaded series 10, 20, 30 the report is not min 10, max 30,
    mean 20, median 20. *)
Lemma summary_stats_not_of_input :
  cleaned_csv Demo.files3 = Some Demo.prices3 /\
  map snd Demo.prices3 = [of_Z 10; of_Z 20; of_Z 30] /\
  load_data Concrete.ln_series Concrete.sqrt_floor Concrete.parse_iso
            Concrete.format_iso Demo.files3
  = Returns (Demo.loaded Demo.files3, Demo.files_left Demo.files3) /\
  ~ summary_is Concrete.sqrt_floor Concrete.format_iso (Demo.loaded Demo.files3)
               10 30 20 20.
Proof.
  split; [reflexivity|]. split; [reflexivity|]. split; [vm_compute; reflexivity|].
  intros [stats [Hs [Hmin _]]]. vm_compute in Hs. injection Hs as <-.
  vm_compute in Hmin. discriminate.
Qed.

(** ** Malformed date arguments *)

Lemma Timestamp_of_unparseable parse_ts s :
  parse_ts s = Unparseable -> Timestamp_of parse_ts s = Raises ValueError.
Proof. intros H. unfold Timestamp_of. rewrite H. reflexivity. Qed.

(** The start bound of [get_price_data] when it is no tz-aware timestamp:
    absent, a tz-naive timestamp, NaT, or unparseable. *)
Lemma start_not_zoned parse_ts start_date (df : list PriceRow) :
  ~ zoned parse_ts start_date ->
  match given start_date with
  | Some s => obind (Timestamp_of parse_ts s) (fun b =>
              obind (naive_bound b) (fun t =>
              Returns (filter (fun r => ts_ge (date r) t) df)))
  | None => Returns df
  end = Raises ValueError \/
  exists df', match given start_date with
              | Some s => obind (Timestamp_of parse_ts s) (fun b =>
                          obind (naive_bound b) (fun t =>
                          Returns (filter (fun r => ts_ge (date r) t) df)))
              | None => Returns df
              end = Returns df'.
Proof.
  intros Hz. destruct (given start_date) as [s|] eqn:Hs; [|right; eexists; reflexivity].
  unfold Timestamp_of. destruct (parse_ts s) as [t| |t|] eqn:Hp; cbn [obind naive_bound].
  - right. eexists. reflexivity.
  - right. eexists. reflexivity.
  - exfalso. apply Hz. exists s, t. unfold zoned. rewrite Hs. split; [reflexivity|exact Hp].
  - left. reflexivity.
Qed.

Lemma get_price_data_malformed parse_ts self start_date end_date limit :
  malformed parse_ts start_date \/ malformed parse_ts end_date ->
  ~ zoned parse_ts start_date ->
  get_price_data parse_ts start_date end_date limit self = (Raises ValueError, self).
Proof.
  intros H Hz. rewrite get_price_data_eq. unfold date_filtered.
  destruct H as [[s [Hs Hp]]|[s [Hs Hp]]].
  - rewrite Hs, (Timestamp_of_unparseable _ _ Hp). reflexivity.
  - destruct (start_not_zoned parse_ts start_date (price_data self) Hz)
      as [E|[df' E]]; rewrite E; [reflexivity|].
    rewrite Hs, (Timestamp_of_unparseable _ _ Hp). reflexivity.
Qed.

(** A tz-aware start is refused by the comparison with the date column,
    before [end_date] is looked at. *)
Lemma get_price_data_zoned parse_ts self start_date end_date limit :
  zoned parse_ts start_date ->
  get_price_data parse_ts start_date end_date limit self = (Raises TypeError, self).
Proof.
  intros [s [t [Hs Hp]]]. rewrite get_price_data_eq. unfold date_filtered, Timestamp_of.
  rewrite Hs, Hp. reflexivity.
Qed.

Lemma get_events_malformed parse_ts self event_type start_date end_date :
  malformed parse_ts start_date \/ malformed parse_ts end_date ->
  propagates (get_events parse_ts event_type start_date end_date self) self.
Proof.
  intros H. unfold propagates, get_events, bind, gets, lift, ret, Timestamp_of.
  cbv zeta.
  destruct (given event_type) as [ty|]; [destruct (String.eqb ty "all")|];
    (destruct H as [[s [Hs Hp]]|[s [Hs Hp]]];
     [ rewrite Hs, Hp; eexists; reflexivity
     | rewrite Hs; destruct (given start_date) as [s0|];
       [ destruct (parse_ts s0); try (eexists; reflexivity);
         match goal with
         | |- context [compare_dates ?c ?d ?b ?l] => destruct (compare_dates c d b l)
         end;
         try rewrite Hp; eexists; reflexivity
       | rewrite Hp; eexists; reflexivity ] ]).
Qed.

(** C8, as the code has it. Nothing in [OilDataAPI] catches: a date
    argument that is given and cannot be parsed makes [get_price_data] and
    [get_events] raise, out of the method and with the tables untouched;
    the bound is not dropped. What leaves [get_price_data] is the
    [ValueError] of the parser, unless the start date parses to a tz-aware
    timestamp: then the comparison with the date column raises [TypeError]
    before the unparseable end date is reached. *)
Theorem malformed_date_propagates parse_ts self start_date end_date :
  malformed parse_ts start_date \/ malformed parse_ts end_date ->
  (forall limit,
     propagates (get_price_data parse_ts start_date end_date limit self) self) /\
  (forall event_type,
     propagates (get_events parse_ts event_type start_date end_date self) self) /\
  (forall limit,
     ~ zoned parse_ts start_date ->
     get_price_data parse_ts start_date end_date limit self
     = (Raises ValueError, self)) /\
  (forall limit,
     zoned parse_ts start_date ->
     get_price_data parse_ts start_date end_date limit self
     = (Raises TypeError, self)).
Proof.
  intros H.
  assert (Hv : forall limit, ~ zoned parse_ts start_date ->
            get_price_data parse_ts start_date end_date limit self
            = (Raises ValueError, self)).
  { intros limit Hz. apply get_price_data_malformed; assumption. }
  assert (Ht : forall limit, zoned parse_ts start_date ->
            get_price_data parse_ts start_date end_date limit self
            = (Raises TypeError, self)).
  { intros limit Hz. apply get_price_data_zoned; assumption. }
  split; [|split; [|split; assumption]].
  - intros limit. unfold propagates.
    destruct (given start_date) as [s|] eqn:Hs.
    + destruct (parse_ts s) as [t| |t|] eqn:Hp;
        try (exists ValueError; apply Hv; intros [s' [t' [Hs' Hp']]];
             rewrite Hs in Hs'; injection Hs' as <-; congruence).
      exists TypeError. apply Ht. exists s, t. split; assumption.
    + exists ValueError. apply Hv. intros [s' [t' [Hs' _]]].
      rewrite Hs in Hs'. discriminate.
  - intros event_type. apply get_events_malformed. assumption.
Qed.

Lemma yesterday_malformed : malformed Concrete.parse_iso (Some "yesterday"%string).
Proof. exists "yesterday"%string. split; reflexivity. Qed.

(** A start date with a zone: both calls raise [TypeError] at the
    comparison with the tz-naive date column. *)
Example zoned_start_refused :
  zoned Concrete.parse_iso (Some "2020-01-03T00:00:00Z"%string) /\
  get_price_data Concrete.parse_iso (Some "2020-01-03T00:00:00Z"%string) None 5000
                 Demo.api4
  = (Raises TypeError, Demo.api4) /\
  get_events Concrete.parse_iso (Some "all"%string)
             (Some "2020-01-03T00:00:00Z"%string) None
             (Demo.loaded Demo.files_first_run)
  = (Raises TypeError, Demo.loaded Demo.files_first_run).
Proof.
  split; [|split; vm_compute; reflexivity].
  exists "2020-01-03T00:00:00Z"%string, (Concrete.day 2020 1 3).
  split; reflexivity.
Qed.

Lemma malformed_date_propagates_witness :
  (malformed Concrete.parse_iso (Some "2020-01-03T00:00:00Z"%string) \/
   malformed Concrete.parse_iso (Some "yesterday"%string)) /\
  (forall limit,
     propagates (get_price_data Concrete.parse_iso (Some "2020-01-03T00:00:00Z"%string)
                                (Some "yesterday"%string) limit Demo.api4)
                Demo.api4) /\
  (forall event_type,
     propagates (get_events Concrete.parse_iso event_type
                            (Some "2020-01-03T00:00:00Z"%string)
                            (Some "yesterday"%string) Demo.api4) Demo.api4) /\
  (forall limit,
     ~ zoned Concrete.parse_iso (Some "2020-01-03T00:00:00Z"%string) ->
     get_price_data Concrete.parse_iso (Some "2020-01-03T00:00:00Z"%string)
                    (Some "yesterday"%string) limit Demo.api4
     = (Raises ValueError, Demo.api4)) /\
  (forall limit,
     zoned Concrete.parse_iso (Some "2020-01-03T00:00:00Z"%string) ->
     get_price_data Concrete.parse_iso (Some "2020-01-03T00:00:00Z"%string)
                    (Some "yesterday"%string) limit Demo.api4
     = (Raises TypeError, Demo.api4)).
Proof.
  split; [right; exact yesterday_malformed|].
  apply (malformed_date_propagates Concrete.parse_iso Demo.api4
           (Some "2020-01-03T00:00:00Z"%string) (Some "yesterday"%string)).
  right. exact yesterday_malformed.
Defined.

(** The facade does not turn the unparseable date into a result of its
    own: neither call returns. *)
Lemma malformed_date_not_caught :
  malformed Concrete.parse_iso (Some "yesterday"%string) /\
  ~ returns_normally
      (get_price_data Concrete.parse_iso (Some "yesterday"%string) None 5000
                      Demo.api4) /\
  ~ returns_normally
      (get_events Concrete.parse_iso (Some "all"%string) (Some "yesterday"%string)
                  None (Demo.loaded Demo.files_first_run)).
Proof.
  split; [exact yesterday_malformed|].
  split; intros [v Hv]; vm_compute in Hv; discriminate.
Qed.

(** An empty string is no bound at all. *)
Example empty_string_is_no_bound parse_ts end_date limit self :
  get_price_data parse_ts (Some EmptyString) end_date limit self
  = get_price_data parse_ts None end_date limit self.
Proof. reflexivity. Qed.

(** ** The read operations leave the object alone *)

Lemma readonly_ret {A} (a : A) : readonly (ret a).
Proof. intros self. reflexivity. Qed.

Lemma readonly_gets {A} (f : OilDataAPI -> A) : readonly (gets f).
Proof. intros self. reflexivity. Qed.

Lemma readonly_lift {A} (o : outcome A) : readonly (lift o).
Proof. intros self. reflexivity. Qed.

Lemma readonly_bind {A B} (m : M A) (k : A -> M B) :
  readonly m -> (forall a, readonly (k a)) -> readonly (bind m k).
Proof.
  intros Hm Hk self. unfold bind. specialize (Hm self).
  destruct (m self) as [[a|e] self1]; simpl in Hm; subst self1.
  - apply Hk.
  - reflexivity.
Qed.

Ltac readonly_steps :=
  repeat first
    [ apply readonly_ret | apply readonly_gets | apply readonly_lift
    | apply readonly_bind; [|intros ?]
    | match goal with
      | |- readonly (match ?x with _ => _ end) => destruct x
      end ].

Lemma get_price_data_readonly parse_ts s e limit :
  readonly (get_price_data parse_ts s e limit).
Proof. unfold get_price_data. readonly_steps. Qed.

Lemma get_events_readonly parse_ts ty s e : readonly (get_events parse_ts ty s e).
Proof. unfold get_events. readonly_steps. Qed.

Lemma get_change_points_readonly : readonly get_change_points.
Proof. unfold get_change_points. readonly_steps. Qed.

Lemma get_summary_stats_readonly sqrt strftime :
  readonly (get_summary_stats sqrt strftime).
Proof. unfold get_summary_stats. readonly_steps. Qed.

Lemma get_event_impact_readonly event_id : readonly (get_event_impact event_id).
Proof. intros self. rewrite get_event_impact_eq. reflexivity. Qed.

Lemma serve_readonly sqrt parse_ts strftime q :
  readonly (serve sqrt parse_ts strftime q).
Proof.
  destruct q; unfold serve;
    (apply readonly_bind; [|intros r; apply readonly_ret]).
  - apply get_price_data_readonly.
  - apply get_events_readonly.
  - apply get_change_points_readonly.
  - apply get_summary_stats_readonly.
  - apply get_event_impact_readonly.
Qed.

(** C9. Whatever sequence of read requests is served, and whether they
    return or raise, the price table, the events table and the change-point
    payload held by the object are afterwards what they were before. *)
Theorem serve_all_frame sqrt parse_ts strftime qs self :
  snd (serve_all sqrt parse_ts strftime qs self) = self /\
  length (fst (serve_all sqrt parse_ts strftime qs self)) = length qs.
Proof.
  revert self. induction qs as [|q rest IH]; intros self; [split; reflexivity|].
  cbn [serve_all].
  pose proof (serve_readonly sqrt parse_ts strftime q self) as Hq.
  destruct (serve sqrt parse_ts strftime q self) as [o self1]. simpl in Hq. subst self1.
  destruct (IH self) as [IH1 IH2].
  destruct (serve_all sqrt parse_ts strftime rest self) as [os self2].
  simpl in *. split; [assumption | f_equal; assumption].
Qed.

(** ** More on [get_price_data] *)

Lemma filter_andb {A} (p q : A -> bool) (l : list A) :
  filter q (filter p l) = filter (fun x => p x && q x) l.
Proof.
  induction l as [|a t IH]; simpl; [reflexivity|].
  destruct (p a); simpl; [destruct (q a); rewrite IH; reflexivity | exact IH].
Qed.

Lemma filter_true {A} (l : list A) : filter (fun _ => true) l = l.
Proof. induction l as [|a t IH]; simpl; [reflexivity | rewrite IH; reflexivity]. Qed.

(** When the date filter returns, it has kept the rows within the
    bounds. *)
Lemma date_filtered_returns parse_ts s e df F :
  date_filtered parse_ts s e df = Returns F ->
  F = filter (in_bounds parse_ts s e) df.
Proof.
  unfold date_filtered, in_bounds, lower_ok, upper_ok, Timestamp_of.
  destruct (given s) as [x|]; [destruct (parse_ts x) eqn:Ex|];
    cbn [obind naive_bound]; try discriminate;
    (destruct (given e) as [y|]; [destruct (parse_ts y) eqn:Ey|];
     cbn [obind naive_bound]; try discriminate);
    intros H; injection H as <-;
    cbn [ts_ge ts_le andb]; rewrite ?filter_andb;
    first [ symmetry; apply filter_true
          | apply filter_ext; intros r;
            rewrite ?andb_true_r, ?andb_false_r; reflexivity ].
Qed.

(** With bounds that parse to tz-naive timestamps (or NaT), the date filter
    returns. *)
Lemma date_filtered_in_bounds parse_ts s e df :
  ~ malformed parse_ts s -> ~ malformed parse_ts e ->
  ~ zoned parse_ts s -> ~ zoned parse_ts e ->
  date_filtered parse_ts s e df = Returns (filter (in_bounds parse_ts s e) df).
Proof.
  intros Hs He Zs Ze.
  destruct (date_filtered parse_ts s e df) as [F|ex] eqn:HF.
  - rewrite (date_filtered_returns _ _ _ _ _ HF). reflexivity.
  - exfalso. unfold date_filtered, malformed, zoned, Timestamp_of in *.
    destruct (given s) as [x|]; [destruct (parse_ts x) eqn:Ex|];
      try (apply Hs; eexists; split; [reflexivity | assumption]);
      try (apply Zs; eexists; eexists; split; [reflexivity | eassumption]);
      cbn [obind naive_bound] in HF;
      (destruct (given e) as [y|]; [destruct (parse_ts y) eqn:Ey|];
       try (apply He; eexists; split; [reflexivity | assumption]);
       try (apply Ze; eexists; eexists; split; [reflexivity | eassumption]));
      cbn [obind naive_bound] in HF; discriminate.
Qed.

Lemma stride_from_In {A} (k : nat) (l : list A) : forall s x,
  In x (stride_from k s l) -> In x l.
Proof.
  induction l as [|a t IH]; intros s x H; [contradiction|].
  destruct s as [|s]; simpl in H.
  - destruct H as [H|H]; [left; assumption | right; exact (IH _ _ H)].
  - right. exact (IH _ _ H).
Qed.

Lemma date_filtered_In parse_ts s e df F r :
  date_filtered parse_ts s e df = Returns F ->
  In r F -> In r df /\ in_bounds parse_ts s e r = true.
Proof.
  intros HF Hr. rewrite (date_filtered_returns _ _ _ _ _ HF) in Hr.
  apply filter_In in Hr. exact Hr.
Qed.

Lemma stride_from_length_le {A} (k : nat) (l : list A) : forall s,
  (length (stride_from k s l) <= length l)%nat.
Proof.
  induction l as [|a t IH]; intros s; [reflexivity|].
  destruct s as [|s]; simpl.
  - specialize (IH (k - 1)%nat). lia.
  - specialize (IH s). lia.
Qed.

Lemma date_filtered_length parse_ts s e df F :
  date_filtered parse_ts s e df = Returns F -> (length F <= length df)%nat.
Proof.
  intros HF. rewrite (date_filtered_returns _ _ _ _ _ HF).
  apply filter_length_le.
Qed.

(** The rows [get_price_data] returns, whatever the limit. *)
Lemma get_price_data_rows parse_ts self s e limit out self' :
  get_price_data parse_ts s e limit self = (Returns out, self') ->
  (forall r, In r out -> In r (price_data self) /\ in_bounds parse_ts s e r = true) /\
  (length out <= length (price_data self))%nat.
Proof.
  rewrite get_price_data_eq. intros H. injection H as H _.
  destruct (date_filtered parse_ts s e (price_data self)) as [F|] eqn:HF;
    [|discriminate].
  cbn [obind] in H. pose proof (date_filtered_length _ _ _ _ _ HF) as HlenF.
  assert (Hsub : (forall r, In r out -> In r F) /\ (length out <= length F)%nat).
  { destruct (limit <? Z.of_nat (length F)); [|injection H as <-; split; auto].
    unfold floordiv in H. destruct (limit =? 0); [discriminate|]. cbn [obind] in H.
    unfold iloc_step in H. destruct (_ =? 0); [discriminate|].
    destruct (0 <? _); injection H as <-.
    - split; [intros r; apply stride_from_In | apply stride_from_length_le].
    - split; [intros r Hr; apply in_rev; exact (stride_from_In _ _ _ _ Hr)|].
      etransitivity; [apply stride_from_length_le|]. rewrite length_rev. reflexivity. }
  destruct Hsub as [Hin Hlen]. split; [|lia].
  intros r Hr. apply (date_filtered_In _ _ _ _ _ r HF). apply Hin. exact Hr.
Qed.

(** X1. Whatever the limit, a row that [get_price_data] returns is a row of
    the stored table whose date passes both bounds, and the answer never has
    more rows than the table. *)
Theorem get_price_data_sound parse_ts self s e limit out self' r :
  get_price_data parse_ts s e limit self = (Returns out, self') ->
  In r out ->
  In r (price_data self) /\ in_bounds parse_ts s e r = true /\
  (length out <= length (price_data self))%nat.
Proof.
  intros H Hr. destruct (get_price_data_rows _ _ _ _ _ _ _ H) as [Hin Hlen].
  destruct (Hin r Hr) as [H1 H2]. split; [exact H1|]. split; [exact H2 | exact Hlen].
Qed.

Lemma get_price_data_sound_witness :
  exists out r,
    get_price_data Concrete.parse_iso (Some "2020-01-03"%string) None 5000 Demo.api4
    = (Returns out, Demo.api4) /\
    In r out /\
    In r (price_data Demo.api4) /\
    in_bounds Concrete.parse_iso (Some "2020-01-03"%string) None r = true /\
    (length out <= length (price_data Demo.api4))%nat.
Proof.
  assert (H : { out | get_price_data Concrete.parse_iso (Some "2020-01-03"%string)
                                     None 5000 Demo.api4
                      = (Returns out, Demo.api4) /\ exists r, In r out }).
  { vm_compute. eexists. split; [reflexivity|]. eexists. left. reflexivity. }
  destruct H as [out [H [r Hr]]]. exists out, r.
  split; [exact H|]. split; [exact Hr|].
  exact (get_price_data_sound _ _ _ _ _ _ _ r H Hr).
Defined.

(** X2. When each bound is absent or parses to a tz-naive timestamp or to
    NaT, and the limit is not below the number of rows that pass the bounds,
    [get_price_data] returns exactly those rows, in the order of the
    table. *)
Theorem get_price_data_exact parse_ts self s e limit :
  ~ malformed parse_ts s -> ~ malformed parse_ts e ->
  ~ zoned parse_ts s -> ~ zoned parse_ts e ->
  Z.of_nat (length (filter (in_bounds parse_ts s e) (price_data self))) <= limit ->
  get_price_data parse_ts s e limit self
  = (Returns (filter (in_bounds parse_ts s e) (price_data self)), self).
Proof.
  intros Hs He Zs Ze Hlen. apply get_price_data_whole; [|assumption].
  apply date_filtered_in_bounds; assumption.
Qed.

Lemma not_malformed_iso (s : string) t :
  Concrete.parse_iso s = Parsed t -> ~ malformed Concrete.parse_iso (Some s).
Proof.
  intros H [x [Hx Hp]]. destruct s; simpl in Hx; [discriminate|].
  injection Hx as <-. rewrite H in Hp. discriminate.
Qed.

Lemma not_malformed_none parse_ts : ~ malformed parse_ts None.
Proof. intros [x [Hx _]]. discriminate. Qed.

Lemma not_zoned_iso (s : string) t :
  Concrete.parse_iso s = Parsed t -> ~ zoned Concrete.parse_iso (Some s).
Proof.
  intros H [x [t' [Hx Hp]]]. destruct s; simpl in Hx; [discriminate|].
  injection Hx as <-. rewrite H in Hp. discriminate.
Qed.

Lemma not_zoned_none parse_ts : ~ zoned parse_ts None.
Proof. intros [x [t [Hx _]]]. discriminate. Qed.

Lemma get_price_data_exact_witness :
  ~ malformed Concrete.parse_iso (Some "2020-01-03"%string) /\
  ~ malformed Concrete.parse_iso None /\
  ~ zoned Concrete.parse_iso (Some "2020-01-03"%string) /\
  ~ zoned Concrete.parse_iso None /\
  Z.of_nat (length (filter (in_bounds Concrete.parse_iso (Some "2020-01-03"%string) None)
                           (price_data Demo.api4))) <= 5000 /\
  get_price_data Concrete.parse_iso (Some "2020-01-03"%string) None 5000 Demo.api4
  = (Returns (filter (in_bounds Concrete.parse_iso (Some "2020-01-03"%string) None)
                     (price_data Demo.api4)), Demo.api4).
Proof.
  assert (H1 : ~ malformed Concrete.parse_iso (Some "2020-01-03"%string))
    by (eapply not_malformed_iso; reflexivity).
  assert (H3 : Z.of_nat (length (filter (in_bounds Concrete.parse_iso
                                           (Some "2020-01-03"%string) None)
                                        (price_data Demo.api4))) <= 5000)
    by (vm_compute; discriminate).
  assert (H2 : ~ zoned Concrete.parse_iso (Some "2020-01-03"%string))
    by (eapply not_zoned_iso; reflexivity).
  split; [exact H1|]. split; [apply not_malformed_none|].
  split; [exact H2|]. split; [apply not_zoned_none|]. split; [exact H3|].
  exact (get_price_data_exact Concrete.parse_iso Demo.api4 _ None 5000 H1
           (not_malformed_none _) H2 (not_zoned_none _) H3).
Defined.

(** X3. The limit is not a cap: when the date-filtered table has more rows
    than [limit >= 1], the downsampled answer has at least [limit] rows and
    fewer than twice as many, and never more than the filtered table. *)
Theorem get_price_data_downsampled_size parse_ts self s e limit F :
  date_filtered parse_ts s e (price_data self) = Returns F ->
  1 <= limit -> limit < Z.of_nat (length F) ->
  exists out,
    get_price_data parse_ts s e limit self = (Returns out, self) /\
    limit <= Z.of_nat (length out) <= 2 * limit - 1 /\
    (length out <= length F)%nat.
Proof.
  intros HF H1 H2. eexists. split; [apply (get_price_data_downsampled _ _ _ _ _ F);
                                    assumption|].
  pose proof (downsample_step _ _ H1 H2) as Hk.
  set (N := Z.of_nat (length F)) in *. set (k := N / limit) in *.
  assert (Hlen : Z.of_nat (length (stride_from (Z.to_nat k) 0 F)) = (N - 1) / k + 1).
  { rewrite stride_from_length by lia.
    rewrite <- range_len_ceil by lia. rewrite Z2Nat.id by lia.
    unfold range_len. fold N. destruct (Z.ltb_spec 0 N); [|lia].
    rewrite Z.sub_0_r. reflexivity. }
  assert (Hlo : k * limit <= N) by (unfold k; rewrite Z.mul_comm; apply Z.mul_div_le; lia).
  assert (Hhi : N < (k + 1) * limit).
  { unfold k. pose proof (Z.mod_pos_bound N limit ltac:(lia)).
    pose proof (Z.div_mod N limit ltac:(lia)). nia. }
  assert (B1 : limit - 1 <= (N - 1) / k) by (apply Z.div_le_lower_bound; nia).
  assert (B2 : (N - 1) / k < 2 * limit - 1) by (apply Z.div_lt_upper_bound; nia).
  assert (B3 : (N - 1) / k <= N - 1) by (apply Z.div_le_upper_bound; nia).
  split; [lia|]. apply Nat2Z.inj_le. rewrite Hlen. fold N. lia.
Qed.

Lemma get_price_data_downsampled_size_witness :
  date_filtered Concrete.parse_iso None None (price_data Demo.api4)
  = Returns (price_data Demo.api4) /\
  1 <= 2 /\ 2 < Z.of_nat (length (price_data Demo.api4)) /\
  exists out,
    get_price_data Concrete.parse_iso None None 2 Demo.api4 = (Returns out, Demo.api4) /\
    2 <= Z.of_nat (length out) <= 2 * 2 - 1 /\
    (length out <= length (price_data Demo.api4))%nat.
Proof.
  assert (H : 2 < Z.of_nat (length (price_data Demo.api4))) by (vm_compute; reflexivity).
  split; [reflexivity|]. split; [lia|]. split; [exact H|].
  exact (get_price_data_downsampled_size Concrete.parse_iso Demo.api4 None None 2
           (price_data Demo.api4) eq_refl ltac:(lia) H).
Defined.

(** X4. A limit that is not positive: zero raises [ZeroDivisionError] as
    soon as a row passes the date filter; a negative limit raises
    [ValueError] (a zero slice step) when no row passes, and otherwise
    answers backwards, starting with the latest row that passes. *)
Theorem get_price_data_nonpositive_limit parse_ts self s e limit F :
  date_filtered parse_ts s e (price_data self) = Returns F ->
  limit <= 0 ->
  (limit = 0 -> F <> [] ->
   get_price_data parse_ts s e limit self = (Raises ZeroDivisionError, self)) /\
  (limit = 0 -> F = [] ->
   get_price_data parse_ts s e limit self = (Returns [], self)) /\
  (limit < 0 -> F = [] ->
   get_price_data parse_ts s e limit self = (Raises ValueError, self)) /\
  (limit < 0 -> F <> [] ->
   exists out,
     get_price_data parse_ts s e limit self = (Returns out, self) /\
     hd_error out = hd_error (rev F)).
Proof.
  intros HF Hlim. rewrite get_price_data_eq, HF. cbn [obind].
  repeat split.
  - intros -> Hne. destruct F as [|x t]; [contradiction|]. reflexivity.
  - intros -> ->. reflexivity.
  - intros Hneg ->. simpl length. change (Z.of_nat 0) with 0.
    destruct (Z.ltb_spec limit 0); [|lia].
    unfold floordiv. destruct (Z.eqb_spec limit 0); [lia|]. reflexivity.
  - intros Hneg Hne.
    assert (HN : 0 < Z.of_nat (length F)) by (destruct F; [contradiction | simpl; lia]).
    destruct (Z.ltb_spec limit (Z.of_nat (length F))); [|lia].
    unfold floordiv. destruct (Z.eqb_spec limit 0); [lia|]. cbn [obind].
    assert (Hstep : Z.of_nat (length F) / limit < 0).
    { pose proof (Z.div_mod (Z.of_nat (length F)) limit ltac:(lia)).
      pose proof (Z.mod_neg_bound (Z.of_nat (length F)) limit ltac:(lia)). nia. }
    unfold iloc_step.
    destruct (Z.eqb_spec (Z.of_nat (length F) / limit) 0); [lia|].
    destruct (Z.ltb_spec 0 (Z.of_nat (length F) / limit)); [lia|].
    eexists. split; [reflexivity|].
    destruct (rev F) as [|y t]; reflexivity.
Qed.

Lemma get_price_data_nonpositive_limit_witness :
  date_filtered Concrete.parse_iso None None (price_data Demo.api4)
  = Returns (price_data Demo.api4) /\
  -2 <= 0 /\
  (-2 < 0 -> price_data Demo.api4 <> [] ->
   exists out,
     get_price_data Concrete.parse_iso None None (-2) Demo.api4
     = (Returns out, Demo.api4) /\
     hd_error out = hd_error (rev (price_data Demo.api4))).
Proof.
  split; [reflexivity|]. split; [lia|].
  apply (get_price_data_nonpositive_limit Concrete.parse_iso Demo.api4 None None (-2)
           (price_data Demo.api4) eq_refl ltac:(lia)).
Defined.

(** ** More on [get_events] *)

Lemma type_filter_eq event_type events :
  match given event_type with
  | Some ty =>
      if String.eqb ty "all" then events
      else filter (fun e => String.eqb (ev_type e) ty) events
  | None => events
  end = type_selected event_type events.
Proof.
  unfold type_selected, type_ok. destruct (given event_type) as [ty|].
  - destruct (String.eqb ty "all"); cbn [orb]; [symmetry; apply filter_true | reflexivity].
  - symmetry. apply filter_true.
Qed.

(** [get_events], step by step: the type filter, then the two date
    filters. *)
Lemma get_events_eq parse_ts ty s e self :
  get_events parse_ts ty s e self =
  (obind (match given s with
          | Some x => obind (Timestamp_of parse_ts x) (fun b =>
                      compare_dates cell_ge (is_datetime64 (events_data self)) b
                                    (type_selected ty (events_data self)))
          | None => Returns (type_selected ty (events_data self))
          end) (fun df =>
   match given e with
   | Some y => obind (Timestamp_of parse_ts y) (fun b =>
               compare_dates cell_le (is_datetime64 (events_data self)) b df)
   | None => Returns df
   end), self).
Proof.
  rewrite <- type_filter_eq.
  unfold get_events, bind, gets, lift, ret. cbv zeta.
  destruct (given ty) as [t0|]; [destruct (String.eqb t0 "all")|];
    (destruct (given s) as [x|];
     [ destruct (Timestamp_of parse_ts x) as [t|]; cbn [obind]; [|reflexivity];
       match goal with
       | |- context [compare_dates ?c ?d ?b ?l] =>
           destruct (compare_dates c d b l); cbn [obind]
       end; [|reflexivity]
     | cbn [obind] ];
     (destruct (given e) as [y|];
      [ destruct (Timestamp_of parse_ts y) as [t'|]; cbn [obind]; [|reflexivity];
        match goal with
        | |- context [compare_dates ?c ?d ?b ?l] =>
            destruct (compare_dates c d b l); reflexivity
        end
      | reflexivity ])).
Qed.

Lemma filter_o_converted (p : EventRow -> outcome bool) (q : EventRow -> bool)
    (events : list EventRow) :
  (forall ev, In ev events -> p ev = Returns (q ev)) ->
  filter_o p events = Returns (filter q events).
Proof.
  induction events as [|ev t IH]; intros H; [reflexivity|].
  cbn [filter_o filter]. rewrite (H ev (or_introl eq_refl)). cbn [obind].
  rewrite IH by (intros ev' Hin; apply H; right; assumption). reflexivity.
Qed.

Lemma dates_converted_filter p events :
  dates_converted events -> dates_converted (filter p events).
Proof.
  unfold dates_converted. rewrite !Forall_forall. intros H ev Hin.
  apply filter_In in Hin as [Hin _]. exact (H ev Hin).
Qed.

Lemma start_filter_converted parse_ts dt s df :
  dates_converted df -> ~ malformed parse_ts s -> ~ zoned parse_ts s ->
  match given s with
  | Some x => obind (Timestamp_of parse_ts x) (fun b =>
              compare_dates cell_ge dt b df)
  | None => Returns df
  end = Returns (filter (fun ev => cell_lower_ok parse_ts s (ev_date ev)) df).
Proof.
  intros Hconv Hs Hz.
  unfold malformed, zoned, Timestamp_of, cell_lower_ok, lower_ok, no_bound in *.
  destruct (given s) as [x|].
  - destruct (parse_ts x) eqn:Ex;
      try (exfalso; apply Hs; eexists; split; [reflexivity | assumption]);
      try (exfalso; apply Hz; eexists; eexists; split; [reflexivity | eassumption]);
      cbn [obind compare_dates]; apply filter_o_converted; intros ev Hin;
      pose proof (proj1 (Forall_forall _ _) Hconv ev Hin) as Hev; cbv beta in Hev;
      destruct (ev_date ev) as [d| |str]; try reflexivity;
      exfalso; exact (Hev str eq_refl).
  - f_equal. symmetry. apply forallb_filter_id, forallb_forall. intros ev Hin.
    pose proof (proj1 (Forall_forall _ _) Hconv ev Hin) as Hev. cbv beta in Hev.
    destruct (ev_date ev) as [d| |str]; try reflexivity.
    exfalso; exact (Hev str eq_refl).
Qed.

Lemma end_filter_converted parse_ts dt e df :
  dates_converted df -> ~ malformed parse_ts e -> ~ zoned parse_ts e ->
  match given e with
  | Some y => obind (Timestamp_of parse_ts y) (fun b =>
              compare_dates cell_le dt b df)
  | None => Returns df
  end = Returns (filter (fun ev => cell_upper_ok parse_ts e (ev_date ev)) df).
Proof.
  intros Hconv He Hz.
  unfold malformed, zoned, Timestamp_of, cell_upper_ok, upper_ok, no_bound in *.
  destruct (given e) as [y|].
  - destruct (parse_ts y) eqn:Ey;
      try (exfalso; apply He; eexists; split; [reflexivity | assumption]);
      try (exfalso; apply Hz; eexists; eexists; split; [reflexivity | eassumption]);
      cbn [obind compare_dates]; apply filter_o_converted; intros ev Hin;
      pose proof (proj1 (Forall_forall _ _) Hconv ev Hin) as Hev; cbv beta in Hev;
      destruct (ev_date ev) as [d| |str]; try reflexivity;
      exfalso; exact (Hev str eq_refl).
  - f_equal. symmetry. apply forallb_filter_id, forallb_forall. intros ev Hin.
    pose proof (proj1 (Forall_forall _ _) Hconv ev Hin) as Hev. cbv beta in Hev.
    destruct (ev_date ev) as [d| |str]; try reflexivity.
    exfalso; exact (Hev str eq_refl).
Qed.

(** X5. On an events table whose dates are converted, with bounds that are
    absent or parse to a tz-naive timestamp or to NaT, [get_events] returns
    the events that pass the type filter and both inclusive date bounds, in
    the order of the table; an event without a date is returned only when no
    bound is given. *)
Theorem get_events_converted parse_ts self ty s e :
  dates_converted (events_data self) ->
  ~ malformed parse_ts s -> ~ malformed parse_ts e ->
  ~ zoned parse_ts s -> ~ zoned parse_ts e ->
  get_events parse_ts ty s e self
  = (Returns (filter (fun ev => type_ok ty ev && event_in_bounds parse_ts s e ev)
                     (events_data self)), self).
Proof.
  intros Hconv Hs He Zs Ze. rewrite get_events_eq. f_equal.
  pose proof (dates_converted_filter (type_ok ty) _ Hconv) as Hsel.
  fold (type_selected ty (events_data self)) in Hsel.
  rewrite (start_filter_converted _ _ _ _ Hsel Hs Zs). cbn [obind].
  rewrite (end_filter_converted _ _ _ _ (dates_converted_filter _ _ Hsel) He Ze).
  unfold type_selected. rewrite !filter_andb.
  apply (f_equal Returns). apply filter_ext. intros ev. unfold event_in_bounds.
  rewrite andb_assoc. reflexivity.
Qed.

Lemma get_events_converted_witness :
  dates_converted (events_data (Demo.loaded Demo.files_first_run)) /\
  ~ malformed Concrete.parse_iso (Some "2000-01-01"%string) /\
  ~ malformed Concrete.parse_iso None /\
  ~ zoned Concrete.parse_iso (Some "2000-01-01"%string) /\
  ~ zoned Concrete.parse_iso None /\
  get_events Concrete.parse_iso (Some "Policy"%string) (Some "2000-01-01"%string) None
             (Demo.loaded Demo.files_first_run)
  = (Returns (filter (fun ev => type_ok (Some "Policy"%string) ev
                                && event_in_bounds Concrete.parse_iso
                                     (Some "2000-01-01"%string) None ev)
                     (events_data (Demo.loaded Demo.files_first_run))),
     Demo.loaded Demo.files_first_run).
Proof.
  assert (H1 : ~ malformed Concrete.parse_iso (Some "2000-01-01"%string))
    by (eapply not_malformed_iso; reflexivity).
  assert (H2 : ~ zoned Concrete.parse_iso (Some "2000-01-01"%string))
    by (eapply not_zoned_iso; reflexivity).
  split; [exact first_run_dates_converted|]. split; [exact H1|].
  split; [apply not_malformed_none|]. split; [exact H2|].
  split; [apply not_zoned_none|].
  exact (get_events_converted Concrete.parse_iso _ (Some "Policy"%string) _ None
           first_run_dates_converted H1 (not_malformed_none _) H2 (not_zoned_none _)).
Defined.

(** X6. Without date bounds [get_events] never raises, however the dates
    are stored: it returns the events that pass the type filter, in the
    order of the table, and the whole table when the type is absent, empty
    or ['all']. *)
Theorem get_events_type_only parse_ts self ty s e :
  given s = None -> given e = None ->
  get_events parse_ts ty s e self
  = (Returns (filter (type_ok ty) (events_data self)), self) /\
  (given ty = None \/ given ty = Some "all"%string ->
   get_events parse_ts ty s e self = (Returns (events_data self), self)).
Proof.
  intros Hs He. rewrite get_events_eq, Hs, He. cbn [obind]. split; [reflexivity|].
  intros Hty. f_equal. f_equal. unfold type_selected, type_ok.
  destruct Hty as [-> | ->]; apply filter_true.
Qed.

Lemma get_events_type_only_witness :
  given (Some EmptyString) = None /\ given None = None /\
  get_events Concrete.parse_iso (Some "Policy"%string) (Some EmptyString) None
             (Demo.loaded Demo.files_after_setup)
  = (Returns (filter (type_ok (Some "Policy"%string))
                     (events_data (Demo.loaded Demo.files_after_setup))),
     Demo.loaded Demo.files_after_setup) /\
  (given (Some "Policy"%string) = None \/
   given (Some "Policy"%string) = Some "all"%string ->
   get_events Concrete.parse_iso (Some "Policy"%string) (Some EmptyString) None
              (Demo.loaded Demo.files_after_setup)
   = (Returns (events_data (Demo.loaded Demo.files_after_setup)),
      Demo.loaded Demo.files_after_setup)).
Proof.
  split; [reflexivity|]. split; [reflexivity|].
  exact (get_events_type_only Concrete.parse_iso (Demo.loaded Demo.files_after_setup)
           (Some "Policy"%string) (Some EmptyString) None eq_refl eq_refl).
Defined.

Lemma filter_o_as_read (f : DateCell -> outcome bool) (df : list EventRow) :
  dates_as_read df -> df <> [] ->
  (forall str, f (DStr str) = Raises TypeError) ->
  filter_o (fun ev => f (ev_date ev)) df = Raises TypeError.
Proof.
  intros Hread Hne Hf. destruct df as [|ev t]; [contradiction|].
  inversion Hread as [|? ? [str Hstr] _]; subst.
  cbn [filter_o]. rewrite Hstr, Hf. reflexivity.
Qed.

Lemma dates_as_read_filter p events :
  dates_as_read events -> dates_as_read (filter p events).
Proof.
  unfold dates_as_read. rewrite !Forall_forall. intros H ev Hin.
  apply filter_In in Hin as [Hin _]. exact (H ev Hin).
Qed.

(** A column of strings is no [datetime64] column. *)
Lemma as_read_object_dtype events :
  dates_as_read events -> is_datetime64 events = false.
Proof.
  induction 1 as [|ev t [str Hstr] _ IH]; [reflexivity|].
  cbn [is_datetime64 existsb]. rewrite Hstr. exact IH.
Qed.

(** Against NaT no row passes, and nothing raises. *)
Lemma filter_o_nat (cmp : DateCell -> scalar -> outcome bool) (df : list EventRow) :
  (forall c, cmp c NaT = Returns false) ->
  filter_o (fun ev => cmp (ev_date ev) NaT) df = Returns [].
Proof.
  intros H. induction df as [|ev t IH]; [reflexivity|].
  cbn [filter_o]. rewrite H, IH. reflexivity.
Qed.

(** One date filter of [get_events] on a column of strings. *)
Lemma bound_as_read parse_ts (cmp : DateCell -> scalar -> outcome bool) x df :
  (forall c, cmp c NaT = Returns false) ->
  (forall str t, cmp (DStr str) (Naive t) = Raises TypeError) ->
  (forall str t, cmp (DStr str) (Aware t) = Raises TypeError) ->
  dates_as_read df -> parse_ts x <> Unparseable ->
  obind (Timestamp_of parse_ts x) (fun b => compare_dates cmp false b df)
  = if match df with [] => true | _ => false end then Returns []
    else match parse_ts x with
         | ParsedNaT => Returns []
         | _ => Raises TypeError
         end.
Proof.
  intros Hnat Hnaive Haware Hread Hp. unfold Timestamp_of.
  destruct df as [|ev t].
  - destruct (parse_ts x); try contradiction; reflexivity.
  - assert (Hne : ev :: t <> []) by discriminate.
    destruct (parse_ts x) as [t0| |t0|]; try contradiction; cbn [obind compare_dates].
    + apply (filter_o_as_read (fun c => cmp c (Naive t0))); auto.
    + apply filter_o_nat. exact Hnat.
    + apply (filter_o_as_read (fun c => cmp c (Aware t0))); auto.
Qed.

Lemma cell_ge_nat c : cell_ge c NaT = Returns false.
Proof. destruct c; reflexivity. Qed.

Lemma cell_le_nat c : cell_le c NaT = Returns false.
Proof. destruct c; reflexivity. Qed.

(** X7. On an events table whose dates are still the strings of the file,
    a date bound that parses to a timestamp cannot be applied: what decides
    is the first bound given (the start date, or the end date when there is
    no start date). When it parses to a timestamp, tz-naive or tz-aware, and
    an event passes the type filter, [get_events] raises [TypeError]; when it
    parses to NaT, or when no event passes the type filter, [get_events]
    returns the empty list. *)
Theorem get_events_as_read parse_ts self ty s e :
  dates_as_read (events_data self) ->
  ~ malformed parse_ts s -> ~ malformed parse_ts e ->
  no_bound s = false \/ no_bound e = false ->
  (filter (type_ok ty) (events_data self) <> [] ->
   ~ not_a_time parse_ts (first_bound s e) ->
   get_events parse_ts ty s e self = (Raises TypeError, self)) /\
  (filter (type_ok ty) (events_data self) = [] \/
   not_a_time parse_ts (first_bound s e) ->
   get_events parse_ts ty s e self = (Returns [], self)).
Proof.
  intros Hread Hs He Hbound. rewrite get_events_eq. unfold type_selected.
  rewrite (as_read_object_dtype _ Hread).
  pose proof (dates_as_read_filter (type_ok ty) _ Hread) as Hsel.
  set (df := filter (type_ok ty) (events_data self)) in *.
  assert (Hnil : dates_as_read (@nil EventRow)) by constructor.
  unfold first_bound, not_a_time, malformed, no_bound in *.
  destruct (given s) as [x|] eqn:Gs.
  - assert (Hx : parse_ts x <> Unparseable)
      by (intros E; apply Hs; exists x; split; [reflexivity | exact E]).
    rewrite (bound_as_read parse_ts cell_ge x df cell_ge_nat) by auto.
    assert (Hend : forall r : outcome (list EventRow),
              r = Returns [] ->
              obind r (fun df0 =>
                match given e with
                | Some y => obind (Timestamp_of parse_ts y) (fun b =>
                            compare_dates cell_le false b df0)
                | None => Returns df0
                end) = Returns []).
    { intros r ->. cbn [obind]. destruct (given e) as [y|]; [|reflexivity].
      assert (Hy : parse_ts y <> Unparseable)
        by (intros E; apply He; exists y; split; [reflexivity | exact E]).
      rewrite (bound_as_read parse_ts cell_le y [] cell_le_nat) by auto.
      reflexivity. }
    split.
    + intros Hne Hnat. destruct df as [|ev t]; [contradiction|].
      destruct (parse_ts x) eqn:Ex; try reflexivity.
      exfalso. apply Hnat. exists x. split; [first [exact Gs | reflexivity] | exact Ex].
    + intros [Hempty | [x' [Hx' Hp]]].
      * rewrite Hempty. rewrite Hend by reflexivity. reflexivity.
      * try rewrite Gs in Hx'. injection Hx' as <-. rewrite Hp.
        rewrite Hend by (destruct df; reflexivity). reflexivity.
  - destruct Hbound as [Hb|Hb]; [discriminate|]. cbn [obind].
    destruct (given e) as [y|] eqn:Ge; [|discriminate].
    assert (Hy : parse_ts y <> Unparseable)
      by (intros E; apply He; exists y; split; [reflexivity | exact E]).
    rewrite (bound_as_read parse_ts cell_le y df cell_le_nat) by auto.
    split.
    + intros Hne Hnat. destruct df as [|ev t]; [contradiction|].
      destruct (parse_ts y) eqn:Ey; try reflexivity.
      exfalso. apply Hnat. exists y. split; [first [exact Ge | reflexivity] | exact Ey].
    + intros [Hempty | [y' [Hy' Hp]]].
      * rewrite Hempty. reflexivity.
      * try rewrite Ge in Hy'. injection Hy' as <-. rewrite Hp. destruct df; reflexivity.
Qed.

Lemma as_read_after_setup :
  dates_as_read (events_data (Demo.loaded Demo.files_after_setup)).
Proof.
  vm_compute. repeat (apply Forall_cons; [eexists; reflexivity|]). apply Forall_nil.
Qed.

Lemma get_events_as_read_witness :
  dates_as_read (events_data (Demo.loaded Demo.files_after_setup)) /\
  ~ malformed Concrete.parse_iso (Some "2000-01-01"%string) /\
  ~ malformed Concrete.parse_iso (Some "NaT"%string) /\
  (no_bound (Some "2000-01-01"%string) = false \/
   no_bound (Some "NaT"%string) = false) /\
  get_events Concrete.parse_iso (Some "Policy"%string) (Some "2000-01-01"%string)
             (Some "NaT"%string) (Demo.loaded Demo.files_after_setup)
  = (Raises TypeError, Demo.loaded Demo.files_after_setup) /\
  get_events Concrete.parse_iso (Some "Policy"%string) (Some "NaT"%string)
             (Some "2000-01-01"%string) (Demo.loaded Demo.files_after_setup)
  = (Returns [], Demo.loaded Demo.files_after_setup).
Proof.
  assert (H1 : ~ malformed Concrete.parse_iso (Some "2000-01-01"%string))
    by (eapply not_malformed_iso; reflexivity).
  assert (H2 : ~ malformed Concrete.parse_iso (Some "NaT"%string)).
  { intros [x [Hx Hp]]. injection Hx as <-. vm_compute in Hp. discriminate. }
  split; [exact as_read_after_setup|]. split; [exact H1|].
  split; [exact H2|]. split; [left; reflexivity|]. split.
  - apply (get_events_as_read Concrete.parse_iso _ (Some "Policy"%string)
             (Some "2000-01-01"%string) (Some "NaT"%string)
             as_read_after_setup H1 H2 (or_introl eq_refl)).
    + vm_compute. discriminate.
    + intros [x [Hx Hp]]. injection Hx as <-. vm_compute in Hp. discriminate.
  - apply (get_events_as_read Concrete.parse_iso _ (Some "Policy"%string)
             (Some "NaT"%string) (Some "2000-01-01"%string)
             as_read_after_setup H2 H1 (or_introl eq_refl)).
    right. exists "NaT"%string. split; reflexivity.
Defined.

(** ** Event types *)

Lemma unique_In (l : list string) x : In x (unique l) <-> In x l.
Proof.
  induction l as [|a t IH]; [reflexivity|].
  cbn [unique]. split.
  - intros [H|H]; [left; assumption|].
    apply filter_In in H as [H _]. right. apply IH. assumption.
  - intros [H|H]; [left; assumption|].
    destruct (String.eqb_spec x a) as [E|E]; [left; symmetry; assumption|].
    right. apply filter_In. split; [apply IH; assumption|].
    apply negb_true_iff. apply String.eqb_neq. assumption.
Qed.

Lemma unique_NoDup (l : list string) : NoDup (unique l).
Proof.
  induction l as [|a t IH]; [constructor|].
  cbn [unique]. constructor.
  - intros H. apply filter_In in H as [_ H].
    rewrite String.eqb_refl in H. discriminate.
  - apply NoDup_filter. assumption.
Qed.

(** X8. The event-types route lists every type of the events table exactly
    once; and asking [get_events] for a listed type, without date bounds,
    returns a non-empty list, the events of exactly that type -- unless the
    type is the empty string or ['all'], which select the whole table. *)
Theorem event_types_select parse_ts self :
  exists types,
    route_event_types self = (Returns (Success None (PTypes types)), self) /\
    NoDup types /\
    (forall ty, In ty types <-> exists ev, In ev (events_data self) /\ ev_type ev = ty) /\
    (forall ty, In ty types -> ty <> EmptyString -> ty <> "all"%string ->
       exists rows,
         get_events parse_ts (Some ty) None None self = (Returns rows, self) /\
         rows <> [] /\
         forall ev, In ev rows <-> In ev (events_data self) /\ ev_type ev = ty) /\
    (forall ty, ty = EmptyString \/ ty = "all"%string ->
       get_events parse_ts (Some ty) None None self
       = (Returns (events_data self), self)).
Proof.
  exists (unique (map ev_type (events_data self))).
  split; [reflexivity|]. split; [apply unique_NoDup|].
  assert (Hin : forall ty, In ty (unique (map ev_type (events_data self)))
                           <-> exists ev, In ev (events_data self) /\ ev_type ev = ty).
  { intros ty. rewrite unique_In, in_map_iff. split; intros [ev [H1 H2]];
      exists ev; split; assumption. }
  split; [exact Hin|]. split.
  - intros ty Hty Hne Hall. rewrite get_events_eq. cbn [given obind].
    assert (Hg : given (Some ty) = Some ty) by (destruct ty; [contradiction | reflexivity]).
    assert (Hok : forall ev, type_ok (Some ty) ev = String.eqb (ev_type ev) ty).
    { intros ev. unfold type_ok. rewrite Hg.
      destruct (String.eqb_spec ty "all"); [contradiction | reflexivity]. }
    eexists. split; [reflexivity|].
    assert (Hrows : forall ev, In ev (type_selected (Some ty) (events_data self))
                               <-> In ev (events_data self) /\ ev_type ev = ty).
    { intros ev. unfold type_selected. rewrite filter_In, Hok.
      split; intros [H1 H2]; (split; [assumption|]);
        [apply String.eqb_eq | apply String.eqb_eq]; assumption. }
    split; [|exact Hrows].
    apply Hin in Hty as [ev Hev]. apply Hrows in Hev.
    intros E. rewrite E in Hev. contradiction.
  - intros ty Hty. rewrite get_events_eq. cbn [given obind]. f_equal. f_equal.
    unfold type_selected, type_ok. destruct Hty as [-> | ->]; apply filter_true.
Qed.

(** ** The event-impact route *)

Ltac status_iff :=
  split; intro;
  [ first [ discriminate | eauto 6 ]
  | first [ reflexivity
          | exfalso;
            repeat match goal with
                   | H : exists _, _ |- _ => destruct H
                   | H : _ /\ _ |- _ => destruct H
                   | H : _ \/ _ |- _ => destruct H
                   | H : Some _ = Some _ |- _ => injection H as H; subst
                   end;
            congruence ] ].

(** X9. The event-impact route never lets an exception out. It answers
    200 exactly when the id is an integer for which [get_event_impact]
    returns an impact, 404 exactly when it returns [None], and 400 exactly
    when [int(event_id)] or [get_event_impact] raises. *)
Theorem route_event_impact_status py_int event_id self :
  exists r,
    route_event_impact py_int event_id self = (Returns r, self) /\
    (status_of r = 200 <->
     exists id impact,
       py_int event_id = Some id /\
       get_event_impact id self = (Returns (Some impact), self)) /\
    (status_of r = 404 <->
     exists id,
       py_int event_id = Some id /\ get_event_impact id self = (Returns None, self)) /\
    (status_of r = 400 <->
     py_int event_id = None \/
     exists id e,
       py_int event_id = Some id /\ get_event_impact id self = (Raises e, self)).
Proof.
  unfold route_event_impact, try_except, bind, lift, ret, int_of.
  destruct (py_int event_id) as [id|] eqn:Eint.
  - pose proof (get_event_impact_readonly id self) as Hro.
    destruct (get_event_impact id self) as [[[imp|]|e] self1] eqn:Eimp;
      simpl in Hro; subst self1; eexists; (split; [reflexivity|]); cbn [status_of];
      (split; [|split]); status_iff.
  - eexists. split; [reflexivity|]. cbn [status_of].
    (split; [|split]); status_iff.
Qed.

(** X10. Once the events come from [events.csv] the event-impact route
    never answers 200: it answers 404 when the id is an integer that no
    event carries, and 400 for every other id. *)
Theorem route_event_impact_csv ln sqrt parse_ts csv_date py_int
    files self files' rows event_id :
  events_csv files = Some rows ->
  load_data ln sqrt parse_ts csv_date files = Returns (self, files') ->
  exists r,
    route_event_impact py_int event_id self = (Returns r, self) /\
    status_of r <> 200 /\
    (status_of r = 404 <->
     exists id, py_int event_id = Some id /\ find_event (events_data self) id = None) /\
    (status_of r = 400 <->
     py_int event_id = None \/
     exists id, py_int event_id = Some id /\ find_event (events_data self) id <> None).
Proof.
  intros Hcsv Hload.
  unfold route_event_impact, try_except, bind, lift, ret, int_of.
  destruct (py_int event_id) as [id|] eqn:Eint.
  - destruct (find_event (events_data self) id) as [ev|] eqn:Efind.
    + rewrite (get_event_impact_csv_raises _ _ _ _ _ _ _ _ id Hcsv Hload)
        by (rewrite Efind; discriminate).
      eexists. split; [reflexivity|]. cbn [status_of]. split; [discriminate|].
      split; [status_iff|]. split; intro; [|reflexivity].
      right. exists id. split; [reflexivity|]. rewrite Efind. discriminate.
    + rewrite get_event_impact_eq, Efind.
      eexists. split; [reflexivity|]. cbn [status_of]. split; [discriminate|].
      split; [status_iff|]. split; intro H; [discriminate|].
      exfalso. destruct H as [H|[id' [H1 H2]]]; [discriminate|].
      injection H1 as <-. contradiction.
  - eexists. split; [reflexivity|]. cbn [status_of]. split; [discriminate|].
    split; status_iff.
Qed.

Lemma route_event_impact_csv_witness :
  events_csv Demo.files_after_setup = Some seed_events /\
  load_data Concrete.ln_series Concrete.sqrt_floor Concrete.parse_iso
            Concrete.format_iso Demo.files_after_setup
  = Returns (Demo.loaded Demo.files_after_setup, Demo.files_after_setup) /\
  exists r,
    route_event_impact Concrete.int_decimal "8" (Demo.loaded Demo.files_after_setup)
    = (Returns r, Demo.loaded Demo.files_after_setup) /\
    status_of r <> 200 /\
    (status_of r = 404 <->
     exists id, Concrete.int_decimal "8" = Some id /\
                find_event (events_data (Demo.loaded Demo.files_after_setup)) id = None) /\
    (status_of r = 400 <->
     Concrete.int_decimal "8" = None \/
     exists id, Concrete.int_decimal "8" = Some id /\
                find_event (events_data (Demo.loaded Demo.files_after_setup)) id <> None).
Proof.
  assert (H : load_data Concrete.ln_series Concrete.sqrt_floor Concrete.parse_iso
                        Concrete.format_iso Demo.files_after_setup
              = Returns (Demo.loaded Demo.files_after_setup, Demo.files_after_setup))
    by (vm_compute; reflexivity).
  split; [reflexivity|]. split; [exact H|].
  exact (route_event_impact_csv _ _ _ _ Concrete.int_decimal Demo.files_after_setup _ _
           seed_events "8"%string eq_refl H).
Defined.

Example route_event_impact_after_setup :
  route_event_impact Concrete.int_decimal "8" (Demo.loaded Demo.files_after_setup)
  = (Returns (Failure 400 (ExceptionText TypeError)), Demo.loaded Demo.files_after_setup)
  /\
  route_event_impact Concrete.int_decimal "9999" (Demo.loaded Demo.files_after_setup)
  = (Returns (Failure 404 EventNotFound), Demo.loaded Demo.files_after_setup)
  /\
  route_event_impact Concrete.int_decimal "eight" (Demo.loaded Demo.files_after_setup)
  = (Returns (Failure 400 (ExceptionText ValueError)), Demo.loaded Demo.files_after_setup).
Proof. vm_compute. repeat split. Qed.

(** ** More on [calculate_metrics] *)

Section MetricsInvariants.

Variable ln : Q -> Q.
Variable sqrt : Q -> Q.

Lemma insert_by_date_In r l x : In x (insert_by_date r l) <-> x = r \/ In x l.
Proof.
  induction l as [|y t IH]; simpl.
  - split; intros [H|H]; auto.
  - destruct (fst r <=? fst y); simpl; [split; intros [H|H]; auto|].
    rewrite IH. split; intros H; tauto.
Qed.

Lemma sort_values_date_In raw x : In x (sort_values_date raw) <-> In x raw.
Proof.
  induction raw as [|r t IH]; [reflexivity|].
  cbn [sort_values_date fold_right]. fold (sort_values_date t).
  rewrite insert_by_date_In, IH. simpl. split; intros [H|H]; auto.
Qed.

Lemma np_log_nonneg a : notna (np_log ln a) = true -> nonneg_price a.
Proof.
  destruct a as [| | |q]; simpl; try discriminate; [trivial|].
  destruct (Qcompare_spec q 0) as [E|Hlt|Hgt]; try discriminate; intros _.
  - rewrite E. apply Qle_refl.
  - apply Qlt_le_weak. assumption.
Qed.

Lemma diff_head_nan l : l <> [] -> nth 0 (diff l) NaN = NaN.
Proof. destruct l as [|x t]; [contradiction|]. intros _. simpl. apply fsub_nan. Qed.

(** The first row of the sorted table never survives. *)
Lemma calculate_metrics_drops_head raw :
  calculate_metrics ln sqrt raw
  = filter (fun r => notna (log_return r)) (tl (augmented ln sqrt raw)).
Proof.
  rewrite calculate_metrics_eq. unfold augmented, assemble. cbv zeta.
  rewrite length_map.
  set (f := fun i => mkPriceRow _ _ _ _ _ _).
  destruct (sort_values_date raw) as [|x t] eqn:E; [reflexivity|].
  cbn [length]. change (seq 0 (S (length t))) with (0%nat :: seq 1 (length t)).
  change (map f (0%nat :: seq 1 (length t))) with (f 0%nat :: map f (seq 1 (length t))).
  cbn [tl filter].
  replace (notna (log_return (f 0%nat))) with false; [reflexivity|].
  subst f. cbn [log_return]. rewrite diff_head_nan by discriminate. reflexivity.
Qed.

(** X11. Whatever the prices, [calculate_metrics] drops the first row of
    the sorted table, so it returns fewer rows than it is given (none for
    fewer than two). Every row it keeps is a (date, price) pair of the
    input with a [log_return] that is not NaN and a price that is not NaN
    and not negative. *)
Theorem calculate_metrics_keeps raw :
  (length (calculate_metrics ln sqrt raw) <= length raw - 1)%nat /\
  forall r, In r (calculate_metrics ln sqrt raw) ->
    In (date r, price r) raw /\
    notna (log_return r) = true /\
    nonneg_price (price r).
Proof.
  split.
  - rewrite calculate_metrics_drops_head.
    etransitivity; [apply filter_length_le|].
    rewrite length_tl, augmented_length. reflexivity.
  - intros r Hr. rewrite calculate_metrics_eq in Hr.
    apply filter_In in Hr as [Hin Hlog].
    unfold augmented in Hin. cbv zeta in Hin.
    assert (Hpair : In (date r, price r)
                       (map (fun x => (date x, price x))
                            (assemble (map fst (sort_values_date raw))
                               (map snd (sort_values_date raw))
                               (pct_change (map snd (sort_values_date raw)))
                               (diff (map (np_log ln) (map snd (sort_values_date raw))))
                               (rolling 30 series_mean (map snd (sort_values_date raw)))
                               (map (fun v => fmul v (np_sqrt sqrt (of_Z 252)))
                                  (rolling 30 (series_std sqrt)
                                     (diff (map (np_log ln)
                                              (map snd (sort_values_date raw))))))))).
    { apply in_map_iff. exists r. split; [reflexivity | exact Hin]. }
    rewrite assemble_dates_prices in Hpair.
    apply (proj1 (sort_values_date_In _ _)) in Hpair.
    split; [exact Hpair|]. split; [exact Hlog|].
    unfold assemble in Hin. apply in_map_iff in Hin as [i [<- _]].
    cbn [price log_return] in *.
    unfold diff in Hlog. apply diff_from_notna in Hlog.
    change NaN with (np_log ln NaN) in Hlog at 1. rewrite map_nth in Hlog.
    apply np_log_nonneg in Hlog. exact Hlog.
Qed.

Lemma insert_by_date_sorted r l :
  StronglySorted (fun a b : RawPrice => fst a <= fst b) l ->
  StronglySorted (fun a b : RawPrice => fst a <= fst b) (insert_by_date r l).
Proof.
  induction 1 as [|y t Ht IH Hy]; simpl.
  - constructor; constructor.
  - destruct (Z.leb_spec (fst r) (fst y)) as [Hle|Hlt].
    + constructor; [constructor; assumption|].
      constructor; [assumption|].
      eapply Forall_impl; [|exact Hy]. cbv beta. intros z Hz. lia.
    + constructor; [assumption|].
      apply Forall_forall. intros z Hz. apply insert_by_date_In in Hz as [-> | Hz].
      * lia.
      * exact (proj1 (Forall_forall _ _) Hy z Hz).
Qed.

Lemma sort_values_date_sorted_out raw :
  StronglySorted (fun a b : RawPrice => fst a <= fst b) (sort_values_date raw).
Proof.
  induction raw as [|r t IH]; [constructor|].
  cbn [sort_values_date fold_right]. apply insert_by_date_sorted. exact IH.
Qed.

Lemma StronglySorted_map_filter {A B} (R : B -> B -> Prop) (g : A -> B)
    (p : A -> bool) (l : list A) :
  StronglySorted R (map g l) -> StronglySorted R (map g (filter p l)).
Proof.
  induction l as [|a t IH]; intros H; [constructor|].
  cbn [map] in H. apply StronglySorted_inv in H as [Ht Ha].
  cbn [filter]. destruct (p a); [|apply IH; assumption].
  cbn [map]. constructor; [apply IH; assumption|].
  apply Forall_forall. intros b Hb. apply in_map_iff in Hb as [x [<- Hx]].
  apply filter_In in Hx as [Hx _].
  apply (proj1 (Forall_forall _ _) Ha). apply in_map. assumption.
Qed.

Lemma StronglySorted_map {A B} (R : B -> B -> Prop) (h : A -> B) (l : list A) :
  StronglySorted (fun a b => R (h a) (h b)) l -> StronglySorted R (map h l).
Proof.
  induction 1 as [|a t Ht IH Ha]; [constructor|].
  cbn [map]. constructor; [assumption|].
  apply Forall_forall. intros b Hb. apply in_map_iff in Hb as [x [<- Hx]].
  exact (proj1 (Forall_forall _ _) Ha x Hx).
Qed.

(** X12. Whatever the order of the input, the table [calculate_metrics]
    leaves in [self.price_data] is in ascending order of date. *)
Theorem calculate_metrics_sorted raw :
  StronglySorted Z.le (map date (calculate_metrics ln sqrt raw)).
Proof.
  rewrite calculate_metrics_eq.
  assert (H : StronglySorted (fun a b : RawPrice => fst a <= fst b)
                (map (fun x => (date x, price x))
                     (filter (fun r => notna (log_return r)) (augmented ln sqrt raw)))).
  { apply StronglySorted_map_filter. unfold augmented. cbv zeta.
    rewrite assemble_dates_prices. apply sort_values_date_sorted_out. }
  apply StronglySorted_map in H. rewrite map_map in H. exact H.
Qed.

Lemma insert_by_date_perm r l : Permutation (insert_by_date r l) (r :: l).
Proof.
  induction l as [|y t IH]; simpl; [reflexivity|].
  destruct (fst r <=? fst y); [reflexivity|].
  etransitivity; [apply perm_skip; exact IH | apply perm_swap].
Qed.

Lemma sort_values_date_perm raw : Permutation (sort_values_date raw) raw.
Proof.
  induction raw as [|r t IH]; [constructor|].
  cbn [sort_values_date fold_right]. fold (sort_values_date t).
  etransitivity; [apply insert_by_date_perm | apply perm_skip; exact IH].
Qed.

Lemma same_date_same_row (l : list RawPrice) a b :
  NoDup (map fst l) -> In a l -> In b l -> fst a = fst b -> a = b.
Proof.
  induction l as [|x t IH]; intros Hnd Ha Hb Hab; [contradiction|].
  cbn [map] in Hnd. apply NoDup_cons_iff in Hnd as [Hx Hnd].
  destruct Ha as [-> | Ha]; destruct Hb as [-> | Hb].
  - reflexivity.
  - exfalso. apply Hx. rewrite Hab. apply in_map. assumption.
  - exfalso. apply Hx. rewrite <- Hab. apply in_map. assumption.
  - apply IH; assumption.
Qed.

Lemma sorted_by_date_unique (l1 : list RawPrice) : forall l2,
  StronglySorted (fun a b : RawPrice => fst a <= fst b) l1 ->
  StronglySorted (fun a b : RawPrice => fst a <= fst b) l2 ->
  Permutation l1 l2 -> NoDup (map fst l1) -> l1 = l2.
Proof.
  induction l1 as [|a t1 IH]; intros l2 H1 H2 Hp Hnd.
  - apply Permutation_nil in Hp. symmetry. assumption.
  - destruct l2 as [|b t2];
      [apply Permutation_sym, Permutation_nil in Hp; discriminate|].
    apply StronglySorted_inv in H1 as [H1 Ha].
    apply StronglySorted_inv in H2 as [H2 Hb].
    assert (Hab : a = b).
    { assert (Hin_a : In a (b :: t2)) by (apply (Permutation_in _ Hp); left; reflexivity).
      assert (Hin_b : In b (a :: t1))
        by (apply (Permutation_in _ (Permutation_sym Hp)); left; reflexivity).
      apply (same_date_same_row (a :: t1)); [assumption | left; reflexivity | assumption |].
      destruct Hin_a as [E|Hin_a]; [subst; reflexivity|].
      destruct Hin_b as [E|Hin_b]; [subst; reflexivity|].
      pose proof (proj1 (Forall_forall _ _) Hb a Hin_a).
      pose proof (proj1 (Forall_forall _ _) Ha b Hin_b). cbv beta in *. lia. }
    subst b. f_equal. apply IH; try assumption.
    + exact (Permutation_cons_inv Hp).
    + cbn [map] in Hnd. apply NoDup_cons_iff in Hnd. tauto.
Qed.

(** X13. With one row per date the result of [calculate_metrics] does not
    depend on the order in which the rows of the file are given. *)
Theorem calculate_metrics_order_free raw1 raw2 :
  NoDup (map fst raw1) -> Permutation raw1 raw2 ->
  calculate_metrics ln sqrt raw1 = calculate_metrics ln sqrt raw2.
Proof.
  intros Hnd Hp.
  assert (E : sort_values_date raw1 = sort_values_date raw2).
  { apply sorted_by_date_unique; try apply sort_values_date_sorted_out.
    - etransitivity; [apply sort_values_date_perm|].
      etransitivity; [exact Hp | apply Permutation_sym, sort_values_date_perm].
    - eapply Permutation_NoDup; [|exact Hnd].
      apply Permutation_map, Permutation_sym, sort_values_date_perm. }
  unfold calculate_metrics. rewrite E. reflexivity.
Qed.

End MetricsInvariants.

Lemma calculate_metrics_order_free_witness :
  NoDup (map fst Demo.raw4) /\ Permutation Demo.raw4 (rev Demo.raw4) /\
  calculate_metrics Concrete.ln_series Concrete.sqrt_floor Demo.raw4
  = calculate_metrics Concrete.ln_series Concrete.sqrt_floor (rev Demo.raw4).
Proof.
  assert (H1 : NoDup (map fst Demo.raw4)).
  { vm_compute. repeat (apply NoDup_cons; [simpl; intuition discriminate|]).
    apply NoDup_nil. }
  split; [exact H1|]. split; [apply Permutation_rev|].
  exact (calculate_metrics_order_free Concrete.ln_series Concrete.sqrt_floor
           Demo.raw4 (rev Demo.raw4) H1 (Permutation_rev _)).
Defined.

(** ** The values of the derived columns *)

Section MetricsValues.

Variable ln : Q -> Q.
Variable sqrt : Q -> Q.

Lemma diff_from_nth l : forall x i,
  (i < length l)%nat ->
  nth i (diff_from x l) NaN = fsub (nth i l NaN) (nth i (x :: l) NaN).
Proof.
  induction l as [|y t IH]; intros x i Hi; [simpl in Hi; lia|].
  destruct i as [|i]; [reflexivity|].
  cbn [diff_from]. change (nth (S i) (fsub y x :: diff_from y t) NaN)
    with (nth i (diff_from y t) NaN).
  rewrite IH by (simpl in Hi; lia). reflexivity.
Qed.

Lemma pct_from_nth l : forall x i,
  (i < length l)%nat ->
  nth i (pct_from x l) NaN
  = fsub (fdiv (nth i l NaN) (nth i (x :: l) NaN)) (of_Z 1).
Proof.
  induction l as [|y t IH]; intros x i Hi; [simpl in Hi; lia|].
  destruct i as [|i]; [reflexivity|].
  cbn [pct_from]. change (nth (S i) (fsub (fdiv y x) (of_Z 1) :: pct_from y t) NaN)
    with (nth i (pct_from y t) NaN).
  rewrite IH by (simpl in Hi; lia). reflexivity.
Qed.

Lemma ffill_from_all_fin l : forall last, all_fin l -> ffill_from last l = l.
Proof.
  induction l as [|x t IH]; intros last H; [reflexivity|].
  inversion H as [|? ? Hx Ht]; subst. cbn [ffill_from].
  destruct x; try discriminate. cbn [isna]. rewrite IH by assumption. reflexivity.
Qed.

Lemma nth_map_of_nth_error {A B} (f : A -> B) (l : list A) i x d :
  nth_error l i = Some x -> nth i (map f l) d = f x.
Proof.
  intros H. rewrite (nth_indep _ d (f x)).
  - rewrite map_nth. f_equal. apply nth_error_nth. assumption.
  - rewrite length_map. apply nth_error_Some. congruence.
Qed.

Lemma positive_at raw i d a :
  positive_prices raw -> nth_error raw i = Some (d, a) -> positive a.
Proof.
  intros Hpos H. apply nth_error_In in H.
  exact (proj1 (Forall_forall _ _) Hpos (d, a) H).
Qed.

(** The row of the derived table at position [j], for a sorted table with
    strictly positive prices: the row of the augmented table at [j + 1]. *)
Lemma derived_row raw j :
  ascending raw -> positive_prices raw -> (S j < length raw)%nat ->
  nth_error (calculate_metrics ln sqrt raw) j
  = Some (mkPriceRow
            (nth (S j) (map fst raw) 0)
            (nth (S j) (map snd raw) NaN)
            (nth (S j) (pct_change (map snd raw)) NaN)
            (nth (S j) (diff (map (np_log ln) (map snd raw))) NaN)
            (nth (S j) (rolling 30 series_mean (map snd raw)) NaN)
            (nth (S j) (map (fun v => fmul v (np_sqrt sqrt (of_Z 252)))
                            (rolling 30 (series_std sqrt)
                                     (diff (map (np_log ln) (map snd raw))))) NaN)).
Proof.
  intros Hasc Hpos Hj. rewrite calculate_metrics_tail by assumption.
  rewrite nth_error_tl. unfold augmented. cbv zeta.
  rewrite sort_values_date_sorted by assumption.
  apply assemble_nth_error. rewrite length_map. assumption.
Qed.

(** X14. On a table sorted by date in which no date occurs twice, with
    strictly positive prices, the row of the derived table at position [j]
    carries the date and price of input row [j + 1],
    [log_return = ln p1 - ln p0] and [daily_return = p1 / p0 - 1], where
    [p0] and [p1] are the prices of input rows [j] and [j + 1] (as exact
    numbers). *)
Theorem derived_returns raw j d0 p0 d1 p1 :
  strictly_ascending raw -> positive_prices raw ->
  nth_error raw j = Some (d0, Fin p0) ->
  nth_error raw (S j) = Some (d1, Fin p1) ->
  exists r,
    nth_error (calculate_metrics ln sqrt raw) j = Some r /\
    date r = d1 /\ price r = Fin p1 /\
    log_return r = Fin (ln p1 - ln p0) /\
    daily_return r = Fin (p1 / p0 - 1).
Proof.
  intros Hstrict Hpos H0 H1.
  pose proof (strictly_ascending_ascending _ Hstrict) as Hasc.
  assert (Hj : (S j < length raw)%nat) by (apply nth_error_Some; congruence).
  pose proof (positive_at _ _ _ _ Hpos H0) as Hp0.
  pose proof (positive_at _ _ _ _ Hpos H1) as Hp1. simpl in Hp0, Hp1.
  eexists. split; [apply derived_row; assumption|].
  cbn [date price log_return daily_return].
  assert (Ep1 : nth (S j) (map snd raw) NaN = Fin p1)
    by exact (nth_map_of_nth_error snd raw (S j) (d1, Fin p1) NaN H1).
  assert (Ep0 : nth j (map snd raw) NaN = Fin p0)
    by exact (nth_map_of_nth_error snd raw j (d0, Fin p0) NaN H0).
  split; [exact (nth_map_of_nth_error fst raw (S j) (d1, Fin p1) 0 H1)|].
  split; [exact Ep1|]. split.
  - unfold diff. rewrite diff_from_nth by (rewrite !length_map; assumption).
    change (nth (S j) (NaN :: map (np_log ln) (map snd raw)) NaN)
      with (nth j (map (np_log ln) (map snd raw)) NaN).
    change NaN with (np_log ln NaN) at 1 2. rewrite !map_nth, Ep1, Ep0.
    cbn [np_log]. apply Qgt_alt in Hp0, Hp1. rewrite Hp0, Hp1. reflexivity.
  - unfold pct_change. rewrite ffill_from_all_fin by (apply prices_all_fin; assumption).
    rewrite pct_from_nth by (rewrite length_map; assumption).
    change (nth (S j) (NaN :: map snd raw) NaN) with (nth j (map snd raw) NaN).
    rewrite Ep1, Ep0. cbn [fdiv].
    assert (E : Qeq_bool p0 0 = false).
    { destruct (Qeq_bool p0 0) eqn:E; [|reflexivity].
      apply Qeq_bool_iff in E. rewrite E in Hp0. discriminate. }
    rewrite E. reflexivity.
Qed.

(** X15. On a table sorted by date in which no date occurs twice, with
    strictly positive prices, from position 28 of the derived table on,
    [rolling_mean_30d] is the arithmetic mean (sum over count, as exact
    numbers) of the prices of the thirty input rows that end with the row
    itself. *)
Theorem derived_rolling_mean raw j r :
  strictly_ascending raw -> positive_prices raw -> (28 <= j)%nat ->
  nth_error (calculate_metrics ln sqrt raw) j = Some r ->
  rolling_mean_30d r
  = arithmetic_mean (map snd (firstn 30 (skipn (j - 28) raw))).
Proof.
  intros Hstrict Hpos Hj Hr.
  pose proof (strictly_ascending_ascending _ Hstrict) as Hasc.
  assert (Hlen : (S j < length raw)%nat).
  { rewrite calculate_metrics_tail, nth_error_tl in Hr by assumption.
    rewrite <- (augmented_length ln sqrt raw). apply nth_error_Some. congruence. }
  rewrite derived_row in Hr by assumption. injection Hr as <-.
  cbn [rolling_mean_30d].
  pose proof (prices_all_fin _ Hpos) as Hfin.
  assert (Hl : (S j < length (map snd raw))%nat) by (rewrite length_map; assumption).
  rewrite rolling_nth by assumption. cbv zeta.
  rewrite inf_to_nan_fin by assumption.
  destruct (window_all_fin 30 _ (S j) Hfin Hl) as [Hw Hwl].
  rewrite Hwl. replace (Nat.min (S (S j)) 30) with 30%nat by lia.
  rewrite Nat.ltb_irrefl.
  rewrite dropna_all_fin in * by (apply all_fin_skipn, all_fin_firstn; assumption).
  rewrite series_mean_arithmetic.
  - unfold window_at. rewrite <- firstn_map, <- skipn_map.
    rewrite firstn_skipn_comm.
    replace (j - 28 + 30)%nat with (S (S j)) by lia.
    replace (S (S j) - 30)%nat with (j - 28)%nat by lia. reflexivity.
  - eapply Forall_impl; [|exact Hw]. intros a. apply is_fin_notna.
  - intros E. rewrite E in Hwl. simpl in Hwl. lia.
Qed.

End MetricsValues.

Lemma derived_returns_witness :
  strictly_ascending Demo.raw4 /\ positive_prices Demo.raw4 /\
  nth_error Demo.raw4 1 = Some (Concrete.day 2020 1 2, Fin 20) /\
  nth_error Demo.raw4 2 = Some (Concrete.day 2020 1 3, Fin 30) /\
  exists r,
    nth_error (calculate_metrics Concrete.ln_series Concrete.sqrt_floor Demo.raw4) 1
    = Some r /\
    date r = Concrete.day 2020 1 3 /\ price r = Fin 30 /\
    log_return r = Fin (Concrete.ln_series 30 - Concrete.ln_series 20) /\
    daily_return r = Fin (30 / 20 - 1).
Proof.
  split; [exact raw4_strictly_ascending|]. split; [exact raw4_positive|].
  split; [reflexivity|]. split; [reflexivity|].
  exact (derived_returns Concrete.ln_series Concrete.sqrt_floor Demo.raw4 1
           (Concrete.day 2020 1 2) 20 (Concrete.day 2020 1 3) 30
           raw4_strictly_ascending raw4_positive eq_refl eq_refl).
Defined.

Lemma derived_rolling_mean_witness :
  strictly_ascending Demo.raw30 /\ positive_prices Demo.raw30 /\ (28 <= 28)%nat /\
  exists r,
    nth_error (calculate_metrics Concrete.ln_series Concrete.sqrt_floor Demo.raw30) 28
    = Some r /\
    rolling_mean_30d r
    = arithmetic_mean (map snd (firstn 30 (skipn (28 - 28) Demo.raw30))).
Proof.
  split; [exact raw30_strictly_ascending|]. split; [exact raw30_positive|].
  split; [lia|].
  destruct raw30_row_29 as [r [Hr _]]. exists r. split; [exact Hr|].
  exact (derived_rolling_mean Concrete.ln_series Concrete.sqrt_floor Demo.raw30 28 r
           raw30_strictly_ascending raw30_positive (le_n 28) Hr).
Defined.

(** ** More on [get_summary_stats] *)

Lemma iloc_last_nonempty {A} (l : list A) (d : A) :
  l <> [] -> iloc_last l = Returns (last l d).
Proof.
  intros Hne. destruct (exists_last Hne) as [l' [a ->]].
  unfold iloc_last. rewrite rev_unit, last_last. reflexivity.
Qed.

Lemma last_map_comm {A B} (f : A -> B) (l : list A) (d : A) :
  last (map f l) (f d) = f (last l d).
Proof.
  induction l as [|a t IH]; [reflexivity|].
  destruct t as [|b t']; [reflexivity|]. exact IH.
Qed.

(** X16. [get_summary_stats] raises exactly when the price table is empty
    ([strftime] on the missing minimum date, a [ValueError]); on a table
    with rows it returns, and [current] and [volatility] are the price and
    the rolling volatility of the last row. *)
Theorem get_summary_stats_empty sqrt strftime self :
  (price_data self = [] ->
   get_summary_stats sqrt strftime self = (Raises ValueError, self)) /\
  (forall r0, price_data self <> [] ->
   exists stats,
     get_summary_stats sqrt strftime self = (Returns stats, self) /\
     st_current (price_stats stats) = price (last (price_data self) r0) /\
     volatility stats = rolling_volatility_30d (last (price_data self) r0)) /\
  ((exists e, get_summary_stats sqrt strftime self = (Raises e, self))
   <-> price_data self = []).
Proof.
  assert (Hempty : price_data self = [] ->
                   get_summary_stats sqrt strftime self = (Raises ValueError, self)).
  { intros E. unfold get_summary_stats, bind, gets, lift, ret. rewrite E. reflexivity. }
  assert (Hrows : forall r0, price_data self <> [] ->
            exists stats,
              get_summary_stats sqrt strftime self = (Returns stats, self) /\
              st_current (price_stats stats) = price (last (price_data self) r0) /\
              volatility stats = rolling_volatility_30d (last (price_data self) r0)).
  { intros r0 Hne. unfold get_summary_stats, bind, gets, lift, ret.
    assert (Hp : map price (price_data self) <> [])
      by (destruct (price_data self); [contradiction | discriminate]).
    assert (Hv : map rolling_volatility_30d (price_data self) <> [])
      by (destruct (price_data self); [contradiction | discriminate]).
    rewrite (iloc_last_nonempty _ (price r0) Hp).
    rewrite (iloc_last_nonempty _ (rolling_volatility_30d r0) Hv).
    destruct (price_data self) as [|r t] eqn:E; [contradiction|].
    cbn [map dates_min dates_max strftime_o].
    eexists. split; [reflexivity|]. cbn [price_stats st_current volatility].
    rewrite <- !(map_cons _ r t), !last_map_comm. split; reflexivity. }
  split; [exact Hempty|]. split; [exact Hrows|]. split.
  - intros [e He]. destruct (price_data self) as [|r t] eqn:E; [reflexivity|].
    destruct (Hrows r ltac:(discriminate)) as [stats [Hs _]].
    rewrite Hs in He. discriminate.
  - intros E. eexists. apply Hempty. exact E.
Qed.

(** X17. A price file with fewer than two rows leaves the backend with an
    empty price table, and the statistics raise. *)
Theorem summary_stats_needs_two_rows ln sqrt parse_ts csv_date strftime
    files self files' raw :
  cleaned_csv files = Some raw -> (length raw <= 1)%nat ->
  load_data ln sqrt parse_ts csv_date files = Returns (self, files') ->
  price_data self = [] /\
  get_summary_stats sqrt strftime self = (Raises ValueError, self).
Proof.
  intros Hcsv Hlen Hload.
  assert (E : price_data self = []).
  { rewrite (load_data_price_data _ _ _ _ _ _ _ _ Hcsv Hload).
    pose proof (filter_length_le (fun r => notna (log_return r))
                                 (tl (augmented ln sqrt raw))) as H.
    rewrite <- calculate_metrics_drops_head in H.
    rewrite length_tl, augmented_length in H.
    destruct (calculate_metrics ln sqrt raw); [reflexivity | simpl in H; lia]. }
  split; [exact E|].
  unfold get_summary_stats, bind, gets, lift, ret. rewrite E. reflexivity.
Qed.

Lemma summary_stats_needs_two_rows_witness :
  cleaned_csv Demo.files1 = Some Demo.prices1 /\ (length Demo.prices1 <= 1)%nat /\
  load_data Concrete.ln_series Concrete.sqrt_floor Concrete.parse_iso
            Concrete.format_iso Demo.files1
  = Returns (Demo.loaded Demo.files1, Demo.files_left Demo.files1) /\
  price_data (Demo.loaded Demo.files1) = [] /\
  get_summary_stats Concrete.sqrt_floor Concrete.format_iso (Demo.loaded Demo.files1)
  = (Raises ValueError, Demo.loaded Demo.files1).
Proof.
  assert (H : load_data Concrete.ln_series Concrete.sqrt_floor Concrete.parse_iso
                        Concrete.format_iso Demo.files1
              = Returns (Demo.loaded Demo.files1, Demo.files_left Demo.files1))
    by (vm_compute; reflexivity).
  split; [reflexivity|]. split; [simpl; lia|]. split; [exact H|].
  exact (summary_stats_needs_two_rows _ _ _ _ Concrete.format_iso Demo.files1 _ _
           Demo.prices1 eq_refl (le_n 1) H).
Defined.

Lemma fold_fmin_fin l : forall x,
  all_fin l ->
  exists m,
    fold_left fmin l (Fin x) = Fin m /\ (m <= x)%Q /\
    (forall q, In (Fin q) l -> (m <= q)%Q) /\
    (Fin m = Fin x \/ In (Fin m) l).
Proof.
  induction l as [|y t IH]; intros x H.
  - exists x. split; [reflexivity|]. split; [apply Qle_refl|].
    split; [intros q []|left; reflexivity].
  - inversion H as [|? ? Hy Ht]; subst. destruct (is_fin_inv y Hy) as [qy ->].
    cbn [fold_left]. unfold fmin at 2. cbn [fleb].
    destruct (Qle_bool x qy) eqn:E.
    + apply Qle_bool_iff in E. destruct (IH x Ht) as [m [H1 [H2 [H3 H4]]]].
      exists m. split; [exact H1|]. split; [exact H2|]. split.
      * intros q [Hq|Hq]; [injection Hq as <-; eapply Qle_trans; eassumption|auto].
      * destruct H4; [left | right; right]; assumption.
    + assert (Hlt : (qy < x)%Q).
      { apply Qnot_le_lt. intros Hle. apply Qle_bool_iff in Hle. congruence. }
      destruct (IH qy Ht) as [m [H1 [H2 [H3 H4]]]].
      exists m. split; [exact H1|]. split; [lra|]. split.
      * intros q [Hq|Hq]; [injection Hq as <-; exact H2|auto].
      * right. destruct H4 as [H4|H4]; [left; symmetry; exact H4 | right; exact H4].
Qed.

Lemma fold_fmax_fin l : forall x,
  all_fin l ->
  exists m,
    fold_left fmax l (Fin x) = Fin m /\ (x <= m)%Q /\
    (forall q, In (Fin q) l -> (q <= m)%Q) /\
    (Fin m = Fin x \/ In (Fin m) l).
Proof.
  induction l as [|y t IH]; intros x H.
  - exists x. split; [reflexivity|]. split; [apply Qle_refl|].
    split; [intros q []|left; reflexivity].
  - inversion H as [|? ? Hy Ht]; subst. destruct (is_fin_inv y Hy) as [qy ->].
    cbn [fold_left]. unfold fmax at 2. cbn [fleb].
    destruct (Qle_bool x qy) eqn:E.
    + apply Qle_bool_iff in E. destruct (IH qy Ht) as [m [H1 [H2 [H3 H4]]]].
      exists m. split; [exact H1|]. split; [lra|]. split.
      * intros q [Hq|Hq]; [injection Hq as <-; exact H2|auto].
      * right. destruct H4 as [H4|H4]; [left; symmetry; exact H4 | right; exact H4].
    + assert (Hlt : (qy < x)%Q).
      { apply Qnot_le_lt. intros Hle. apply Qle_bool_iff in Hle. congruence. }
      destruct (IH x Ht) as [m [H1 [H2 [H3 H4]]]].
      exists m. split; [exact H1|]. split; [exact H2|]. split.
      * intros q [Hq|Hq]; [injection Hq as <-; lra|auto].
      * destruct H4; [left | right; right]; assumption.
Qed.

(** X18. On a table whose prices are all finite, the [min] and [max] that
    [get_summary_stats] reports are prices of rows of the table, and every
    price of the table lies between them. *)
Theorem summary_stats_bounds sqrt strftime self stats :
  get_summary_stats sqrt strftime self = (Returns stats, self) ->
  all_fin (map price (price_data self)) ->
  exists lo hi,
    st_min (price_stats stats) = Fin lo /\
    st_max (price_stats stats) = Fin hi /\
    (forall r, In r (price_data self) ->
       exists q, price r = Fin q /\ (lo <= q <= hi)%Q) /\
    (exists r, In r (price_data self) /\ price r = Fin lo) /\
    (exists r, In r (price_data self) /\ price r = Fin hi).
Proof.
  intros Hs Hfin.
  unfold get_summary_stats, bind, gets, lift, ret in Hs.
  destruct (price_data self) as [|r0 t] eqn:E; [discriminate|].
  cbn [map dates_min dates_max strftime_o] in Hs.
  rewrite <- !(map_cons _ r0 t) in Hs.
  rewrite (iloc_last_nonempty (map price (r0 :: t)) (price r0)) in Hs by discriminate.
  rewrite (iloc_last_nonempty (map rolling_volatility_30d (r0 :: t))
             (rolling_volatility_30d r0)) in Hs by discriminate.
  injection Hs as <-. cbn [price_stats st_min st_max].
  set (prices := map price (r0 :: t)) in *.
  assert (Hin : forall q, In (Fin q) prices <-> exists r, In r (r0 :: t) /\ price r = Fin q).
  { intros q. unfold prices. rewrite in_map_iff. split; intros [r [H1 H2]];
      exists r; tauto. }
  unfold series_min, series_max.
  rewrite dropna_all_fin by assumption.
  destruct prices as [|p0 ps] eqn:Ep; [discriminate|].
  inversion Hfin as [|? ? Hp0 Hps]; subst.
  destruct (is_fin_inv p0 Hp0) as [x ->].
  destruct (fold_fmin_fin ps x Hps) as [lo [L1 [L2 [L3 L4]]]].
  destruct (fold_fmax_fin ps x Hps) as [hi [U1 [U2 [U3 U4]]]].
  assert (Hb : forall q, In (Fin q) (Fin x :: ps) -> (lo <= q <= hi)%Q).
  { intros q [Hq|Hq]; [injection Hq as <-; split; assumption|].
    split; [apply L3 | apply U3]; assumption. }
  assert (Ep0 : price r0 = Fin x) by (unfold prices in Ep; cbn [map] in Ep; congruence).
  assert (Eps : map price t = ps) by (unfold prices in Ep; cbn [map] in Ep; congruence).
  cbv beta iota. rewrite Ep0, Eps, L1, U1.
  exists lo, hi.
  split; [reflexivity|]. split; [reflexivity|].
  split; [|split].
  - intros r Hr. assert (Hp : In (price r) (Fin x :: ps))
      by (rewrite <- Ep; unfold prices; apply in_map; assumption).
    pose proof (proj1 (Forall_forall _ _) Hfin _ Hp) as Hf.
    destruct (is_fin_inv _ Hf) as [q Hq]. exists q. split; [exact Hq|].
    apply Hb. rewrite <- Hq. exact Hp.
  - apply Hin. destruct L4 as [L4|L4]; [left; symmetry; exact L4 | right; exact L4].
  - apply Hin. destruct U4 as [U4|U4]; [left; symmetry; exact U4 | right; exact U4].
Qed.

Lemma api4_all_fin : all_fin (map price (price_data Demo.api4)).
Proof. vm_compute. repeat (apply Forall_cons; [reflexivity|]). apply Forall_nil. Qed.

Lemma summary_stats_bounds_witness :
  exists stats,
    get_summary_stats Concrete.sqrt_floor Concrete.format_iso Demo.api4
    = (Returns stats, Demo.api4) /\
    all_fin (map price (price_data Demo.api4)) /\
    exists lo hi,
      st_min (price_stats stats) = Fin lo /\
      st_max (price_stats stats) = Fin hi /\
      (forall r, In r (price_data Demo.api4) ->
         exists q, price r = Fin q /\ (lo <= q <= hi)%Q) /\
      (exists r, In r (price_data Demo.api4) /\ price r = Fin lo) /\
      (exists r, In r (price_data Demo.api4) /\ price r = Fin hi).
Proof.
  assert (H : { stats | get_summary_stats Concrete.sqrt_floor Concrete.format_iso Demo.api4
                        = (Returns stats, Demo.api4) }).
  { vm_compute. eexists. reflexivity. }
  destruct H as [stats H]. exists stats. split; [exact H|].
  split; [exact api4_all_fin|].
  exact (summary_stats_bounds _ _ _ stats H api4_all_fin).
Defined.

(** ** What [load_data] establishes *)

Lemma map_o_to_datetime parse_ts (rows : list (EventRecord string)) events :
  map_o (fun e => obind (to_datetime parse_ts (ev_date e)) (fun c =>
                  Returns (with_date (fun _ => c) e))) rows = Returns events ->
  dates_converted events /\
  map (with_date (fun _ => tt)) events = map (with_date (fun _ => tt)) rows.
Proof.
  revert events. induction rows as [|e t IH]; intros events H.
  - injection H as <-. split; [constructor | reflexivity].
  - cbn [map_o] in H. unfold to_datetime in H at 1.
    destruct (parse_ts (ev_date e)) eqn:Ep; cbn [obind] in H; try discriminate;
      (destruct (map_o _ t) as [evs|]; cbn [obind] in H; [|discriminate];
       injection H as <-; destruct (IH evs eq_refl) as [H1 H2];
       split; [constructor; [intros s; discriminate | exact H1]
              | cbn [map]; rewrite H2; reflexivity]).
Qed.

(** X19. What the constructor's [load_data] does. It raises
    [FileNotFoundError] when neither price file is there. When it returns,
    the price table is [calculate_metrics] of the cleaned file, or of the raw
    file if there is no cleaned one; the change point is the file's, or the
    mock; the price and change-point files are untouched and there is an
    events file afterwards. An existing events file is left as it is and
    gives string dates; otherwise the twelve seed events are there with
    converted dates. *)
Theorem load_data_outcome ln sqrt parse_ts csv_date files :
  (cleaned_csv files = None -> raw_csv files = None ->
   load_data ln sqrt parse_ts csv_date files = Raises FileNotFoundError) /\
  (forall self files',
     load_data ln sqrt parse_ts csv_date files = Returns (self, files') ->
     (exists raw,
        match cleaned_csv files with
        | Some rows => Some rows
        | None => raw_csv files
        end = Some raw /\
        price_data self = calculate_metrics ln sqrt raw) /\
     change_points self = match change_point_json files with
                          | Some j => j
                          | None => mock_change_points
                          end /\
     cleaned_csv files' = cleaned_csv files /\
     raw_csv files' = raw_csv files /\
     change_point_json files' = change_point_json files /\
     events_csv files' <> None /\
     (forall rows, events_csv files = Some rows ->
        files' = files /\ events_data self = map (with_date DStr) rows) /\
     (events_csv files = None ->
        dates_converted (events_data self) /\
        map (with_date (fun _ => tt)) (events_data self)
        = map (with_date (fun _ => tt)) seed_events /\
        events_csv files' = Some (map (with_date (to_csv_date csv_date)) (events_data self)))).
Proof.
  split.
  - intros H1 H2. unfold load_data. rewrite H1, H2. reflexivity.
  - intros self files' H. unfold load_data in H.
    assert (Hraw : exists raw,
               match cleaned_csv files with
               | Some rows => Some rows
               | None => raw_csv files
               end = Some raw /\
               obind (load_or_create_events parse_ts csv_date files) (fun ef =>
                 Returns (mkApi (calculate_metrics ln sqrt raw) (fst ef)
                                (load_change_points files), snd ef))
               = Returns (self, files')).
    { destruct (cleaned_csv files) as [c|]; [exists c; split; [reflexivity | exact H]|].
      destruct (raw_csv files) as [r|]; [exists r; split; [reflexivity | exact H]|].
      discriminate. }
    clear H. destruct Hraw as [raw [Hsrc H]].
    unfold load_or_create_events in H.
    destruct (events_csv files) as [rows|] eqn:Ecsv.
    + cbn [obind fst snd] in H. injection H as <- <-.
      split; [exists raw; split; [exact Hsrc | reflexivity]|].
      split; [reflexivity|]. split; [reflexivity|]. split; [reflexivity|].
      split; [reflexivity|]. split; [rewrite Ecsv; discriminate|].
      split; [|discriminate].
      intros rows' Hrows. injection Hrows as <-. split; reflexivity.
    + destruct (map_o _ seed_events) as [events|] eqn:Eseed; [|discriminate].
      cbn [obind fst snd] in H. injection H as <- <-.
      destruct (map_o_to_datetime _ _ _ Eseed) as [Hconv Hsame].
      split; [exists raw; split; [exact Hsrc | reflexivity]|].
      split; [reflexivity|]. split; [reflexivity|]. split; [reflexivity|].
      split; [reflexivity|]. split; [discriminate|].
      split; [discriminate|].
      intros _. split; [exact Hconv|]. split; [exact Hsame | reflexivity].
Qed.

Lemma with_date_compose {D E F} (f : D -> E) (g : E -> F) (e : EventRecord D) :
  with_date g (with_date f e) = with_date (fun d => g (f d)) e.
Proof. reflexivity. Qed.

Lemma with_date_erase_map {D E} (f : D -> E) (l : list (EventRecord D)) :
  map (with_date (fun _ => tt)) (map (with_date f) l) = map (with_date (fun _ => tt)) l.
Proof. rewrite map_map. apply map_ext. intros e. reflexivity. Qed.

Lemma dates_as_read_map (rows : list (EventRecord string)) :
  dates_as_read (map (with_date DStr) rows).
Proof.
  apply Forall_forall. intros ev Hin. apply in_map_iff in Hin as [row [<- _]].
  eexists. reflexivity.
Qed.

(** X20. A second start of the backend on the files the first one left
    changes nothing on disk and gives the same price table, the same change
    point and the same events -- except that the events' dates are now the
    strings of the file. *)
Theorem restart_keeps_all_but_dates ln sqrt parse_ts csv_date files self1 files1 :
  load_data ln sqrt parse_ts csv_date files = Returns (self1, files1) ->
  exists self2,
    load_data ln sqrt parse_ts csv_date files1 = Returns (self2, files1) /\
    price_data self2 = price_data self1 /\
    change_points self2 = change_points self1 /\
    map (with_date (fun _ => tt)) (events_data self2)
    = map (with_date (fun _ => tt)) (events_data self1) /\
    dates_as_read (events_data self2).
Proof.
  intros H. unfold load_data in *.
  destruct (cleaned_csv files) as [c|] eqn:Ec;
    [|destruct (raw_csv files) as [r|] eqn:Er; [|discriminate]];
    cbn [obind] in H; unfold load_or_create_events in H;
    (destruct (events_csv files) as [rows|] eqn:Ecsv;
     [ cbn [obind fst snd] in H; injection H as <- <-;
       rewrite Ec, ?Er; cbn [obind]; unfold load_or_create_events; rewrite Ecsv;
       cbn [obind fst snd]; eexists; split; [reflexivity|];
       cbn [price_data change_points events_data];
       split; [reflexivity|]; split; [reflexivity|]; split; [reflexivity|];
       apply dates_as_read_map
     | destruct (map_o _ seed_events) as [events|]; [|discriminate];
       cbn [obind fst snd] in H; injection H as <- <-;
       cbn [cleaned_csv raw_csv events_csv change_point_json obind];
       rewrite ?Ec, ?Er; cbn [obind];
       unfold load_or_create_events;
       cbn [cleaned_csv raw_csv events_csv change_point_json obind fst snd];
       eexists; split; [reflexivity|];
       cbn [price_data change_points events_data];
       split; [reflexivity|]; split; [reflexivity|];
       split; [rewrite !with_date_erase_map; reflexivity | apply dates_as_read_map] ]).
Qed.

Lemma restart_keeps_all_but_dates_witness :
  load_data Concrete.ln_series Concrete.sqrt_floor Concrete.parse_iso
            Concrete.format_iso Demo.files_first_run
  = Returns (Demo.loaded Demo.files_first_run, Demo.files_left Demo.files_first_run) /\
  exists self2,
    load_data Concrete.ln_series Concrete.sqrt_floor Concrete.parse_iso
              Concrete.format_iso (Demo.files_left Demo.files_first_run)
    = Returns (self2, Demo.files_left Demo.files_first_run) /\
    price_data self2 = price_data (Demo.loaded Demo.files_first_run) /\
    change_points self2 = change_points (Demo.loaded Demo.files_first_run) /\
    map (with_date (fun _ => tt)) (events_data self2)
    = map (with_date (fun _ => tt)) (events_data (Demo.loaded Demo.files_first_run)) /\
    dates_as_read (events_data self2).
Proof.
  assert (H : load_data Concrete.ln_series Concrete.sqrt_floor Concrete.parse_iso
                        Concrete.format_iso Demo.files_first_run
              = Returns (Demo.loaded Demo.files_first_run,
                         Demo.files_left Demo.files_first_run))
    by (vm_compute; reflexivity).
  split; [exact H|].
  exact (restart_keeps_all_but_dates _ _ _ _ _ _ _ H).
Defined.

(** ** [setup_dashboard] and the first events *)

Lemma seed_event_found id :
  1 <= id <= 12 -> find_event (map (with_date DStr) seed_events) id <> None.
Proof.
  intros H.
  assert (C : id = 1 \/ id = 2 \/ id = 3 \/ id = 4 \/ id = 5 \/ id = 6 \/
              id = 7 \/ id = 8 \/ id = 9 \/ id = 10 \/ id = 11 \/ id = 12) by lia.
  repeat (destruct C as [-> | C]; [discriminate|]). subst id. discriminate.
Qed.

(** X21. [setup_dashboard] writes the events and change-point files only
    when they are missing, so running it twice changes nothing more. The
    backend started after it reads the events with string dates and writes
    nothing; on a checkout that had no events file, [get_event_impact]
    then raises [TypeError] for each of the twelve seed ids. *)
Theorem setup_dashboard_then_load ln sqrt parse_ts csv_date files :
  setup_dashboard (setup_dashboard files) = setup_dashboard files /\
  (forall rows, events_csv files = Some rows ->
     events_csv (setup_dashboard files) = Some rows) /\
  (forall j, change_point_json files = Some j ->
     change_point_json (setup_dashboard files) = Some j) /\
  (forall self files',
     load_data ln sqrt parse_ts csv_date (setup_dashboard files)
     = Returns (self, files') ->
     files' = setup_dashboard files /\
     dates_as_read (events_data self) /\
     (change_point_json files = None -> change_points self = mock_change_points) /\
     (events_csv files = None ->
      forall id, 1 <= id <= 12 ->
        get_event_impact id self = (Raises TypeError, self))).
Proof.
  split; [unfold setup_dashboard; cbn;
          destruct (events_csv files), (change_point_json files); reflexivity|].
  split; [intros rows H; unfold setup_dashboard; cbn; rewrite H; reflexivity|].
  split; [intros j H; unfold setup_dashboard; cbn; rewrite H; reflexivity|].
  intros self files' H.
  assert (Hrows : exists rows, events_csv (setup_dashboard files) = Some rows /\
                               (events_csv files = None -> rows = seed_events)).
  { unfold setup_dashboard. cbn [events_csv].
    destruct (events_csv files) as [rows|]; eexists; split; try reflexivity.
    discriminate. }
  destruct Hrows as [rows [Hrows Hseed]].
  destruct (load_data_csv_events _ _ _ _ _ _ _ _ Hrows H) as [Hev Hfiles].
  split; [exact Hfiles|]. split; [rewrite Hev; apply dates_as_read_map|]. split.
  - intros Hcp. unfold load_data in H.
    destruct (match cleaned_csv (setup_dashboard files) with
              | Some rows0 => Returns rows0
              | None => match raw_csv (setup_dashboard files) with
                        | Some rows0 => Returns rows0
                        | None => Raises FileNotFoundError
                        end
              end) as [raw|]; [|discriminate].
    cbn [obind] in H.
    destruct (load_or_create_events parse_ts csv_date (setup_dashboard files));
      [|discriminate].
    cbn [obind] in H. injection H as <- _. cbn [change_points].
    unfold load_change_points, setup_dashboard. cbn [change_point_json].
    rewrite Hcp. reflexivity.
  - intros Hnone id Hid.
    apply (get_event_impact_csv_raises _ _ _ _ _ _ _ _ id Hrows H).
    rewrite Hev, (Hseed Hnone). apply seed_event_found. exact Hid.
Qed.

Lemma find_event_none events id :
  find_event events id = None <-> ~ In id (map ev_id events).
Proof.
  unfold find_event. induction events as [|e t IH]; [simpl; tauto|].
  cbn [find map In]. destruct (Z.eqb_spec (ev_id e) id) as [E|E].
  - split; [discriminate | intros H; exfalso; apply H; left; exact E].
  - rewrite IH. tauto.
Qed.

Lemma ev_id_erased {D} (l : list (EventRecord D)) :
  map ev_id (map (with_date (fun _ => tt)) l) = map ev_id l.
Proof. rewrite map_map. apply map_ext. intros e. reflexivity. Qed.

(** X22. When the backend synthesizes the events (no events file), the ids
    it knows are exactly 1 to 12, and [get_event_impact] never raises: it
    returns [None] for every other id, and [None] or an impact for these. *)
Theorem first_run_event_ids ln sqrt parse_ts csv_date files self files' :
  events_csv files = None ->
  load_data ln sqrt parse_ts csv_date files = Returns (self, files') ->
  forall id,
    (find_event (events_data self) id <> None <-> 1 <= id <= 12) /\
    exists res,
      get_event_impact id self = (Returns res, self) /\
      (~ 1 <= id <= 12 -> res = None).
Proof.
  intros Hcsv H id. unfold load_data in H.
  destruct (match cleaned_csv files with
            | Some rows0 => Returns rows0
            | None => match raw_csv files with
                      | Some rows0 => Returns rows0
                      | None => Raises FileNotFoundError
                      end
            end) as [raw|]; [|discriminate].
  cbn [obind] in H. unfold load_or_create_events in H. rewrite Hcsv in H.
  destruct (map_o _ seed_events) as [events|] eqn:Eseed; [|discriminate].
  cbn [obind fst snd] in H. injection H as <- _. cbn [events_data].
  destruct (map_o_to_datetime _ _ _ Eseed) as [Hconv Hsame].
  assert (Hids : map ev_id events = map ev_id seed_events).
  { rewrite <- (ev_id_erased events), Hsame. apply ev_id_erased. }
  assert (Hfound : find_event events id <> None <-> 1 <= id <= 12).
  { split.
    - intros Hf. destruct (Z.le_gt_cases 1 id); destruct (Z.le_gt_cases id 12);
        try lia; exfalso; apply Hf; apply find_event_none; rewrite Hids; simpl; lia.
    - intros Hid Hf. apply find_event_none in Hf. apply Hf. rewrite Hids. simpl. lia. }
  split; [exact Hfound|].
  destruct (get_event_impact_converted id
              (mkApi (calculate_metrics ln sqrt raw) events (load_change_points files))
              Hconv) as [res [Hres Hnone]].
  exists res. split; [exact Hres|].
  intros Hid. apply Hnone. left. cbn [events_data].
  apply find_event_none. rewrite Hids. simpl. lia.
Qed.

Lemma first_run_event_ids_witness :
  events_csv Demo.files_first_run = None /\
  load_data Concrete.ln_series Concrete.sqrt_floor Concrete.parse_iso
            Concrete.format_iso Demo.files_first_run
  = Returns (Demo.loaded Demo.files_first_run, Demo.files_left Demo.files_first_run) /\
  forall id,
    (find_event (events_data (Demo.loaded Demo.files_first_run)) id <> None
     <-> 1 <= id <= 12) /\
    exists res,
      get_event_impact id (Demo.loaded Demo.files_first_run)
      = (Returns res, Demo.loaded Demo.files_first_run) /\
      (~ 1 <= id <= 12 -> res = None).
Proof.
  assert (H : load_data Concrete.ln_series Concrete.sqrt_floor Concrete.parse_iso
                        Concrete.format_iso Demo.files_first_run
              = Returns (Demo.loaded Demo.files_first_run,
                         Demo.files_left Demo.files_first_run))
    by (vm_compute; reflexivity).
  split; [reflexivity|]. split; [exact H|].
  exact (first_run_event_ids _ _ _ _ Demo.files_first_run _ _ eq_refl H).
Defined.

(** ** The list routes *)

(** X23. The prices route never answers with a failure: it either raises
    or answers success with [count] the number of rows in [data], all of
    them rows of the stored table within the bounds, never more than the
    table holds. A limit that is not an integer raises [ValueError]; without
    a limit 5000 is used, so a table of at most 5000 rows is answered with
    every row within the bounds, when each date argument is absent or
    parses to a tz-naive timestamp or to NaT. *)
Theorem route_prices_outcome parse_ts py_int args self :
  (forall s, args_get args "limit" = Some s -> py_int s = None ->
     route_prices parse_ts py_int args self = (Raises ValueError, self)) /\
  (forall r self',
     route_prices parse_ts py_int args self = (Returns r, self') ->
     exists data,
       r = Success (Some (length data)) (PPrices data) /\
       (length data <= length (price_data self))%nat /\
       forall row, In row data ->
         In row (price_data self) /\
         in_bounds parse_ts (args_get args "start_date") (args_get args "end_date") row
         = true) /\
  (args_get args "limit" = None ->
   ~ malformed parse_ts (args_get args "start_date") ->
   ~ malformed parse_ts (args_get args "end_date") ->
   ~ zoned parse_ts (args_get args "start_date") ->
   ~ zoned parse_ts (args_get args "end_date") ->
   (length (price_data self) <= 5000)%nat ->
   route_prices parse_ts py_int args self
   = (Returns (Success
                 (Some (length (filter (in_bounds parse_ts (args_get args "start_date")
                                                  (args_get args "end_date"))
                                       (price_data self))))
                 (PPrices (filter (in_bounds parse_ts (args_get args "start_date")
                                             (args_get args "end_date"))
                                  (price_data self)))), self)).
Proof.
  unfold route_prices, bind, lift, ret, int_of. split; [|split].
  - intros s Hs Hint. rewrite Hs, Hint. reflexivity.
  - intros r self' H.
    destruct (match args_get args "limit" with
              | Some s => match py_int s with
                          | Some z => Returns z
                          | None => Raises ValueError
                          end
              | None => Returns 5000
              end) as [limit|]; [|discriminate].
    destruct (get_price_data parse_ts (args_get args "start_date")
                (args_get args "end_date") limit self) as [[data|e] self1] eqn:E;
      [|discriminate].
    injection H as <- <-. exists data. split; [reflexivity|].
    destruct (get_price_data_rows _ _ _ _ _ _ _ E) as [Hin Hlen].
    split; [exact Hlen | exact Hin].
  - intros Hlimit Hs He Zs Ze Hlen. rewrite Hlimit.
    rewrite (get_price_data_whole parse_ts self _ _ 5000
               (filter (in_bounds parse_ts (args_get args "start_date")
                                  (args_get args "end_date")) (price_data self))).
    + reflexivity.
    + apply date_filtered_in_bounds; assumption.
    + pose proof (filter_length_le (in_bounds parse_ts (args_get args "start_date")
                                              (args_get args "end_date"))
                                   (price_data self)). lia.
Qed.

(** X24. The events route without date arguments always answers success,
    however the dates are stored: with the events of the requested type,
    [count] their number, and with the whole table when no type is given. *)
Theorem route_events_no_dates parse_ts args self :
  given (args_get args "start_date") = None ->
  given (args_get args "end_date") = None ->
  (forall ty, args_get args "type" = Some ty ->
     route_events parse_ts args self
     = (Returns (Success (Some (length (filter (type_ok (Some ty)) (events_data self))))
                         (PEvents (filter (type_ok (Some ty)) (events_data self)))),
        self)) /\
  (args_get args "type" = None ->
   route_events parse_ts args self
   = (Returns (Success (Some (length (events_data self))) (PEvents (events_data self))),
      self)).
Proof.
  intros Hs He. unfold route_events, bind, ret. split.
  - intros ty Hty. rewrite Hty, get_events_eq, Hs, He. reflexivity.
  - intros Hty. rewrite Hty, get_events_eq, Hs, He. cbn [obind].
    unfold type_selected, type_ok. cbn [given String.eqb orb].
    rewrite filter_true. reflexivity.
Qed.

Lemma route_events_no_dates_witness :
  given (args_get [("type", "Policy")]%string "start_date") = None /\
  given (args_get [("type", "Policy")]%string "end_date") = None /\
  route_events Concrete.parse_iso [("type", "Policy")]%string
               (Demo.loaded Demo.files_after_setup)
  = (Returns (Success
                (Some (length (filter (type_ok (Some "Policy"%string))
                                      (events_data (Demo.loaded Demo.files_after_setup)))))
                (PEvents (filter (type_ok (Some "Policy"%string))
                                 (events_data (Demo.loaded Demo.files_after_setup))))),
     Demo.loaded Demo.files_after_setup).
Proof.
  split; [reflexivity|]. split; [reflexivity|].
  apply (route_events_no_dates Concrete.parse_iso [("type", "Policy")]%string
           (Demo.loaded Demo.files_after_setup) eq_refl eq_refl).
  reflexivity.
Defined.

(** ** The preview rows of an impact *)

Lemma In_firstn {A} (n : nat) (l : list A) x : In x (firstn n l) -> In x l.
Proof.
  intros H. rewrite <- (firstn_skipn n l). apply in_or_app. left. exact H.
Qed.

Lemma days_in_window d r :
  d - timedelta 30 <= date r <= d + timedelta 30 ->
  -30 <= days_from_event d r <= 30.
Proof.
  unfold days_from_event, td_days, timedelta. intros H.
  assert (HN : 0 < NS_PER_DAY) by reflexivity. split.
  - apply Z.div_le_lower_bound; lia.
  - apply Z.div_le_upper_bound; lia.
Qed.

(** X25. The [data_points] of an impact are the first hundred rows selected
    in the window, in the order of the table, each with its day offset from
    the event, which lies between -30 and 30; the means are taken on the
    whole selection, not on this preview. *)
Theorem event_impact_data_points event_id self imp self' :
  get_event_impact event_id self = (Returns (Some imp), self') ->
  exists ev d,
    find_event (events_data self) event_id = Some ev /\
    ev_date ev = DTimestamp d /\
    event imp = ev /\
    data_points imp
    = firstn 100 (map (fun r => (r, Some (days_from_event d r)))
                      (window_rows 30 d (price_data self))) /\
    (length (data_points imp) <= 100)%nat /\
    (forall r o, In (r, o) (data_points imp) ->
       In r (price_data self) /\
       exists k, o = Some k /\ k = days_from_event d r /\ -30 <= k <= 30) /\
    price_before imp
    = mean_price (before_partition d (window_rows 30 d (price_data self))) /\
    price_after imp
    = mean_price (after_partition d (window_rows 30 d (price_data self))).
Proof.
  rewrite get_event_impact_eq. intros H. injection H as H _.
  destruct (find_event (events_data self) event_id) as [ev|] eqn:Efind; [|discriminate].
  destruct (ev_date ev) as [d| |str] eqn:Edate; try discriminate.
  destruct (window_rows 30 d (price_data self)) as [|r0 sel0] eqn:Esel; [discriminate|].
  injection H as <-. exists ev, d. rewrite !Esel.
  split; [reflexivity|]. split; [exact Edate|]. split; [reflexivity|].
  split; [reflexivity|]. split; [apply firstn_le_length|].
  split; [|split; reflexivity].
  intros r o Hin. cbn [impact_of data_points] in Hin.
  apply In_firstn in Hin. apply in_map_iff in Hin as [x [Hx Hin]].
  injection Hx as -> <-. rewrite <- Esel in Hin.
  apply window_rows_In in Hin as [Hin Hw].
  split; [exact Hin|]. eexists. split; [reflexivity|]. split; [reflexivity|].
  apply days_in_window. exact Hw.
Qed.

Lemma event_impact_data_points_witness :
  exists imp,
    get_event_impact 8 (Demo.loaded Demo.files_first_run)
    = (Returns (Some imp), Demo.loaded Demo.files_first_run) /\
    exists ev d,
      find_event (events_data (Demo.loaded Demo.files_first_run)) 8 = Some ev /\
      ev_date ev = DTimestamp d /\
      event imp = ev /\
      data_points imp
      = firstn 100 (map (fun r => (r, Some (days_from_event d r)))
                        (window_rows 30 d (price_data (Demo.loaded Demo.files_first_run)))) /\
      (length (data_points imp) <= 100)%nat /\
      (forall r o, In (r, o) (data_points imp) ->
         In r (price_data (Demo.loaded Demo.files_first_run)) /\
         exists k, o = Some k /\ k = days_from_event d r /\ -30 <= k <= 30) /\
      price_before imp
      = mean_price (before_partition d
                      (window_rows 30 d (price_data (Demo.loaded Demo.files_first_run)))) /\
      price_after imp
      = mean_price (after_partition d
                      (window_rows 30 d (price_data (Demo.loaded Demo.files_first_run)))).
Proof.
  assert (H : { imp | get_event_impact 8 (Demo.loaded Demo.files_first_run)
                      = (Returns (Some imp), Demo.loaded Demo.files_first_run) }).
  { vm_compute. eexists. reflexivity. }
  destruct H as [imp H]. exists imp. split; [exact H|].
  exact (event_impact_data_points 8 _ imp _ H).
Defined.
